(** * pinmypic face-recognition service: inference orchestration and matching

    A shallow embedding of [server/face-recognition/face_processor.py]
    (class [FaceProcessor]), of the module [config.py] it imports, of
    the handlers and the matching and admission code of
    [server/face-recognition/app.py] and of [download_models.py], with
    the properties of the specification, and further properties of the
    code, stated over it.

    Conventions of the embedding:
    - a Python [float] is a binary64 number: [PrimFloat.float] with the
      IEEE operations of the kernel; a Python [int] is a [Z];
    - a Python [dict] is an object on a heap: a location that maps to a
      [gmap string value]; two names may alias one location;
    - code that may raise runs in the monad [Py]: a state transformer that
      returns either a value or the raised exception, and keeps the state
      changes made before the exception;
    - [insightface], [cv2], [numpy], [torch], [onnxruntime], [requests]
      and the wall clock are outside the repository: they are the fields
      of [Env], [Host], [Cv2IO] and [Net], or arguments; a field is a
      function, so equal calls get equal answers. *)

From Stdlib Require Import ZArith Floats Lia.
From Stdlib Require Import Sorting.Sorted Sorting.Permutation.
From Stdlib Require Uint63.
From stdpp Require Import gmap strings list sorting pretty.

Set Warnings "-inexact-float".

Local Open Scope string_scope.
Local Open Scope list_scope.
Local Open Scope Z_scope.

(** ** Exceptions and the [Py] monad *)

(** A raised instance of (a subclass of) Python's [Exception]. *)
Record exn := Exn { exn_class : string; exn_msg : string }.

Definition RuntimeError (msg : string) : exn := Exn "RuntimeError" msg.
Definition KeyError (k : string) : exn := Exn "KeyError" k.
Definition TypeError (msg : string) : exn := Exn "TypeError" msg.
Definition ValueError (msg : string) : exn := Exn "ValueError" msg.
Definition OverflowError (msg : string) : exn := Exn "OverflowError" msg.
Definition cv2_error (msg : string) : exn := Exn "cv2.error" msg.

Inductive outcome (A : Type) : Type :=
| Ret (a : A)
| Raise (e : exn).
Arguments Ret {A} a.
Arguments Raise {A} e.

Module PyMonad.
Section WithState.
Context {S : Type}.

Definition Py (A : Type) : Type := S -> outcome A * S.

Definition ret {A} (a : A) : Py A := fun s => (Ret a, s).
Definition raise {A} (e : exn) : Py A := fun s => (Raise e, s).
Definition bind {A B} (c : Py A) (k : A -> Py B) : Py B :=
  fun s => match c s with
           | (Ret a, s') => k a s'
           | (Raise e, s') => (Raise e, s')
           end.
(** [try: c except Exception as e: h e] *)
Definition try_except {A} (c : Py A) (h : exn -> Py A) : Py A :=
  fun s => match c s with
           | (Ret a, s') => (Ret a, s')
           | (Raise e, s') => h e s'
           end.
Definition gets {A} (f : S -> A) : Py A := fun s => (Ret (f s), s).
Definition modify (f : S -> S) : Py unit := fun s => (Ret tt, f s).
(** A call into a library that either returns or raises. *)
Definition lift_sum {A} (r : exn + A) : Py A :=
  match r with inl e => raise e | inr a => ret a end.
Definition lift_err (r : option exn) : Py unit :=
  match r with Some e => raise e | None => ret tt end.
End WithState.
Arguments Py : clear implicits.
End PyMonad.
Import PyMonad.

#[global] Instance Py_ret {S} : MRet (Py S) := fun A => @ret S A.
#[global] Instance Py_bind {S} : MBind (Py S) := fun A B k c => @bind S A B c k.

(** ** Python numbers *)

Definition is_nan (f : float) : bool := negb (PrimFloat.eqb f f).

(** [float(n)] for an [int]: the nearest binary64, [OverflowError] when
    the magnitude is out of range. *)
Definition Z_to_float (n : Z) : float :=
  SF2Prim (binary_normalize prec emax n 0 false).

Definition float_of_int (n : Z) : exn + float :=
  let f := Z_to_float n in
  match Prim2SF f with
  | S754_infinity _ => inl (OverflowError "int too large to convert to float")
  | _ => inr f
  end.

(** [int(f)] for a finite [float]: truncation toward zero. *)
Definition int_of_float (f : float) : exn + Z :=
  match Prim2SF f with
  | S754_zero _ => inr 0
  | S754_finite s m e =>
      let z := Z.shiftl (Z.pos m) e in inr (if s then - z else z)
  | S754_infinity _ => inl (OverflowError "cannot convert float infinity to integer")
  | S754_nan => inl (ValueError "cannot convert float NaN to integer")
  end.

(** ** Heap of dict objects *)

Definition loc := positive.

Inductive value : Type :=
| VInt (n : Z)
| VFloat (f : float)
| VDict (l : loc).

Abbreviation dict := (gmap string value).
Abbreviation heap := (gmap loc (gmap string value)).

(** ** The detector library and the processor object *)

(** An [insightface.app.FaceAnalysis] object: what it was built with and,
    once [prepare] has run, the context id and detection size. *)
Record FaceAnalysis := {
  fa_name : string;
  fa_providers : list string;
  fa_prepared : option (Z * (Z * Z))
}.

(** A decoded image: [image.shape[:2]] and the pixel buffer. *)
Record image := { height : Z; width : Z; pixels : list Z }.

(** One detection [face] returned by [self.app.get]: [face.bbox] is
    (x1, y1, x2, y2); [face.kps], [face.age] and [face.gender] are
    attributes that may be absent. *)
Record RawFace := {
  face_bbox : float * float * float * float;
  face_det_score : float;
  face_embedding : list float;
  face_kps : option (list (float * float));
  face_age : option Z;
  face_gender : option Z
}.

(** Calls into insightface, in the order made. *)
Inductive call : Type :=
| CallFaceAnalysis (name : string) (providers : list string)
| CallPrepare (providers : list string) (ctx_id : Z) (det_size : Z * Z).

(** The names imported from [config.py]. *)
Record Config := {
  ARCFACE_MODEL_NAME : string;
  FORCE_CPU : bool;
  GPU_DEVICE_ID : Z;
  GPU_AVAILABLE : bool;
  CUDA_AVAILABLE : bool;
  ONNX_GPU_AVAILABLE : bool;
  MIN_FACE_SIZE : Z;
  ONNX_PROVIDERS : list (string * list (string * string));
  ENABLE_MEMORY_OPTIMIZATION : bool;
  ENABLE_PARALLEL_PROCESSING : bool;
  MAX_WORKERS : Z
}.

(** What lies outside the repository. [None] and [inr] mean the call
    returned; [Some e] and [inl e] mean it raised [e]. *)
Record Env := {
  import_insightface : option exn;
  FaceAnalysis_new : string -> list string -> option exn;
  FaceAnalysis_prepare : list string -> Z -> Z * Z -> option exn;
  FaceAnalysis_get : FaceAnalysis -> image -> exn + list RawFace;
  cv2_resample : image -> Z -> Z -> list Z;
  (** [import torch; torch.cuda.is_available()] and, when available,
      (memory_allocated, memory_reserved, total_memory). *)
  torch_cuda_memory : exn + option (Z * Z * Z)
}.

(** The [FaceProcessor] instance together with the heap its dicts live on
    and the history of insightface calls. *)
Record World := {
  self_app : option FaceAnalysis;
  model_loaded : bool;
  using_gpu : bool;
  device_info : string;
  processing_stats : loc;
  objects : heap;
  calls : list call
}.

Definition set_app (a : option FaceAnalysis) (w : World) : World :=
  {| self_app := a; model_loaded := model_loaded w; using_gpu := using_gpu w;
     device_info := device_info w; processing_stats := processing_stats w;
     objects := objects w; calls := calls w |}.
Definition set_model_loaded (b : bool) (w : World) : World :=
  {| self_app := self_app w; model_loaded := b; using_gpu := using_gpu w;
     device_info := device_info w; processing_stats := processing_stats w;
     objects := objects w; calls := calls w |}.
Definition set_using_gpu (b : bool) (w : World) : World :=
  {| self_app := self_app w; model_loaded := model_loaded w; using_gpu := b;
     device_info := device_info w; processing_stats := processing_stats w;
     objects := objects w; calls := calls w |}.
Definition set_device_info (d : string) (w : World) : World :=
  {| self_app := self_app w; model_loaded := model_loaded w; using_gpu := using_gpu w;
     device_info := d; processing_stats := processing_stats w;
     objects := objects w; calls := calls w |}.
Definition set_objects (h : heap) (w : World) : World :=
  {| self_app := self_app w; model_loaded := model_loaded w; using_gpu := using_gpu w;
     device_info := device_info w; processing_stats := processing_stats w;
     objects := h; calls := calls w |}.
Definition log_call (c : call) (w : World) : World :=
  {| self_app := self_app w; model_loaded := model_loaded w; using_gpu := using_gpu w;
     device_info := device_info w; processing_stats := processing_stats w;
     objects := objects w; calls := calls w ++ [c] |}.

(** *** Dict operations on the heap *)

(** [d[k]] *)
Definition dict_get (l : loc) (k : string) : Py World value :=
  fun w => match objects w !! l with
           | Some d => match d !! k with
                       | Some v => (Ret v, w)
                       | None => (Raise (KeyError k), w)
                       end
           | None => (Raise (RuntimeError "dangling reference"), w)
           end.

(** [d[k] = v] *)
Definition dict_set (l : loc) (k : string) (v : value) : Py World unit :=
  fun w => match objects w !! l with
           | Some d => (Ret tt, set_objects (<[l := <[k := v]> d]> (objects w)) w)
           | None => (Raise (RuntimeError "dangling reference"), w)
           end.

(** A new dict object with the entries [d]. *)
Definition dict_new (d : dict) : Py World loc :=
  fun w => let l := fresh (dom (objects w)) in
           (Ret l, set_objects (<[l := d]> (objects w)) w).

(** [d.copy()]: a new dict with the same entries; values that are
    references stay shared. *)
Definition dict_copy (l : loc) : Py World loc :=
  fun w => match objects w !! l with
           | Some d => dict_new d w
           | None => (Raise (RuntimeError "dangling reference"), w)
           end.

(** [a / b] on two [int]s. The operands that reach it here are byte
    counts and image sizes, below 2^53, where the quotient of the
    converted operands is the correctly rounded quotient Python
    returns. *)
Definition int_truediv (a b : Z) : exn + float :=
  if Z.eqb b 0 then inl (Exn "ZeroDivisionError" "division by zero")
  else match float_of_int a, float_of_int b with
       | inr fa, inr fb => inr (fa / fb)%float
       | inl e, _ | _, inl e => inl e
       end.

Definition cpu_providers : list string := ["CPUExecutionProvider"].

(** ** [FaceProcessor]: construction and fallback *)

Section Processor.
Variable cfg : Config.
Variable env : Env.

(** [self.app = insightface.app.FaceAnalysis(name=..., providers=...)] *)
Definition new_FaceAnalysis (providers : list string) : Py World unit :=
  modify (log_call (CallFaceAnalysis (ARCFACE_MODEL_NAME cfg) providers));;
  lift_err (FaceAnalysis_new env (ARCFACE_MODEL_NAME cfg) providers);;
  modify (set_app (Some {| fa_name := ARCFACE_MODEL_NAME cfg;
                           fa_providers := providers;
                           fa_prepared := None |})).

(** [self.app.prepare(ctx_id=..., det_size=...)] *)
Definition prepare (ctx_id : Z) (det_size : Z * Z) : Py World unit :=
  a ← gets self_app;
  match a with
  | None => raise (Exn "AttributeError" "'NoneType' object has no attribute 'prepare'")
  | Some fa =>
      modify (log_call (CallPrepare (fa_providers fa) ctx_id det_size));;
      lift_err (FaceAnalysis_prepare env (fa_providers fa) ctx_id det_size);;
      modify (set_app (Some {| fa_name := fa_name fa;
                               fa_providers := fa_providers fa;
                               fa_prepared := Some (ctx_id, det_size) |}))
  end.

Definition _log_gpu_memory : Py World unit :=
  try_except
    (if CUDA_AVAILABLE cfg then
       m ← lift_sum (torch_cuda_memory env);
       match m with
       | Some (allocated, reserved, total) =>
           a1 ← lift_sum (int_truediv allocated 1024);
           r1 ← lift_sum (int_truediv reserved 1024);
           t1 ← lift_sum (int_truediv total 1024);
           u ← lift_sum (int_truediv allocated total);
           d ← dict_new (<["allocated_mb" := VFloat (a1 / 1024)%float]>
                        (<["reserved_mb" := VFloat (r1 / 1024)%float]>
                        (<["total_mb" := VFloat (t1 / 1024)%float]>
                        (<["utilization_percent" := VFloat (u * 100)%float]> ∅))));
           st ← gets processing_stats;
           dict_set st "gpu_memory_usage" (VDict d)
       | None => mret tt
       end
     else mret tt)
    (fun _ => mret tt).

Definition _fallback_to_cpu : Py World unit :=
  try_except
    (lift_err (import_insightface env);;
     modify (set_using_gpu false);;
     modify (set_device_info "CPU (fallback)");;
     new_FaceAnalysis cpu_providers;;
     prepare (-1) (640, 640);;
     modify (set_model_loaded true))
    (fun e => raise (RuntimeError
                ("Both GPU and CPU initialization failed: " +:+ exn_msg e))).

Definition gpu_device_info : string :=
  if CUDA_AVAILABLE cfg then "GPU " +:+ pretty (GPU_DEVICE_ID cfg) +:+ " (CUDA)"
  else if ONNX_GPU_AVAILABLE cfg then "GPU " +:+ pretty (GPU_DEVICE_ID cfg) +:+ " (ONNX)"
  else "GPU " +:+ pretty (GPU_DEVICE_ID cfg).

(** "Determine device and context": the branch of [_initialize_model]
    that sets [device_info] and [using_gpu] and yields
    [(ctx_id, providers)]. *)
Definition choose_device : Py World (Z * list string) :=
  if FORCE_CPU cfg || negb (GPU_AVAILABLE cfg) then
    modify (set_device_info "CPU");;
    modify (set_using_gpu false);;
    mret (-1, cpu_providers)
  else
    modify (set_using_gpu true);;
    modify (set_device_info gpu_device_info);;
    mret (GPU_DEVICE_ID cfg, map fst (ONNX_PROVIDERS cfg)).

Definition _initialize_model : Py World unit :=
  try_except
    (lift_err (import_insightface env);;
     '(ctx_id, providers) ← choose_device;
     new_FaceAnalysis providers;;
     gpu ← gets using_gpu;
     let det_size := if negb (gpu : bool) then (640, 640) else (1024, 1024) in
     prepare ctx_id det_size;;
     modify (set_model_loaded true);;
     gpu ← gets using_gpu;
     if (gpu : bool) then _log_gpu_memory else mret tt)
    (fun e : exn =>
       gpu ← gets using_gpu;
       if (gpu : bool) then _fallback_to_cpu
       else raise (RuntimeError ("Model initialization failed: " +:+ exn_msg e))).

(** The entries [__init__] gives [self.processing_stats]. *)
Definition initial_stats : dict :=
  <["total_processed" := VInt 0]>
  (<["total_faces_detected" := VInt 0]>
  (<["average_processing_time" := VInt 0]>
  (<["gpu_memory_usage" := VInt 0]> ∅))).

(** [FaceProcessor()], run on a heap [h] of already existing objects. *)
Definition __init__ (h : heap) : outcome unit * World :=
  let st := fresh (dom h) in
  _initialize_model
    {| self_app := None; model_loaded := false; using_gpu := false;
       device_info := ""; processing_stats := st;
       objects := <[st := initial_stats]> h; calls := [] |}.

End Processor.

(** ** Image normalisation and detection *)

(** A record of [detect_faces]' result: the dict [face_info]. *)
Record FaceInfo := {
  bbox : Z * Z * Z * Z;
  confidence : float;
  embedding : list float;
  landmarks : option (list (float * float));
  age : option Z;
  gender : option string
}.

(** Two's complement wrap-around of [numpy.int64] arithmetic. *)
Definition wrap64 (z : Z) : Z := (z + 2 ^ 63) mod 2 ^ 64 - 2 ^ 63.

(** One coordinate of [face.bbox.astype(int)]: truncation toward zero;
    the cast of NaN, of an infinity or of a value out of range gives the
    smallest [int64]. *)
Definition astype_int (f : float) : Z :=
  match int_of_float f with
  | inr z => if (- 2 ^ 63 <=? z) && (z <? 2 ^ 63) then z else - 2 ^ 63
  | inl _ => - 2 ^ 63
  end.

(** [width = bbox[2] - bbox[0]] and [height = bbox[3] - bbox[1]] on the
    cast box. *)
Definition bbox_width (face : RawFace) : Z :=
  let '(x1, y1, x2, y2) := face_bbox face in
  wrap64 (astype_int x2 - astype_int x1).
Definition bbox_height (face : RawFace) : Z :=
  let '(x1, y1, x2, y2) := face_bbox face in
  wrap64 (astype_int y2 - astype_int y1).

Definition face_info (face : RawFace) : FaceInfo :=
  let '(x1, y1, x2, y2) := face_bbox face in
  {| bbox := (astype_int x1, astype_int y1, bbox_width face, bbox_height face);
     confidence := face_det_score face;
     embedding := face_embedding face;
     landmarks := face_kps face;
     age := face_age face;
     gender := match face_gender face with
               | Some g => if Z.eqb g 1 then Some "M" else Some "F"
               | None => None
               end |}.

(** [d[k] += n] for an [int] [n], on the value read. *)
Definition py_iadd_int (v : value) (n : Z) : exn + value :=
  match v with
  | VInt m => inr (VInt (m + n))
  | VFloat f => match float_of_int n with
                | inr fn => inr (VFloat (f + fn))
                | inl e => inl e
                end
  | VDict _ => inl (TypeError "unsupported operand type(s) for +=: 'dict' and 'int'")
  end.

(** [v == 0] *)
Definition py_eq_zero (v : value) : bool :=
  match v with
  | VInt m => Z.eqb m 0
  | VFloat f => PrimFloat.eqb f 0
  | VDict _ => false
  end.

(** [v * c] for a [float] [c]. *)
Definition py_mul_float (v : value) (c : float) : exn + float :=
  match v with
  | VInt m => match float_of_int m with
              | inr fm => inr (fm * c)%float
              | inl e => inl e
              end
  | VFloat f => inr (f * c)%float
  | VDict _ => inl (TypeError "unsupported operand type(s) for *: 'dict' and 'float'")
  end.

Section Detection.
Variable cfg : Config.
Variable env : Env.

(** [cv2.resize(image, (new_width, new_height), interpolation=...)]: an
    image of exactly the requested size; an empty size is rejected. *)
Definition cv2_resize (img : image) (dsize : Z * Z) : exn + image :=
  let '(new_width, new_height) := dsize in
  if (new_width <=? 0) || (new_height <=? 0)
  then inl (cv2_error "(-215:Assertion failed) !dsize.empty() in function 'resize'")
  else inr {| height := new_height; width := new_width;
              pixels := cv2_resample env img new_width new_height |}.

(** [int(n * scale)] for an [int] [n] and a [float] [scale]. *)
Definition scaled (n : Z) (scale : float) : exn + Z :=
  match float_of_int n with
  | inr fn => int_of_float (fn * scale)
  | inl e => inl e
  end.

Definition _optimize_image_for_processing (img : image) : Py World image :=
  gpu ← gets using_gpu;
  let max_dim := if (gpu : bool) then 1920 else 1024 in
  img1 ← (if Z.max (height img) (width img) >? max_dim then
            scale ← lift_sum (int_truediv max_dim (Z.max (height img) (width img)));
            new_width ← lift_sum (scaled (width img) scale);
            new_height ← lift_sum (scaled (height img) scale);
            lift_sum (cv2_resize img (new_width, new_height))
          else mret img);
  (* np.ascontiguousarray changes the layout, not the array's value *)
  mret img1.

Definition _cleanup_gpu_memory : Py World unit :=
  try_except
    (if CUDA_AVAILABLE cfg then
       _ ← lift_sum (torch_cuda_memory env); mret tt
     else mret tt)
    (fun _ => mret tt).

(** The loop over [faces] that fills [valid_faces]. *)
Definition valid_faces (faces : list RawFace) : list FaceInfo :=
  fold_left
    (fun valid face =>
       if (bbox_width face >=? MIN_FACE_SIZE cfg)
          && (bbox_height face >=? MIN_FACE_SIZE cfg)
       then valid ++ [face_info face]
       else valid)
    faces [].

(** "Update processing statistics" and the running average. *)
Definition update_stats (found : Z) (processing_time : float) : Py World unit :=
  st ← gets processing_stats;
  v ← dict_get st "total_processed";
  v ← lift_sum (py_iadd_int v 1);
  dict_set st "total_processed" v;;
  v ← dict_get st "total_faces_detected";
  v ← lift_sum (py_iadd_int v found);
  dict_set st "total_faces_detected" v;;
  v ← dict_get st "average_processing_time";
  if py_eq_zero v then
    dict_set st "average_processing_time" (VFloat processing_time)
  else
    v ← dict_get st "average_processing_time";
    x ← lift_sum (py_mul_float v 0.9);
    dict_set st "average_processing_time"
      (VFloat (x + processing_time * 0.1)).

(** [detect_faces(image)]; [t0] and [t1] are what the two calls of
    [time.time()] return. *)
Definition detect_faces (t0 t1 : float) (img : image) : Py World (list FaceInfo) :=
  loaded ← gets model_loaded;
  if negb (loaded : bool) then raise (RuntimeError "Face model not loaded")
  else
    let start_time := t0 in
    try_except
      (optimized_image ← _optimize_image_for_processing img;
       a ← gets self_app;
       faces ← match a : option FaceAnalysis with
               | Some fa => lift_sum (FaceAnalysis_get env fa optimized_image)
               | None => raise (Exn "AttributeError"
                                  "'NoneType' object has no attribute 'get'")
               end;
       let valid := valid_faces faces in
       let processing_time := (t1 - start_time)%float in
       update_stats (Z.of_nat (length valid)) processing_time;;
       gpu ← gets using_gpu;
       (if (gpu : bool) && ENABLE_MEMORY_OPTIMIZATION cfg
        then _cleanup_gpu_memory else mret tt);;
       mret valid)
      (fun _ => mret []).

End Detection.

(** ** Performance statistics snapshot *)

(** [v > 0] *)
Definition py_gt_zero (v : value) : exn + bool :=
  match v with
  | VInt m => inr (0 <? m)
  | VFloat f => inr (PrimFloat.ltb 0 f)
  | VDict _ => inl (TypeError "'>' not supported between instances of 'dict' and 'int'")
  end.

(** [1.0 / v]; Python raises on a zero divisor. *)
Definition py_one_over (v : value) : exn + float :=
  match v with
  | VInt m =>
      if Z.eqb m 0 then inl (Exn "ZeroDivisionError" "float division by zero")
      else match float_of_int m with
           | inr fm => inr (1 / fm)%float
           | inl e => inl e
           end
  | VFloat f =>
      if PrimFloat.eqb f 0
      then inl (Exn "ZeroDivisionError" "float division by zero")
      else inr (1 / f)%float
  | VDict _ => inl (TypeError "unsupported operand type(s) for /: 'float' and 'dict'")
  end.

Section Statistics.
Variable cfg : Config.
Variable env : Env.

(** [get_performance_stats()]: the value returned is the reference to
    the new dict [stats]. *)
Definition get_performance_stats : Py World loc :=
  st ← gets processing_stats;
  stats ← dict_copy st;
  gpu ← gets using_gpu;
  (if (gpu : bool) then _log_gpu_memory cfg env else mret tt);;
  v ← dict_get stats "average_processing_time";
  positive ← lift_sum (py_gt_zero v);
  (if (positive : bool) then
     v ← dict_get stats "average_processing_time";
     q ← lift_sum (py_one_over v);
     dict_set stats "faces_per_second" (VFloat q)
   else mret tt);;
  mret stats.

End Statistics.

(** Any in-place change of the entries of the dict at [l] by the holder
    of the reference: [d[k] = v], [del d[k]], [d.clear()], ... *)
Definition dict_mutate (l : loc) (f : dict -> dict) : Py World unit :=
  fun w => match objects w !! l with
           | Some d => (Ret tt, set_objects (<[l := f d]> (objects w)) w)
           | None => (Raise (RuntimeError "dangling reference"), w)
           end.

(** ** Similarity matching ([compare_faces] of app.py) *)

(** The arithmetic numpy is used for; the code runs it on binary64
    ([float_arith]). *)
Class Arith (F : Type) := {
  num_zero : F;
  num_add : F -> F -> F;
  num_mul : F -> F -> F;
  num_div : F -> F -> F;
  num_sqrt : F -> F
}.

#[global] Instance float_arith : Arith float :=
  {| num_zero := 0%float; num_add := PrimFloat.add; num_mul := PrimFloat.mul;
     num_div := PrimFloat.div; num_sqrt := PrimFloat.sqrt |}.

(** One element of the request's [embeddings] and one element of
    [matches]. *)
Record Stored (F : Type) := { stored_embedding : list F; stored_photoId : string }.
Record Match (F : Type) := { photoId : string; similarity : F }.
Arguments stored_embedding {F} _.
Arguments stored_photoId {F} _.
Arguments photoId {F} _.
Arguments similarity {F} _.
Arguments Build_Match {F} _ _.
Arguments Build_Stored {F} _ _.

Section Similarity.
Context {F : Type} `{Arith F}.

(** [np.dot(a, b)] on two 1-D arrays: the sum of the products; arrays
    of different lengths are rejected. The sum is taken from left to
    right; numpy may add in another order, which changes the
    roundings. *)
Definition np_dot (a b : list F) : exn + F :=
  if Nat.eqb (length a) (length b)
  then inr (fold_left num_add (zip_with num_mul a b) num_zero)
  else inl (ValueError "shapes not aligned").

(** [np.linalg.norm(a)] on a 1-D array: [sqrt(dot(a, a))]. *)
Definition np_linalg_norm (a : list F) : F :=
  num_sqrt (fold_left num_add (zip_with num_mul a a) num_zero).

(** "Calculate cosine similarity" *)
Definition cosine_similarity (selfie_embedding stored_emb : list F) : exn + F :=
  match np_dot selfie_embedding stored_emb with
  | inr d => inr (num_div d (num_mul (np_linalg_norm selfie_embedding)
                             (np_linalg_norm stored_emb)))
  | inl e => inl e
  end.

(** The loop that fills [matches]; it stops at the first exception. *)
Fixpoint similarities (selfie_embedding : list F) (embeddings : list (Stored F))
    : exn + list (Match F) :=
  match embeddings with
  | [] => inr []
  | stored :: rest =>
      match cosine_similarity selfie_embedding (stored_embedding stored) with
      | inl e => inl e
      | inr s =>
          match similarities selfie_embedding rest with
          | inl e => inl e
          | inr matches =>
              inr ({| photoId := stored_photoId stored; similarity := s |}
                   :: matches)
          end
      end
  end.
End Similarity.

Section Sort.
Context {A K : Type} (key : A -> K) (lt : K -> K -> bool).

(** [x] goes behind every element whose key is not greater than its
    own. *)
Fixpoint insert_sorted (x : A) (l : list A) : list A :=
  match l with
  | [] => [x]
  | y :: l' => if lt (key x) (key y) then x :: l else y :: insert_sorted x l'
  end.

Definition sort_ascending (l : list A) : list A :=
  fold_left (fun acc x => insert_sorted x acc) l [].

(** [l.sort(key=key, reverse=reverse)]: a stable sort that compares
    keys with [<] only; with [reverse] the list is reversed, sorted and
    reversed again, which keeps equal keys in their first order. On
    keys that [<] orders, every stable sort returns this list. *)
Definition list_sort (reverse : bool) (l : list A) : list A :=
  if reverse then rev (sort_ascending (rev l)) else sort_ascending l.
End Sort.

(** Lines 245 to 261 of [compare_faces]: the similarities of the selfie
    embedding to the stored ones, sorted. *)
Definition rank_matches (selfie_embedding : list float)
    (embeddings : list (Stored float)) : exn + list (Match float) :=
  match similarities selfie_embedding embeddings with
  | inl e => inl e
  | inr matches => inr (list_sort similarity PrimFloat.ltb true matches)
  end.

Inductive response : Type :=
| Ok200 (matches : list (Match float))
| Err400 (error : string)
| Err500 (error : string).

(** [compare_faces] from the decoded request on: [faces] is what
    [processor.detect_faces(image)] returned for the selfie. *)
Definition compare_faces (faces : list FaceInfo) (embeddings : list (Stored float))
    : response :=
  match embeddings with
  | [] => Err400 "selfieData and embeddings are required"
  | _ =>
      match faces with
      | [] => Err400 "No face detected in selfie"
      | face :: _ =>
          match rank_matches (embedding face) embeddings with
          | inl e => Err500 (exn_msg e)
          | inr matches => Ok200 matches
          end
      end
  end.

(** ** Admission of requests ([process_photo] of app.py) *)

Module App.

(** [MAX_WORKERS = 2] of app.py. *)
Definition MAX_WORKERS : nat := 2.

(** Where a request stands in [process_photo]: before the first
    statement; holding a semaphore [processing_lock] it has not yet
    acquired; inside [with processing_lock:], where the detection runs;
    past the [with] block. *)
Inductive pc : Type :=
| Entered
| Waiting (processing_lock : loc)
| Inside (processing_lock : loc)
| Finished.

(** The [threading.Semaphore] objects with their counters, and the
    requests the server is handling, one thread each. *)
Record server := {
  semaphores : gmap loc nat;
  requests : list pc
}.

(** Which semaphore a request takes: [PerCall] is the code, where
    [process_photo] builds [threading.Semaphore(MAX_WORKERS)] in a
    local variable on every call; [Shared l] is a server on which all
    requests take the one semaphore [l] built at start. *)
Inductive governor : Type :=
| PerCall
| Shared (l : loc).

(** One step of request [i]; [None] when it cannot move: it is blocked
    in [acquire] on a counter of 0, or it has finished. *)
Definition step (g : governor) (i : nat) (s : server) : option server :=
  match requests s !! i with
  | Some Entered =>
      match g with
      | PerCall =>
          let l := fresh (dom (semaphores s)) in
          Some {| semaphores := <[l := MAX_WORKERS]> (semaphores s);
                  requests := <[i := Waiting l]> (requests s) |}
      | Shared l =>
          Some {| semaphores := semaphores s;
                  requests := <[i := Waiting l]> (requests s) |}
      end
  | Some (Waiting l) =>
      match semaphores s !! l with
      | Some (S n) =>
          Some {| semaphores := <[l := n]> (semaphores s);
                  requests := <[i := Inside l]> (requests s) |}
      | _ => None
      end
  | Some (Inside l) =>
      match semaphores s !! l with
      | Some n =>
          Some {| semaphores := <[l := S n]> (semaphores s);
                  requests := <[i := Finished]> (requests s) |}
      | None => None
      end
  | Some Finished | None => None
  end.

(** A schedule: the requests that move, in order. *)
Fixpoint run (g : governor) (schedule : list nat) (s : server) : option server :=
  match schedule with
  | [] => Some s
  | i :: rest =>
      match step g i s with
      | Some s' => run g rest s'
      | None => None
      end
  end.

Definition is_inside (p : pc) : bool :=
  match p with Inside _ => true | _ => false end.

(** The number of requests inside the detection at once. *)
Definition inside (s : server) : nat :=
  length (List.filter is_inside (requests s)).

(** [n] requests have arrived; with [Shared l] the semaphore [l] has
    been built. *)
Definition start (g : governor) (n : nat) : server :=
  {| semaphores := match g with
                   | PerCall => ∅
                   | Shared l => {[ l := MAX_WORKERS ]}
                   end;
     requests := replicate n Entered |}.

(** With one shared semaphore the counter and the requests inside add
    up to [MAX_WORKERS], and the requests hold no other semaphore. *)
Definition shared_invariant (l : loc) (s : server) : Prop :=
  (exists n, semaphores s !! l = Some n /\ (n + inside s = MAX_WORKERS)%nat) /\
  Forall (fun p => match p with
                   | Waiting l' | Inside l' => l' = l
                   | _ => True
                   end) (requests s).

End App.

(** ** Vocabulary of the statements about construction *)

Definition succeeds (r : option exn) : bool :=
  match r with None => true | Some _ => false end.

Section InitSpec.
Variable cfg : Config.
Variable env : Env.

(** Loading a backend: the import, the constructor and [prepare] all
    return. *)
Definition backend_loads (providers : list string) (ctx_id : Z)
    (det_size : Z * Z) : bool :=
  succeeds (import_insightface env)
  && succeeds (FaceAnalysis_new env (ARCFACE_MODEL_NAME cfg) providers)
  && succeeds (FaceAnalysis_prepare env providers ctx_id det_size).

(** The insightface calls of one attempt to load a backend. *)
Definition attempt (providers : list string) (ctx_id : Z)
    (det_size : Z * Z) : list call :=
  CallFaceAnalysis (ARCFACE_MODEL_NAME cfg) providers ::
  (if succeeds (FaceAnalysis_new env (ARCFACE_MODEL_NAME cfg) providers)
   then [CallPrepare providers ctx_id det_size] else []).

Definition accelerator_chosen : bool :=
  negb (FORCE_CPU cfg || negb (GPU_AVAILABLE cfg)).

Definition accelerator_providers : list string := map fst (ONNX_PROVIDERS cfg).

(** The backend [_initialize_model] tries first. *)
Definition preferred_loads : bool :=
  if accelerator_chosen
  then backend_loads accelerator_providers (GPU_DEVICE_ID cfg) (1024, 1024)
  else backend_loads cpu_providers (-1) (640, 640).
End InitSpec.

(** The same configuration with [FORCE_CPU] set. *)
Definition force_cpu (cfg : Config) : Config :=
  {| ARCFACE_MODEL_NAME := ARCFACE_MODEL_NAME cfg; FORCE_CPU := true;
     GPU_DEVICE_ID := GPU_DEVICE_ID cfg; GPU_AVAILABLE := GPU_AVAILABLE cfg;
     CUDA_AVAILABLE := CUDA_AVAILABLE cfg;
     ONNX_GPU_AVAILABLE := ONNX_GPU_AVAILABLE cfg;
     MIN_FACE_SIZE := MIN_FACE_SIZE cfg; ONNX_PROVIDERS := ONNX_PROVIDERS cfg;
     ENABLE_MEMORY_OPTIMIZATION := ENABLE_MEMORY_OPTIMIZATION cfg;
     ENABLE_PARALLEL_PROCESSING := ENABLE_PARALLEL_PROCESSING cfg;
     MAX_WORKERS := MAX_WORKERS cfg |}.

(** Two sessions that agree on everything the processor does later:
    the model object, the flags, the stats dict and the heap. *)
Definition same_behaviour (w w' : World) : Prop :=
  self_app w = self_app w' /\ model_loaded w = model_loaded w' /\
  using_gpu w = using_gpu w' /\ processing_stats w = processing_stats w' /\
  objects w = objects w'.

(** ** Vocabulary of the statements about detection and statistics *)

(** The entry [self.processing_stats[k]], read through the heap. *)
Definition stat (w : World) (k : string) : option value :=
  d ← objects w !! processing_stats w; d !! k.

(** The number a stats entry holds: the [int] 0 that [__init__] stores
    or a [float]. *)
Definition stat_number (v : value) : option float :=
  match v with
  | VInt 0 => Some 0%float
  | VFloat a => Some a
  | _ => None
  end.

(** The three counters of [w] are [n], [m] and [avg]. *)
Definition stats_are (w : World) (n m : Z) (avg : float) : Prop :=
  stat w "total_processed" = Some (VInt n) /\
  stat w "total_faces_detected" = Some (VInt m) /\
  exists v, stat w "average_processing_time" = Some v /\
            stat_number v = Some avg.

(** The smoothing rule of the specification:
    [avg' = avg == 0 ? elapsed : avg*0.9 + elapsed*0.1]. *)
Definition smoothed (avg elapsed : float) : float :=
  if PrimFloat.eqb avg 0 then elapsed else (avg * 0.9 + elapsed * 0.1)%float.

(** Everything of the processor but the contents of the heap. *)
Definition same_processor (w w' : World) : Prop :=
  self_app w = self_app w' /\ model_loaded w = model_loaded w' /\
  using_gpu w = using_gpu w' /\ device_info w = device_info w' /\
  processing_stats w = processing_stats w' /\ calls w = calls w'.

(** The size test of the loop of [detect_faces]. *)
Definition large_enough (cfg : Config) (face : RawFace) : bool :=
  (bbox_width face >=? MIN_FACE_SIZE cfg)
  && (bbox_height face >=? MIN_FACE_SIZE cfg).

(** The model call of [detect_faces img] on [w]: the image is normalised
    and handed to [self.app.get]. *)
Definition model_answer (env : Env) (w : World) (img : image)
    (ans : exn + list RawFace) : Prop :=
  exists fa optimized,
    self_app w = Some fa /\
    (_optimize_image_for_processing env img w).1 = Ret optimized /\
    FaceAnalysis_get env fa optimized = ans.

(** ** Order of binary64 numbers *)

(** A key that orders the numbers that are not NaN as the comparisons of
    the kernel do: the class (infinities, negative, zero, positive), then
    exponent and mantissa, both negated for negative numbers. The two
    zeros have one key. *)
Definition sf_key (x : spec_float) : Z * Z * Z :=
  match x with
  | S754_zero _ => (0, 0, 0)
  | S754_infinity s => (if s then -2 else 2, 0, 0)
  | S754_nan => (0, 0, 0)
  | S754_finite s m e => if s then (-1, - e, Z.neg m) else (1, e, Z.pos m)
  end.

Definition float_key (x : float) : Z * Z * Z := sf_key (Prim2SF x).

(** Lexicographic comparison of keys. *)
Definition key_compare (a b : Z * Z * Z) : comparison :=
  let '(a1, a2, a3) := a in
  let '(b1, b2, b3) := b in
  match a1 ?= b1 with
  | Eq => match a2 ?= b2 with
          | Eq => a3 ?= b3
          | c => c
          end
  | c => c
  end.

Definition key_ltb (a b : Z * Z * Z) : bool :=
  match key_compare a b with Lt => true | _ => false end.

Definition key_le (a b : Z * Z * Z) : Prop := key_compare a b <> Gt.

(** [a] is not after [b] in the order of the keys [k] gives. *)
Definition ascending_by {A : Type} (k : A -> Z * Z * Z) (a b : A) : Prop :=
  key_le (k a) (k b).

(** ** Vocabulary of the rounding steps of the kernel's division *)





(** ** Vocabulary of the statements about matching *)

(** Sorted by similarity, greatest first, read with the [<=] of binary64. *)
Definition descending (matches : list (Match float)) : Prop :=
  StronglySorted
    (fun a b => PrimFloat.leb (similarity b) (similarity a) = true) matches.

(** The same ranking up to the order among equal similarities: the same
    results, and position by position the same similarity. *)
Definition same_ranking (ms ms' : list (Match float)) : Prop :=
  Permutation ms ms' /\
  Forall2 (fun a b => PrimFloat.eqb (similarity a) (similarity b) = true) ms ms'.

(** Every stored embedding has a similarity to the probe that is a
    number. *)
Definition comparable (probe : list float) (embeddings : list (Stored float)) : Prop :=
  Forall (fun stored =>
            exists s, cosine_similarity probe (stored_embedding stored) = inr s /\
                      is_nan s = false) embeddings.


(** The element of [matches] the loop builds for [stored]. *)
Definition match_of (probe : list float) (stored : Stored float) : Match float :=
  {| photoId := stored_photoId stored;
     similarity := match cosine_similarity probe (stored_embedding stored) with
                   | inr s => s
                   | inl _ => nan
                   end |}.

(** A number that is one of the two zeros; a number that is a zero or
    NaN. *)
Definition sf_zero (x : spec_float) : Prop :=
  match x with S754_zero _ => True | _ => False end.

Definition sf_zero_or_nan (x : spec_float) : Prop :=
  match x with S754_zero _ | S754_nan => True | _ => False end.

(** Every entry of the embedding is 0.0 or -0.0. *)
Definition zero_vector (v : list float) : Prop :=
  Forall (fun x => PrimFloat.eqb x 0 = true) v.

(** ** The configuration module ([config.py]) *)

(** [s.lower()] on the ASCII letters. The code compares the result with
    "true" and looks its characters up among the hexadecimal digits; no
    character outside ASCII has a lower-case form made of those letters,
    so the bytes of every other character stay as they are. *)
Definition ascii_lower (c : Ascii.ascii) : Ascii.ascii :=
  let n := Ascii.nat_of_ascii c in
  if (65 <=? n)%nat && (n <=? 90)%nat then Ascii.ascii_of_nat (n + 32) else c.

Fixpoint str_lower (s : string) : string :=
  match s with
  | EmptyString => EmptyString
  | String c s' => String (ascii_lower c) (str_lower s')
  end.

(** What the import of [config.py] asks of the machine: the builtin
    [int] on a string, and the probes of torch and onnxruntime, each of
    which returns or raises (a missing package raises [ImportError]). *)
Record Host := {
  py_int : string -> exn + Z;
  (** [import torch; torch.cuda.is_available()] *)
  torch_cuda_is_available : exn + bool;
  torch_cuda_device_count : exn + Z;
  torch_cuda_get_device_name : exn + string;
  torch_cuda_total_memory : exn + Z;
  (** [import onnxruntime as ort; ort.get_available_providers()] *)
  ort_get_available_providers : exn + list string
}.

(** The dict [gpu_info]: every key may be absent. *)
Record GpuInfo := {
  cuda_devices : option Z;
  cuda_device_name : option string;
  cuda_memory : option Z;
  onnx_providers : option (list string)
}.

(** The names of [config.py] that [face_processor.py] does not import
    into [Config], beside those it does. *)
Record ConfigModule := {
  imported : Config;
  AUTO_DETECT_GPU : bool;
  BATCH_SIZE : Z;
  MAX_IMAGE_SIZE : Z;
  MAX_IMAGES_TO_PROCESS : Z;
  LOG_LEVEL : string;
  SHOW_PROGRESS : bool
}.

Section ConfigPy.
Variable host : Host.

(** [detect_gpu_availability()]. [has_cuda] is assigned before the
    device is queried, so a query that raises leaves it [True]; both
    [except] clauses only log. *)
Definition detect_gpu_availability : bool * bool * GpuInfo :=
  let '(has_cuda, (devices, name, memory)) :=
    match torch_cuda_is_available host with
    | inl _ => (false, (None, None, None))
    | inr false => (false, (None, None, None))
    | inr true =>
        match torch_cuda_device_count host with
        | inl _ => (true, (None, None, None))
        | inr n =>
            match torch_cuda_get_device_name host with
            | inl _ => (true, (Some n, None, None))
            | inr s =>
                match torch_cuda_total_memory host with
                | inl _ => (true, (Some n, Some s, None))
                | inr m => (true, (Some n, Some s, Some m))
                end
            end
        end
    end in
  let '(has_gpu_onnx, providers) :=
    match ort_get_available_providers host with
    | inl _ => (false, None)
    | inr available_providers =>
        (bool_decide ("CUDAExecutionProvider" ∈ available_providers)
         || bool_decide ("TensorrtExecutionProvider" ∈ available_providers),
         Some available_providers)
    end in
  (has_cuda, has_gpu_onnx,
   {| cuda_devices := devices; cuda_device_name := name;
      cuda_memory := memory; onnx_providers := providers |}).

(** [get_onnx_providers()], as a function of the two globals it reads.
    The option values are written as Python prints them. *)
Definition get_onnx_providers (onnx_gpu_available : bool) (gpu_device_id : Z)
    : list (string * list (string * string)) :=
  (if onnx_gpu_available then
     match ort_get_available_providers host with
     | inr available_providers =>
         (if bool_decide ("TensorrtExecutionProvider" ∈ available_providers)
          then [("TensorrtExecutionProvider",
                 [("device_id", pretty gpu_device_id);
                  ("trt_max_workspace_size", "2147483648");
                  ("trt_fp16_enable", "True")])]
          else [])
         ++ (if bool_decide ("CUDAExecutionProvider" ∈ available_providers)
             then [("CUDAExecutionProvider",
                    [("device_id", pretty gpu_device_id);
                     ("arena_extend_strategy", "kNextPowerOfTwo");
                     ("gpu_mem_limit", pretty (2 * 1024 * 1024 * 1024));
                     ("cudnn_conv_algo_search", "EXHAUSTIVE");
                     ("do_copy_in_default_stream", "True")])]
             else [])
         ++ (if bool_decide ("DmlExecutionProvider" ∈ available_providers)
             then [("DmlExecutionProvider", [("device_id", pretty gpu_device_id)])]
             else [])
     | inl _ => []
     end
   else [])
  ++ [("CPUExecutionProvider", [("arena_extend_strategy", "kSameAsRequested")])].

(** [os.getenv(k, d)], [os.getenv(k, d).lower() == "true"],
    [int(os.getenv(k, d))] and [os.environ.setdefault(k, v)]; the state
    is [os.environ]. *)
Definition os_getenv (k d : string) : Py (gmap string string) string :=
  gets (fun environ => default d (environ !! k)).

Definition getenv_true (k d : string) : Py (gmap string string) bool :=
  s ← os_getenv k d; mret (String.eqb (str_lower s) "true").

Definition getenv_int (k d : string) : Py (gmap string string) Z :=
  s ← os_getenv k d; lift_sum (py_int host s).

Definition os_environ_setdefault (k v : string) : Py (gmap string string) unit :=
  modify (fun environ => match environ !! k with
                         | Some _ => environ
                         | None => <[k := v]> environ
                         end).

(** The statements of the module, in order: what [import config] does
    to [os.environ] and the names it binds. *)
Definition config_py : Py (gmap string string) ConfigModule :=
  auto_detect_gpu ← getenv_true "AUTO_DETECT_GPU" "true";
  force ← getenv_true "FORCE_CPU" "false";
  gpu_device_id ← getenv_int "GPU_DEVICE_ID" "0";
  let '(has_cuda, has_gpu_onnx, gpu_info) :=
    if (auto_detect_gpu : bool) && negb force then detect_gpu_availability
    else (false, false,
          {| cuda_devices := None; cuda_device_name := None;
             cuda_memory := None; onnx_providers := None |}) in
  let gpu_available := (has_cuda || has_gpu_onnx) && negb force in
  let cuda_available := has_cuda && negb force in
  let onnx_gpu_available := has_gpu_onnx && negb force in
  batch_size ← (if gpu_available then getenv_int "GPU_BATCH_SIZE" "64"
                else getenv_int "CPU_BATCH_SIZE" "16");
  max_image_size ← (if gpu_available then getenv_int "GPU_MAX_IMAGE_SIZE" "1920"
                    else getenv_int "CPU_MAX_IMAGE_SIZE" "1024");
  min_face_size ← getenv_int "MIN_FACE_SIZE" "50";
  let onnx_providers := get_onnx_providers onnx_gpu_available gpu_device_id in
  max_images ← getenv_int "MAX_IMAGES_TO_PROCESS"
                 (if gpu_available then "2000" else "1000");
  log_level ← os_getenv "LOG_LEVEL" "INFO";
  show_progress ← getenv_true "SHOW_PROGRESS" "true";
  memory_optimization ← getenv_true "ENABLE_MEMORY_OPTIMIZATION" "true";
  parallel_processing ← getenv_true "ENABLE_PARALLEL_PROCESSING" "true";
  max_workers ← getenv_int "MAX_WORKERS" (if gpu_available then "4" else "2");
  (if gpu_available then
     os_environ_setdefault "TF_FORCE_GPU_ALLOW_GROWTH" "true";;
     os_environ_setdefault "CUDA_CACHE_DISABLE" "0";;
     os_environ_setdefault "CUDA_LAUNCH_BLOCKING" "0";;
     os_environ_setdefault "CUDNN_BENCHMARK" "1"
   else mret tt);;
  mret {| imported :=
            {| ARCFACE_MODEL_NAME := "buffalo_l"; FORCE_CPU := force;
               GPU_DEVICE_ID := gpu_device_id; GPU_AVAILABLE := gpu_available;
               CUDA_AVAILABLE := cuda_available;
               ONNX_GPU_AVAILABLE := onnx_gpu_available;
               MIN_FACE_SIZE := min_face_size; ONNX_PROVIDERS := onnx_providers;
               ENABLE_MEMORY_OPTIMIZATION := memory_optimization;
               ENABLE_PARALLEL_PROCESSING := parallel_processing;
               MAX_WORKERS := max_workers |};
          AUTO_DETECT_GPU := auto_detect_gpu; BATCH_SIZE := batch_size;
          MAX_IMAGE_SIZE := max_image_size; MAX_IMAGES_TO_PROCESS := max_images;
          LOG_LEVEL := log_level; SHOW_PROGRESS := show_progress |}.

End ConfigPy.
(** ** Image files, batches and the model report ([face_processor.py]) *)

(** The calls of [cv2] that read and decode images. [cv2.imread] and
    [cv2.imdecode] answer [None] for data that is no image. *)
Record Cv2IO := {
  cv2_imread : string -> exn + option image;
  (** [cv2.cvtColor(image, cv2.COLOR_BGR2RGB)] *)
  cv2_cvtColor : image -> exn + image;
  (** [cv2.imdecode(np.frombuffer(content, np.uint8), cv2.IMREAD_COLOR)] *)
  cv2_imdecode : list Z -> exn + option image
}.

(** The dict [get_model_info] returns, one field per key. The value at
    'processing_stats' is a reference. *)
Record ModelInfo := {
  info_model_name : string;
  info_model_loaded : bool;
  info_device_info : string;
  info_using_gpu : bool;
  info_gpu_available : bool;
  info_cuda_available : bool;
  info_onnx_gpu_available : bool;
  info_gpu_device_id : option Z;
  info_embedding_dimension : Z;
  info_batch_size : Z;
  info_max_workers : Z;
  info_providers : list string;
  info_processing_stats : loc;
  info_memory_optimization : bool;
  info_parallel_processing : bool
}.

(** How a call of [process_batch] ends: the sequential loop, or the
    constructor of the thread pool, has returned or raised; or a pool of
    [max_workers] threads runs [process_single] over the paths, which
    is not followed further here. *)
Inductive batch_run : Type :=
| Completed (r : outcome (gmap string (list FaceInfo)) * World)
| InThreads (max_workers : Z).

Section Files.
Variable cfg : Config.
Variable env : Env.
Variable io : Cv2IO.

(** [process_image_file(image_path)]; [t0] and [t1] are the clock
    readings [detect_faces] takes. *)
Definition process_image_file (t0 t1 : float) (image_path : string)
    : Py World (list FaceInfo) :=
  try_except
    (img ← lift_sum (cv2_imread io image_path);
     match img : option image with
     | None => mret []
     | Some bgr =>
         rgb ← lift_sum (cv2_cvtColor io bgr);
         faces ← detect_faces cfg env t0 t1 rgb;
         mret faces
     end)
    (fun _ => mret []).

(** The loop [for image_path in image_paths: results[image_path] = ...]
    from the [i]-th path on; [clock i] are the readings of the clock
    during the [i]-th call. *)
Fixpoint process_batch_loop (clock : nat -> float * float) (i : nat)
    (image_paths : list string) (results : gmap string (list FaceInfo))
    : Py World (gmap string (list FaceInfo)) :=
  match image_paths with
  | [] => mret results
  | image_path :: rest =>
      faces ← process_image_file (clock i).1 (clock i).2 image_path;
      process_batch_loop clock (S i) rest (<[image_path := faces]> results)
  end.

(** [process_batch(image_paths)].
    [concurrent.futures.ThreadPoolExecutor(max_workers=n)] raises
    [ValueError] for [n <= 0]. *)
Definition process_batch (clock : nat -> float * float)
    (image_paths : list string) (w : World) : batch_run :=
  if negb (ENABLE_PARALLEL_PROCESSING cfg) || negb (using_gpu w) then
    Completed (process_batch_loop clock 0 image_paths ∅ w)
  else
    let max_workers := Z.min (MAX_WORKERS cfg) (Z.of_nat (length image_paths)) in
    if max_workers <=? 0
    then Completed (Raise (ValueError "max_workers must be greater than 0"), w)
    else InThreads max_workers.

End Files.

(** [get_model_info()], with [config.py] as imported. *)
Definition get_model_info (m : ConfigModule) (w : World) : ModelInfo :=
  let cfg := imported m in
  {| info_model_name := ARCFACE_MODEL_NAME cfg;
     info_model_loaded := model_loaded w;
     info_device_info := device_info w;
     info_using_gpu := using_gpu w;
     info_gpu_available := GPU_AVAILABLE cfg;
     info_cuda_available := CUDA_AVAILABLE cfg;
     info_onnx_gpu_available := ONNX_GPU_AVAILABLE cfg;
     info_gpu_device_id := if using_gpu w then Some (GPU_DEVICE_ID cfg) else None;
     info_embedding_dimension := 512;
     info_batch_size := BATCH_SIZE m;
     info_max_workers := MAX_WORKERS cfg;
     info_providers := map fst (ONNX_PROVIDERS cfg);
     info_processing_stats := processing_stats w;
     info_memory_optimization := ENABLE_MEMORY_OPTIMIZATION cfg;
     info_parallel_processing := ENABLE_PARALLEL_PROCESSING cfg |}.
(** ** The service ([app.py]) and the download script ([download_models.py]) *)

(** How a function of the service ends. [sys.exit(code)] raises
    [SystemExit], which is no [Exception]: no [except Exception] of the
    code catches it. *)
Inductive result (A : Type) : Type :=
| Returns (a : A)
| Raises (e : exn)
| Exits (code : Z).
Arguments Returns {A} a.
Arguments Raises {A} e.
Arguments Exits {A} code.

(** A request handler answers, or the exit passes through it. *)
Inductive served (A : Type) : Type :=
| Responds (a : A)
| SystemExit (code : Z).
Arguments Responds {A} a.
Arguments SystemExit {A} code.

(** The global [face_processor]: [None] until the first request that
    needs it, then the one [FaceProcessor]. [h] are the objects that
    exist meanwhile. *)
Inductive app_state : Type :=
| NotCreated (h : heap)
| Created (w : World).

(** [requests.get(url, timeout=30)] with [raise_for_status()], giving
    [response.content], and [isinstance(e, requests.RequestException)]. *)
Record Net := {
  requests_get : string -> exn + list Z;
  is_RequestException : exn -> bool
}.

(** The JSON body of a [/process-photo] request: each of the two keys
    is absent (or null) or holds a string. *)
Record PhotoRequest := {
  file_reference : option string;
  photoPath : option string
}.

Inductive photo_response : Type :=
| Faces200 (faces : list FaceInfo)
| Photo400 (error : string)
| Photo500 (error : string).


Inductive status_response : Type :=
| Status200 (model_info : ModelInfo) (performance_stats : loc)
| Status500 (error : string).

(** [a or b] on two values each a string or [None]. *)
Definition py_or (a b : option string) : option string :=
  match a with
  | Some s => if String.eqb s "" then b else a
  | None => b
  end.

(** [sub in s] *)
Fixpoint str_contains (sub s : string) : bool :=
  String.prefix sub s
  || match s with
     | EmptyString => false
     | String _ s' => str_contains sub s'
     end.

(** [c in '0123456789abcdef'] for a character [c]. *)
Definition is_hex_digit (c : Ascii.ascii) : bool :=
  existsb (Ascii.eqb c) (String.list_ascii_of_string "0123456789abcdef").

(** The two tests of [process_photo] on [photo_path]. A string that
    passes the second holds ASCII only, so its length in characters is
    its length in bytes. *)
Definition is_cloudinary_url (photo_path : string) : bool :=
  String.prefix "http" photo_path && str_contains "cloudinary.com" photo_path.

Definition is_gridfs_id (photo_path : string) : bool :=
  Nat.eqb (String.length photo_path) 24
  && forallb is_hex_digit (String.list_ascii_of_string (str_lower photo_path)).

Section Service.
Variable m : ConfigModule.
Variable env : Env.
Variable io : Cv2IO.
Variable net : Net.

(** [download_models_if_needed()]: [True] when the import, the
    constructor and [prepare] on the CPU provider all return. *)
Definition download_models_if_needed : bool :=
  match import_insightface env with
  | Some _ => false
  | None =>
      match FaceAnalysis_new env (ARCFACE_MODEL_NAME (imported m))
              ["CPUExecutionProvider"] with
      | Some _ => false
      | None =>
          match FaceAnalysis_prepare env ["CPUExecutionProvider"] (-1) (640, 640) with
          | Some _ => false
          | None => true
          end
      end
  end.



(** [get_face_processor()]: the processor returned is the one the new
    state holds. *)
Definition get_face_processor (s : app_state) : result World * app_state :=
  match s with
  | Created w => (Returns w, s)
  | NotCreated h =>
      if negb download_models_if_needed then (Exits 1, s)
      else match __init__ (imported m) env h with
           | (Ret _, w) => (Returns w, Created w)
           | (Raise e, w) => (Raises e, NotCreated (objects w))
           end
  end.


(** [GET /status]: [model_info] is built before
    [processor.get_performance_stats()] runs. *)
Definition get_status (s : app_state) : served status_response * app_state :=
  match get_face_processor s with
  | (Returns w, _) =>
      let model_info := get_model_info m w in
      match get_performance_stats (imported m) env w with
      | (Ret stats, w') => (Responds (Status200 model_info stats), Created w')
      | (Raise e, w') => (Responds (Status500 (exn_msg e)), Created w')
      end
  | (Raises e, s') => (Responds (Status500 (exn_msg e)), s')
  | (Exits code, s') => (SystemExit code, s')
  end.

(** The [try] block of [process_photo] for an image behind a URL, with
    its two [except] clauses; [source] is "Cloudinary" or "GridFS". *)
Definition process_remote (t0 t1 : float) (source url : string)
    : Py World photo_response :=
  try_except
    (content ← lift_sum (requests_get net url);
     img ← lift_sum (cv2_imdecode io content);
     match img : option image with
     | None => mret (Photo400 ("Could not decode " +:+ source +:+ " image"))
     | Some bgr =>
         rgb ← lift_sum (cv2_cvtColor io bgr);
         faces ← detect_faces (imported m) env t0 t1 rgb;
         mret (Faces200 faces)
     end)
    (fun e : exn =>
       mret (Photo500 ((if is_RequestException net e
                        then "Could not download " else "Could not process ")
                       +:+ source +:+ " image: " +:+ exn_msg e))).

(** [POST /process-photo] for one request; the semaphore the call
    builds has [MAX_WORKERS] free permits when it is acquired. *)
Definition process_photo (t0 t1 : float) (data : PhotoRequest) (s : app_state)
    : served photo_response * app_state :=
  match py_or (file_reference data) (photoPath data) with
  | None => (Responds (Photo400 "file_reference or photoPath is required"), s)
  | Some photo_path =>
      if String.eqb photo_path ""
      then (Responds (Photo400 "file_reference or photoPath is required"), s)
      else
        match get_face_processor s with
        | (Exits code, s') => (SystemExit code, s')
        | (Raises e, s') => (Responds (Photo500 (exn_msg e)), s')
        | (Returns w, _) =>
            let '(r, w') :=
              (if is_cloudinary_url photo_path then
                 process_remote t0 t1 "Cloudinary" photo_path
               else if is_gridfs_id photo_path then
                 process_remote t0 t1 "GridFS"
                   ("http://localhost:5000/api/images/" +:+ photo_path)
               else
                 faces ← process_image_file (imported m) env io t0 t1 photo_path;
                 mret (Faces200 faces)) w in
            match r with
            | Ret response => (Responds response, Created w')
            | Raise e => (Responds (Photo500 (exn_msg e)), Created w')
            end
        end
  end.

End Service.

(** ** Vocabulary of the further statements *)

(** The keys of the stats dict that [detect_faces] writes. *)
Definition counters : list string :=
  ["total_processed"; "total_faces_detected"; "average_processing_time"].

(** From [w] to [w'] nothing has changed but, at most, the entries of
    the stats dict under the keys [keys]: the fields of the processor,
    the objects that exist and every other object are the same. *)
Definition only_stats_changed (keys : list string) (w w' : World) : Prop :=
  same_processor w w' /\
  (forall l, l <> processing_stats w -> objects w' !! l = objects w !! l) /\
  (is_Some (objects w' !! processing_stats w) <->
   is_Some (objects w !! processing_stats w)) /\
  (forall k, k ∉ keys -> stat w' k = stat w k).

(** [c], run by a processor whose stats dict is [st], changes at most
    the entries [keys] of it. *)
Definition framed (keys : list string) (st : loc) {A} (c : Py World A) : Prop :=
  forall w, processing_stats w = st -> only_stats_changed keys w (c w).2.

(** The number of face records in the values of a result of
    [process_batch]. *)
Definition total_faces (results : gmap string (list FaceInfo)) : Z :=
  map_fold (fun _ faces n => n + Z.of_nat (length faces)) 0 results.

(** How far a request has come in [process_photo], the semaphore it
    holds a reference to, and the free permits that semaphore has when
    nobody else uses it. *)
Definition stage (p : App.pc) : nat :=
  match p with
  | App.Entered => 0
  | App.Waiting _ => 1
  | App.Inside _ => 2
  | App.Finished => 3
  end.

Definition held (p : App.pc) : option loc :=
  match p with
  | App.Waiting l | App.Inside l => Some l
  | _ => None
  end.

Definition free_permits (p : App.pc) : nat :=
  match p with
  | App.Inside _ => App.MAX_WORKERS - 1
  | _ => App.MAX_WORKERS
  end.

(** Every request has a semaphore of its own, used by nobody else. *)
Definition own_semaphores (s : App.server) : Prop :=
  (forall i p l, App.requests s !! i = Some p -> held p = Some l ->
                 App.semaphores s !! l = Some (free_permits p)) /\
  (forall i j p q l, i <> j ->
                     App.requests s !! i = Some p -> App.requests s !! j = Some q ->
                     held p = Some l -> held q <> Some l).

(** ** A check of the scaled longer edge, run on machine integers *)

(** For an edge of [k] pixels: [float(k)] is a finite number, and
    [float(k) * (max_dim / float(k))] lies from [max_dim - 1] up to,
    and not including, [max_dim + 1]. *)
Definition edge_fast (max_dim : float) (k : PrimInt63.int) : bool :=
  let fk := PrimFloat.of_uint63 k in
  let p := (fk * (max_dim / fk))%float in
  PrimFloat.leb 0 fk && PrimFloat.ltb fk infinity
  && PrimFloat.leb (max_dim - 1) p && PrimFloat.ltb p (max_dim + 1).

(** [edge_fast] on the [count] edges from [lo] on. *)
Definition range_fast (max_dim : float) (lo : PrimInt63.int) (count : positive)
    : bool :=
  snd (Pos.iter
         (fun '(k, ok) =>
            (PrimInt63.add k (Uint63Axioms.of_Z 1), ok && edge_fast max_dim k))
         (lo, true) count).

(** ** Concrete configurations, environments and inputs *)

(** [config.py] with no accelerator detected. *)
Definition cfg_cpu : Config :=
  {| ARCFACE_MODEL_NAME := "buffalo_l"; FORCE_CPU := false; GPU_DEVICE_ID := 0;
     GPU_AVAILABLE := false; CUDA_AVAILABLE := false;
     ONNX_GPU_AVAILABLE := false; MIN_FACE_SIZE := 50;
     ONNX_PROVIDERS :=
       [("CPUExecutionProvider", [("arena_extend_strategy", "kSameAsRequested")])];
     ENABLE_MEMORY_OPTIMIZATION := true; ENABLE_PARALLEL_PROCESSING := true;
     MAX_WORKERS := 2 |}.

(** [config.py] with CUDA detected by torch and by onnxruntime. *)
Definition cfg_gpu : Config :=
  {| ARCFACE_MODEL_NAME := "buffalo_l"; FORCE_CPU := false; GPU_DEVICE_ID := 0;
     GPU_AVAILABLE := true; CUDA_AVAILABLE := true;
     ONNX_GPU_AVAILABLE := true; MIN_FACE_SIZE := 50;
     ONNX_PROVIDERS :=
       [("CUDAExecutionProvider", [("device_id", "0")]);
        ("CPUExecutionProvider", [("arena_extend_strategy", "kSameAsRequested")])];
     ENABLE_MEMORY_OPTIMIZATION := true; ENABLE_PARALLEL_PROCESSING := true;
     MAX_WORKERS := 4 |}.

Definition raw_face (x1 y1 x2 y2 : float) : RawFace :=
  {| face_bbox := (x1, y1, x2, y2); face_det_score := 0.9;
     face_embedding := [1; 0]%float; face_kps := None;
     face_age := Some 30; face_gender := Some 1 |}.

(** A face 50 wide and 70 high, one 49 wide and 100 high, and one from
    (5.5, 0.25) to (125.5, 49.75), which the cast to [int] makes 120 wide
    and 49 high. *)
Definition three_faces : list RawFace :=
  [raw_face 10 10 60 80; raw_face 0 0 49 100; raw_face 5.5 0.25 125.5 49.75]%float.

(** Everything loads and the model finds [three_faces] in any image. *)
Definition env_three_faces : Env :=
  {| import_insightface := None;
     FaceAnalysis_new := fun _ _ => None;
     FaceAnalysis_prepare := fun _ _ _ => None;
     FaceAnalysis_get := fun _ _ => inr three_faces;
     cv2_resample := fun _ _ _ => [];
     torch_cuda_memory := inr None |}.

(** Everything loads and the model raises on any image. *)
Definition env_model_fault : Env :=
  {| import_insightface := None;
     FaceAnalysis_new := fun _ _ => None;
     FaceAnalysis_prepare := fun _ _ _ => None;
     FaceAnalysis_get := fun _ _ => inl (Exn "RuntimeError" "ONNXRuntimeError");
     cv2_resample := fun _ _ _ => [];
     torch_cuda_memory := inr None |}.

(** [prepare] fails for every provider list but the CPU one. *)
Definition env_gpu_broken : Env :=
  {| import_insightface := None;
     FaceAnalysis_new := fun _ _ => None;
     FaceAnalysis_prepare := fun providers _ _ =>
       if decide (providers = cpu_providers) then None
       else Some (Exn "RuntimeError" "CUDA driver version is insufficient");
     FaceAnalysis_get := fun _ _ => inr three_faces;
     cv2_resample := fun _ _ _ => [];
     torch_cuda_memory := inr None |}.

(** Everything loads, and torch reports 1 MiB allocated, 2 MiB reserved
    and 4 MiB in total. *)
Definition env_gpu : Env :=
  {| import_insightface := None;
     FaceAnalysis_new := fun _ _ => None;
     FaceAnalysis_prepare := fun _ _ _ => None;
     FaceAnalysis_get := fun _ _ => inr three_faces;
     cv2_resample := fun _ _ _ => [];
     torch_cuda_memory := inr (Some (1048576, 2097152, 4194304)) |}.

Definition photo : image := {| height := 480; width := 640; pixels := [] |}.

(** A [FaceProcessor()] built on an empty heap. *)
Definition processor (cfg : Config) (env : Env) : World := (__init__ cfg env ∅).2.

(** Embeddings of length 512: a unit vector, the zero vector, and a
    vector with three ones. *)
Definition unit_512 : list float := 1%float :: repeat 0%float 511.
Definition zeros_512 : list float := repeat 0%float 512.

Definition huge_512 : list float := repeat 1e200%float 512.


Definition stored_unit : Stored float :=
  {| stored_embedding := unit_512; stored_photoId := "photo-unit" |}.
Definition stored_zero : Stored float :=
  {| stored_embedding := zeros_512; stored_photoId := "photo-zero" |}.

(** Detected selfie faces with the embeddings (1, 0) and [unit_512]. *)
Definition selfie_face : FaceInfo :=
  {| bbox := (10, 10, 100, 100); confidence := 0.9; embedding := [1; 0]%float;
     landmarks := None; age := None; gender := None |}.
Definition selfie_face_512 : FaceInfo :=
  {| bbox := (10, 10, 100, 100); confidence := 0.9; embedding := unit_512;
     landmarks := None; age := None; gender := None |}.

(** Three stored embeddings of length 2, at growing angles to (1, 0). *)
Definition stored_near : Stored float :=
  {| stored_embedding := [4; 3]%float; stored_photoId := "near" |}.
Definition stored_far : Stored float :=
  {| stored_embedding := [0; 2]%float; stored_photoId := "far" |}.
Definition stored_same : Stored float :=
  {| stored_embedding := [2; 0]%float; stored_photoId := "same" |}.

(** The CPU processor after one detection that took 0.2 s, and the
    entries of its stats dict. *)
Definition processor_after_one : World :=
  (detect_faces cfg_cpu env_three_faces 0 0.2 photo
     (processor cfg_cpu env_three_faces)).2.

Definition stats_after_one : dict :=
  <["average_processing_time" := VFloat 0.2]>
  (<["total_faces_detected" := VInt 1]>
  (<["total_processed" := VInt 1]> initial_stats)).

(** ** Concrete machines and requests *)

(** An [int] that reads the plain decimal numerals. *)
Fixpoint decimal (s : string) (acc : Z) : option Z :=
  match s with
  | EmptyString => Some acc
  | String c s' =>
      let n := Z.of_nat (Ascii.nat_of_ascii c) in
      if (48 <=? n) && (n <=? 57) then decimal s' (10 * acc + (n - 48)) else None
  end.

Definition int_decimal (s : string) : exn + Z :=
  match s with
  | EmptyString => inl (ValueError "invalid literal for int() with base 10: ''")
  | _ => match decimal s 0 with
         | Some z => inr z
         | None => inl (ValueError ("invalid literal for int() with base 10: " +:+ s))
         end
  end.

Definition ImportError (name : string) : exn :=
  Exn "ModuleNotFoundError" ("No module named '" +:+ name +:+ "'").

(** A machine with neither torch nor onnxruntime; one where torch sees
    a CUDA device and onnxruntime offers TensorRT, CUDA and the CPU; one
    where torch sees a CUDA device and onnxruntime is the CPU build. *)
Definition host_plain : Host :=
  {| py_int := int_decimal;
     torch_cuda_is_available := inl (ImportError "torch");
     torch_cuda_device_count := inl (ImportError "torch");
     torch_cuda_get_device_name := inl (ImportError "torch");
     torch_cuda_total_memory := inl (ImportError "torch");
     ort_get_available_providers := inl (ImportError "onnxruntime") |}.

Definition host_cuda : Host :=
  {| py_int := int_decimal;
     torch_cuda_is_available := inr true;
     torch_cuda_device_count := inr 1;
     torch_cuda_get_device_name := inr "NVIDIA T4";
     torch_cuda_total_memory := inr 16106127360;
     ort_get_available_providers :=
       inr ["TensorrtExecutionProvider"; "CUDAExecutionProvider";
            "CPUExecutionProvider"] |}.

Definition host_torch_only : Host :=
  {| py_int := int_decimal;
     torch_cuda_is_available := inr true;
     torch_cuda_device_count := inr 1;
     torch_cuda_get_device_name := inr "NVIDIA T4";
     torch_cuda_total_memory := inr 16106127360;
     ort_get_available_providers := inr ["CPUExecutionProvider"] |}.

(** [config.py] as imported with an empty environment on the first
    machine, on the second, on the third, and on the second with
    [FORCE_CPU=True]. *)
Definition module_plain : ConfigModule :=
  {| imported := cfg_cpu; AUTO_DETECT_GPU := true; BATCH_SIZE := 16;
     MAX_IMAGE_SIZE := 1024; MAX_IMAGES_TO_PROCESS := 1000;
     LOG_LEVEL := "INFO"; SHOW_PROGRESS := true |}.

Definition module_cuda : ConfigModule :=
  {| imported :=
       {| ARCFACE_MODEL_NAME := "buffalo_l"; FORCE_CPU := false;
          GPU_DEVICE_ID := 0; GPU_AVAILABLE := true; CUDA_AVAILABLE := true;
          ONNX_GPU_AVAILABLE := true; MIN_FACE_SIZE := 50;
          ONNX_PROVIDERS :=
            [("TensorrtExecutionProvider",
              [("device_id", "0"); ("trt_max_workspace_size", "2147483648");
               ("trt_fp16_enable", "True")]);
             ("CUDAExecutionProvider",
              [("device_id", "0"); ("arena_extend_strategy", "kNextPowerOfTwo");
               ("gpu_mem_limit", "2147483648");
               ("cudnn_conv_algo_search", "EXHAUSTIVE");
               ("do_copy_in_default_stream", "True")]);
             ("CPUExecutionProvider",
              [("arena_extend_strategy", "kSameAsRequested")])];
          ENABLE_MEMORY_OPTIMIZATION := true;
          ENABLE_PARALLEL_PROCESSING := true; MAX_WORKERS := 4 |};
     AUTO_DETECT_GPU := true; BATCH_SIZE := 64; MAX_IMAGE_SIZE := 1920;
     MAX_IMAGES_TO_PROCESS := 2000; LOG_LEVEL := "INFO";
     SHOW_PROGRESS := true |}.

Definition module_torch_only : ConfigModule :=
  {| imported :=
       {| ARCFACE_MODEL_NAME := "buffalo_l"; FORCE_CPU := false;
          GPU_DEVICE_ID := 0; GPU_AVAILABLE := true; CUDA_AVAILABLE := true;
          ONNX_GPU_AVAILABLE := false; MIN_FACE_SIZE := 50;
          ONNX_PROVIDERS :=
            [("CPUExecutionProvider",
              [("arena_extend_strategy", "kSameAsRequested")])];
          ENABLE_MEMORY_OPTIMIZATION := true;
          ENABLE_PARALLEL_PROCESSING := true; MAX_WORKERS := 4 |};
     AUTO_DETECT_GPU := true; BATCH_SIZE := 64; MAX_IMAGE_SIZE := 1920;
     MAX_IMAGES_TO_PROCESS := 2000; LOG_LEVEL := "INFO";
     SHOW_PROGRESS := true |}.

Definition module_forced : ConfigModule :=
  {| imported := force_cpu cfg_cpu; AUTO_DETECT_GPU := true; BATCH_SIZE := 16;
     MAX_IMAGE_SIZE := 1024; MAX_IMAGES_TO_PROCESS := 1000;
     LOG_LEVEL := "INFO"; SHOW_PROGRESS := true |}.

(** A disk without images, and one where every path holds [photo]. *)
Definition io_missing : Cv2IO :=
  {| cv2_imread := fun _ => inr None;
     cv2_cvtColor := fun img => inr img;
     cv2_imdecode := fun _ => inr None |}.

Definition io_photos : Cv2IO :=
  {| cv2_imread := fun _ => inr (Some photo);
     cv2_cvtColor := fun img => inr img;
     cv2_imdecode := fun _ => inr (Some photo) |}.

(** A stored embedding at a right angle to (1, 0), as [stored_far] is. *)
Definition stored_zero_up : Stored float :=
  {| stored_embedding := [0; 5]%float; stored_photoId := "up" |}.

(** A model that finds two faces in any image: first one 60 wide and
    60 high with the embedding (1, 0), then one 300 wide and 300 high
    with the embedding (0, 1). *)
Definition big_face : RawFace :=
  {| face_bbox := (0, 0, 300, 300)%float; face_det_score := 0.99;
     face_embedding := [0; 1]%float; face_kps := None;
     face_age := Some 40; face_gender := Some 0 |}.

Definition env_small_then_big : Env :=
  {| import_insightface := None;
     FaceAnalysis_new := fun _ _ => None;
     FaceAnalysis_prepare := fun _ _ _ => None;
     FaceAnalysis_get := fun _ _ => inr [raw_face 10 10 70 70; big_face];
     cv2_resample := fun _ _ _ => [];
     torch_cuda_memory := inr None |}.

(** A network on which every download fails with a timeout, and a
    request for a Cloudinary image. *)
Definition net_down : Net :=
  {| requests_get := fun _ => inl (Exn "ConnectTimeout" "timed out");
     is_RequestException := fun e => String.eqb (exn_class e) "ConnectTimeout" |}.

Definition cloudinary_request : PhotoRequest :=
  {| file_reference := Some "https://res.cloudinary.com/demo/a.jpg";
     photoPath := None |}.

(** ** Tactics for running [Py] programs *)

Ltac case_match_goal :=
  match goal with
  | |- context [match ?x with _ => _ end] =>
      lazymatch x with
      | context [match _ with _ => _ end] => fail
      | _ => destruct x eqn:?
      end
  end.

Ltac unfold_py :=
  unfold try_except, mbind, mret, Py_bind, Py_ret, bind, ret, lift_sum,
    lift_err, raise, gets, modify in *.

(** ** Construction and fallback: proofs *)

Lemma _log_gpu_memory_returns cfg env w :
  exists h, _log_gpu_memory cfg env w = (Ret tt, set_objects h w).
Proof.
  destruct w as [a ml ug di st h cs].
  unfold _log_gpu_memory, try_except, mbind, mret, Py_bind, Py_ret, bind, ret,
    lift_sum, raise, dict_new, dict_set, gets, set_objects; cbn.
  repeat (case_match_goal; cbn in *; simplify_eq; try (eexists; reflexivity)).
Qed.

Arguments _log_gpu_memory : simpl never.

(** [_initialize_model] run on any processor whose fields are as
    [__init__] leaves them: when it raises, how many attempts it makes,
    and how the fallback session compares with the session built with
    [FORCE_CPU]. *)
Lemma _initialize_model_spec (cfg : Config) (env : Env)
    (a : option FaceAnalysis) (di : string) (st : loc) (h : heap) :
  let w0 := {| self_app := a; model_loaded := false; using_gpu := false;
               device_info := di; processing_stats := st; objects := h;
               calls := [] |} in
  let r := (_initialize_model cfg env w0).1 in
  let w := (_initialize_model cfg env w0).2 in
  let r' := (_initialize_model (force_cpu cfg) env w0).1 in
  let w' := (_initialize_model (force_cpu cfg) env w0).2 in
  let cpu_ok := backend_loads cfg env cpu_providers (-1) (640, 640) in
  (forall e, r = Raise e ->
     exn_class e = "RuntimeError" /\ model_loaded w = false /\
     preferred_loads cfg env = false /\ cpu_ok = false) /\
  (accelerator_chosen cfg = true ->
   succeeds (import_insightface env) = true ->
   preferred_loads cfg env = false ->
     calls w = (attempt cfg env (accelerator_providers cfg) (GPU_DEVICE_ID cfg) (1024, 1024)
                ++ attempt cfg env cpu_providers (-1) (640, 640))%list /\
     (cpu_ok = true ->
        r = Ret tt /\ device_info w = "CPU (fallback)" /\
        r' = Ret tt /\ device_info w' = "CPU" /\ same_behaviour w w') /\
     (cpu_ok = false -> exists e, r = Raise e)) /\
  (accelerator_chosen cfg = false ->
     (succeeds (import_insightface env) = true ->
        calls w = attempt cfg env cpu_providers (-1) (640, 640)) /\
     (cpu_ok = false -> exists e, r = Raise e)).
Proof.
  cbv zeta.
  unfold _initialize_model, _fallback_to_cpu, choose_device, new_FaceAnalysis,
    prepare, preferred_loads, accelerator_chosen, backend_loads, attempt,
    accelerator_providers, same_behaviour.
  unfold_py. cbn.
  destruct (import_insightface env) eqn:Himp,
    (FORCE_CPU cfg) eqn:Hforce, (GPU_AVAILABLE cfg) eqn:Hgpu; cbn;
    destruct (FaceAnalysis_new env (ARCFACE_MODEL_NAME cfg) cpu_providers) eqn:Hnc;
    cbn;
    destruct (FaceAnalysis_prepare env cpu_providers (-1) (640, 640)) eqn:Hpc;
    cbn;
    try (destruct (FaceAnalysis_new env (ARCFACE_MODEL_NAME cfg)
                     (map fst (ONNX_PROVIDERS cfg))) eqn:Hna; cbn;
         rewrite ?Hnc, ?Hpc; cbn);
    try (destruct (FaceAnalysis_prepare env (map fst (ONNX_PROVIDERS cfg))
                     (GPU_DEVICE_ID cfg) (1024, 1024)) eqn:Hpa; cbn;
         rewrite ?Hnc, ?Hpc; cbn);
    try match goal with
        | |- context [_log_gpu_memory ?c ?e ?w0] =>
            destruct (_log_gpu_memory_returns c e w0) as [? ->]
        end; cbn;
    (repeat split; intros; simplify_eq; eauto).
Qed.

(** C4: construction raises only when the preferred backend and the CPU
    backend both fail to load, and what it raises is a [RuntimeError].
    When an accelerator was chosen (detection size 1024x1024) and its
    load fails, there is exactly one further attempt, with the CPU
    provider, context -1 and detection size 640x640; when that attempt
    loads, the session behaves as the session built with [FORCE_CPU] and
    differs from it in the label "CPU (fallback)" only; when it fails,
    the constructor raises. When the CPU backend was chosen there is one
    attempt and no retry. (An attempt is made once [import insightface]
    has returned; a failed import counts as a failed load.) *)
Theorem initialize_falls_back_to_cpu (cfg : Config) (env : Env) (h : heap) :
  let r := (__init__ cfg env h).1 in
  let w := (__init__ cfg env h).2 in
  let cpu_ok := backend_loads cfg env cpu_providers (-1) (640, 640) in
  (forall e, r = Raise e ->
     exn_class e = "RuntimeError" /\ model_loaded w = false /\
     preferred_loads cfg env = false /\ cpu_ok = false) /\
  (accelerator_chosen cfg = true ->
   succeeds (import_insightface env) = true ->
   preferred_loads cfg env = false ->
     calls w = (attempt cfg env (accelerator_providers cfg) (GPU_DEVICE_ID cfg) (1024, 1024)
                ++ attempt cfg env cpu_providers (-1) (640, 640))%list /\
     (cpu_ok = true ->
        r = Ret tt /\ device_info w = "CPU (fallback)" /\
        (__init__ (force_cpu cfg) env h).1 = Ret tt /\
        device_info (__init__ (force_cpu cfg) env h).2 = "CPU" /\
        same_behaviour w (__init__ (force_cpu cfg) env h).2) /\
     (cpu_ok = false -> exists e, r = Raise e)) /\
  (accelerator_chosen cfg = false ->
     (succeeds (import_insightface env) = true ->
        calls w = attempt cfg env cpu_providers (-1) (640, 640)) /\
     (cpu_ok = false -> exists e, r = Raise e)).
Proof.
  exact (_initialize_model_spec cfg env None "" (fresh (dom h))
           (<[fresh (dom h) := initial_stats]> h)).
Qed.

Lemma initialize_falls_back_to_cpu_witness :
  accelerator_chosen cfg_gpu = true /\
  succeeds (import_insightface env_gpu_broken) = true /\
  preferred_loads cfg_gpu env_gpu_broken = false /\
  backend_loads cfg_gpu env_gpu_broken cpu_providers (-1) (640, 640) = true /\
  (__init__ cfg_gpu env_gpu_broken ∅).1 = Ret tt /\
  device_info (__init__ cfg_gpu env_gpu_broken ∅).2 = "CPU (fallback)" /\
  calls (__init__ cfg_gpu env_gpu_broken ∅).2 =
    attempt cfg_gpu env_gpu_broken (accelerator_providers cfg_gpu)
      (GPU_DEVICE_ID cfg_gpu) (1024, 1024)
    ++ attempt cfg_gpu env_gpu_broken cpu_providers (-1) (640, 640).
Proof.
  assert (H1 : accelerator_chosen cfg_gpu = true) by reflexivity.
  assert (H2 : succeeds (import_insightface env_gpu_broken) = true)
    by reflexivity.
  assert (H3 : preferred_loads cfg_gpu env_gpu_broken = false)
    by (vm_compute; reflexivity).
  assert (H4 : backend_loads cfg_gpu env_gpu_broken cpu_providers (-1) (640, 640)
               = true) by (vm_compute; reflexivity).
  destruct (initialize_falls_back_to_cpu cfg_gpu env_gpu_broken ∅)
    as (_ & Hfallback & _).
  destruct (Hfallback H1 H2 H3) as (Hcalls & Hok & _).
  destruct (Hok H4) as (Hret & Hlabel & _).
  repeat split; assumption.
Defined.

(** On the code: the accelerator is chosen, [prepare] fails on it, and
    the CPU retry loads. *)
Example fallback_session :
  let w := (__init__ cfg_gpu env_gpu_broken ∅).2 in
  model_loaded w = true /\ using_gpu w = false /\
  device_info w = "CPU (fallback)" /\
  self_app w = Some {| fa_name := "buffalo_l"; fa_providers := cpu_providers;
                       fa_prepared := Some (-1, (640, 640)) |} /\
  calls w =
    [CallFaceAnalysis "buffalo_l" ["CUDAExecutionProvider"; "CPUExecutionProvider"];
     CallPrepare ["CUDAExecutionProvider"; "CPUExecutionProvider"] 0 (1024, 1024);
     CallFaceAnalysis "buffalo_l" ["CPUExecutionProvider"];
     CallPrepare ["CPUExecutionProvider"] (-1) (640, 640)].
Proof. vm_compute. done. Qed.

(** ** Order of binary64 numbers: proofs *)

Lemma is_nan_Prim2SF (x : float) :
  is_nan x = false <-> Prim2SF x <> S754_nan.
Proof.
  unfold is_nan. rewrite FloatAxioms.eqb_spec. unfold SFeqb.
  destruct (Prim2SF x) as [s|s| |s m e]; cbn.
  - split; [done|]. by destruct s.
  - split; [done|]. by destruct s.
  - split; [done|]. intros H. by destruct H.
  - split; [done|]. intros _.
    destruct s; rewrite Z.compare_refl, Pos.compare_cont_refl; done.
Qed.

Lemma SFcompare_key (x y : spec_float) :
  x <> S754_nan -> y <> S754_nan ->
  SFcompare x y = Some (key_compare (sf_key x) (sf_key y)).
Proof.
  intros Hx Hy.
  destruct x as [s1|s1| |s1 m1 e1], y as [s2|s2| |s2 m2 e2]; try done;
    try (destruct s1; try destruct s2; reflexivity);
    try (destruct s2; reflexivity).
  destruct s1, s2; cbn -[Z.compare]; try reflexivity.
  rewrite Z.compare_opp.
  destruct (Z.compare_spec e1 e2), (Z.compare_spec e2 e1);
    try lia; reflexivity.
Qed.

Lemma ltb_key (x y : float) :
  is_nan x = false -> is_nan y = false ->
  PrimFloat.ltb x y = key_ltb (float_key x) (float_key y).
Proof.
  rewrite !is_nan_Prim2SF. intros Hx Hy.
  rewrite FloatAxioms.ltb_spec. unfold SFltb, key_ltb, float_key.
  by rewrite SFcompare_key.
Qed.

Lemma leb_key (x y : float) :
  is_nan x = false -> is_nan y = false ->
  PrimFloat.leb x y = true <-> key_le (float_key x) (float_key y).
Proof.
  rewrite !is_nan_Prim2SF. intros Hx Hy.
  rewrite FloatAxioms.leb_spec. unfold SFleb, key_le, float_key.
  rewrite SFcompare_key by done.
  destruct (key_compare _ _); split; done.
Qed.

Lemma key_compare_refl (a : Z * Z * Z) : key_compare a a = Eq.
Proof. destruct a as [[a1 a2] a3]. cbn. by rewrite !Z.compare_refl. Qed.

Lemma key_compare_Lt (a1 a2 a3 b1 b2 b3 : Z) :
  key_compare (a1, a2, a3) (b1, b2, b3) = Lt <->
  a1 < b1 \/ (a1 = b1 /\ (a2 < b2 \/ (a2 = b2 /\ a3 < b3))).
Proof.
  unfold key_compare.
  destruct (Z.compare_spec a1 b1), (Z.compare_spec a2 b2),
    (Z.compare_spec a3 b3); split; intros; try done; lia.
Qed.

Lemma key_compare_Gt_iff (a1 a2 a3 b1 b2 b3 : Z) :
  key_compare (a1, a2, a3) (b1, b2, b3) = Gt <->
  b1 < a1 \/ (a1 = b1 /\ (b2 < a2 \/ (a2 = b2 /\ b3 < a3))).
Proof.
  unfold key_compare.
  destruct (Z.compare_spec a1 b1), (Z.compare_spec a2 b2),
    (Z.compare_spec a3 b3); split; intros; try done; lia.
Qed.

Lemma key_le_iff (a1 a2 a3 b1 b2 b3 : Z) :
  key_le (a1, a2, a3) (b1, b2, b3) <->
  a1 < b1 \/ (a1 = b1 /\ (a2 < b2 \/ (a2 = b2 /\ a3 <= b3))).
Proof. unfold key_le. rewrite key_compare_Gt_iff. lia. Qed.

Lemma key_compare_Gt (a b : Z * Z * Z) :
  key_compare a b = Gt <-> key_compare b a = Lt.
Proof.
  destruct a as [[a1 a2] a3], b as [[b1 b2] b3].
  rewrite key_compare_Gt_iff, key_compare_Lt. lia.
Qed.

#[local] Instance key_le_trans : Transitive key_le.
Proof.
  intros [[a1 a2] a3] [[b1 b2] b3] [[c1 c2] c3].
  rewrite !key_le_iff. lia.
Qed.

#[local] Instance key_le_antisym : AntiSymm (=) key_le.
Proof.
  intros [[a1 a2] a3] [[b1 b2] b3]. rewrite !key_le_iff. intros.
  f_equal; [f_equal|]; lia.
Qed.

#[local] Instance key_le_total : Total key_le.
Proof.
  intros [[a1 a2] a3] [[b1 b2] b3]. rewrite !key_le_iff. lia.
Qed.

Lemma key_compare_Eq (a b : Z * Z * Z) : key_compare a b = Eq <-> a = b.
Proof.
  destruct a as [[a1 a2] a3], b as [[b1 b2] b3]. unfold key_compare.
  destruct (Z.compare_spec a1 b1), (Z.compare_spec a2 b2),
    (Z.compare_spec a3 b3); split; intros; simplify_eq; try done; lia.
Qed.

Lemma eqb_key (x y : float) :
  is_nan x = false -> is_nan y = false ->
  PrimFloat.eqb x y = true <-> float_key x = float_key y.
Proof.
  rewrite !is_nan_Prim2SF. intros Hx Hy.
  rewrite FloatAxioms.eqb_spec. unfold SFeqb, float_key.
  rewrite SFcompare_key by done. rewrite <- key_compare_Eq.
  destruct (key_compare _ _); split; done.
Qed.

Lemma key_ltb_false (a b : Z * Z * Z) : key_ltb a b = false <-> key_le b a.
Proof.
  unfold key_ltb, key_le. rewrite key_compare_Gt.
  destruct (key_compare a b); split; done.
Qed.

(** A positive number is not zero. *)
Lemma ltb_zero_neq (a : float) :
  PrimFloat.ltb 0 a = true -> PrimFloat.eqb a 0 = false.
Proof.
  rewrite FloatAxioms.ltb_spec, FloatAxioms.eqb_spec. change (Prim2SF 0) with (S754_zero false).
  by destruct (Prim2SF a) as [s|s| |s m e]; try destruct s.
Qed.
(** ** Division of binary64 numbers: a quotient of magnitude at most 1 *)

(** The division of the kernel is [SFdiv]: an integer division of the
    mantissas, then [binary_round_aux], which shifts the quotient to its
    exponent and rounds to nearest even. The lemmas below follow a
    quotient of value at most 1 through these steps. *)

Lemma digits2_pos_bounds (p : positive) :
  2 ^ (Z.pos (digits2_pos p) - 1) <= Z.pos p < 2 ^ Z.pos (digits2_pos p).
Proof.
  induction p as [p IH|p IH|]; cbn [digits2_pos];
    [| |change (1 <= 1 < 2); lia].
  - rewrite Pos2Z.inj_succ.
    replace (Z.succ (Z.pos (digits2_pos p)) - 1)
      with (Z.succ (Z.pos (digits2_pos p) - 1)) by lia.
    rewrite !Z.pow_succ_r by lia. lia.
  - rewrite Pos2Z.inj_succ.
    replace (Z.succ (Z.pos (digits2_pos p)) - 1)
      with (Z.succ (Z.pos (digits2_pos p) - 1)) by lia.
    rewrite !Z.pow_succ_r by lia. lia.
Qed.













Lemma bounded_mantissa (m : positive) (e : Z) :
  bounded prec emax m e = true ->
  -1074 <= e /\ Z.pos m < 9007199254740992 /\
  (-1074 < e -> 4503599627370496 <= Z.pos m).
Proof.
  unfold bounded, canonical_mantissa, fexp, SpecFloat.emin, prec, emax.
  intros [Hc _]%andb_prop. apply Z.eqb_eq in Hc.
  destruct (digits2_pos_bounds m) as [Hlo Hhi].
  set (d := Z.pos (digits2_pos m)) in *.
  assert (0 < d) as Hd by (unfold d; lia).
  split; [lia|]. split.
  - assert (d <= 53) as Hd53 by lia.
    assert (2 ^ d <= 2 ^ 53) as Hp by (apply Z.pow_le_mono_r; lia).
    change (2 ^ 53) with 9007199254740992 in Hp. lia.
  - intros He. assert (d = 53) as Hd53 by lia. rewrite Hd53 in Hlo.
    change (2 ^ (53 - 1)) with 4503599627370496 in Hlo. lia.
Qed.







(** ** Division of binary64 numbers: a quotient of magnitude above 1 *)















(** ** The quotient lies in [[-1, 1]]: the whole picture *)







(** ** Detection: proofs *)

Lemma _optimize_image_for_processing_state env img w :
  (_optimize_image_for_processing env img w).2 = w.
Proof.
  unfold _optimize_image_for_processing. unfold_py.
  destruct (using_gpu w); cbn;
    repeat (case_match_goal; cbn; try reflexivity).
Qed.

Lemma valid_faces_filter cfg faces :
  valid_faces cfg faces = map face_info (List.filter (large_enough cfg) faces).
Proof.
  unfold valid_faces.
  enough (forall acc,
    fold_left
      (fun valid face =>
         if (bbox_width face >=? MIN_FACE_SIZE cfg)
            && (bbox_height face >=? MIN_FACE_SIZE cfg)
         then valid ++ [face_info face] else valid) faces acc =
    acc ++ map face_info (List.filter (large_enough cfg) faces)) as H
    by apply (H []).
  induction faces as [|face faces IH]; intros acc; simpl.
  - by rewrite app_nil_r.
  - rewrite IH. unfold large_enough at 2.
    destruct ((bbox_width face >=? MIN_FACE_SIZE cfg)
              && (bbox_height face >=? MIN_FACE_SIZE cfg)); simpl.
    + by rewrite <- app_assoc.
    + done.
Qed.

Lemma stat_set_objects (w : World) (h : heap) (k : string) :
  stat (set_objects h w) k = (d ← h !! processing_stats w; d !! k).
Proof. reflexivity. Qed.

(** [update_stats] on well-formed statistics: it returns, and the three
    entries are rewritten in one dict. *)
Lemma update_stats_run (w : World) (found : Z) (t : float) (n m : Z) (avg : float) :
  stats_are w n m avg ->
  exists d,
    objects w !! processing_stats w = Some d /\
    update_stats found t w =
      (Ret tt,
       set_objects
         (<[processing_stats w :=
              <["average_processing_time" := VFloat (smoothed avg t)]>
              (<["total_faces_detected" := VInt (m + found)]>
              (<["total_processed" := VInt (n + 1)]> d))]> (objects w)) w).
Proof.
  intros (Hn & Hm & v & Hv & Hnum).
  unfold stat in *. destruct w as [a ml ug di st h cs]; cbn in *.
  destruct (h !! st) as [d|] eqn:Hd; cbn in *; [|done].
  exists d. split; [done|].
  unfold update_stats, dict_get, dict_set, set_objects. unfold_py. cbn.
  assert (Hz : forall z, stat_number (VInt z) = Some avg -> py_eq_zero (VInt z) = true)
    by (by intros [| |]).
  repeat (first [ rewrite Hd | rewrite Hn | rewrite Hm | rewrite Hv
                | rewrite lookup_insert_eq
                | rewrite lookup_insert_ne by done ]; cbn).
  unfold smoothed.
  destruct v as [z|a'|]; cbn in *; simplify_eq.
  - rewrite (Hz z Hnum). destruct z; simplify_eq. cbn.
    rewrite lookup_insert_eq, !insert_insert_eq. done.
  - destruct (PrimFloat.eqb avg 0) eqn:E; cbn;
      repeat (first [ rewrite lookup_insert_eq
                    | rewrite lookup_insert_ne by done | rewrite Hv ]; cbn);
      rewrite !insert_insert_eq; done.
Qed.

Lemma _cleanup_gpu_memory_run cfg env w :
  _cleanup_gpu_memory cfg env w = (Ret tt, w).
Proof.
  unfold _cleanup_gpu_memory. unfold_py.
  destruct (CUDA_AVAILABLE cfg); [|done].
  by destruct (torch_cuda_memory env).
Qed.

Lemma detect_faces_not_loaded cfg env t0 t1 img w :
  model_loaded w = false ->
  detect_faces cfg env t0 t1 img w =
    (Raise (RuntimeError "Face model not loaded"), w).
Proof. intros H. unfold detect_faces. unfold_py. by rewrite H. Qed.

(** With a loaded model [detect_faces] returns, whatever happens inside
    the [try] block. *)
Lemma detect_faces_returns cfg env t0 t1 img w :
  model_loaded w = true ->
  exists l w', detect_faces cfg env t0 t1 img w = (Ret l, w').
Proof.
  intros H. unfold detect_faces. unfold_py. rewrite H. cbn.
  match goal with
  | |- exists l w', (let (o, s') := ?c in _) = _ => destruct c as [[l|e] w']
  end; eauto.
Qed.

Lemma detect_faces_model_raises cfg env t0 t1 img w e :
  model_loaded w = true ->
  model_answer env w img (inl e) ->
  detect_faces cfg env t0 t1 img w = (Ret [], w).
Proof.
  intros H (fa & o & Hfa & Ho & Hget).
  pose proof (_optimize_image_for_processing_state env img w) as Hst.
  unfold detect_faces. unfold_py. rewrite H. cbn.
  destruct (_optimize_image_for_processing env img w) as [r w1].
  cbn in *. subst r w1. rewrite Hfa, Hget. done.
Qed.

Lemma detect_faces_normalise_raises cfg env t0 t1 img w e :
  model_loaded w = true ->
  (_optimize_image_for_processing env img w).1 = Raise e ->
  detect_faces cfg env t0 t1 img w = (Ret [], w).
Proof.
  intros H Ho.
  pose proof (_optimize_image_for_processing_state env img w) as Hst.
  unfold detect_faces. unfold_py. rewrite H. cbn.
  destruct (_optimize_image_for_processing env img w) as [r w1].
  cbn in *. by subst r w1.
Qed.

Lemma detect_faces_model_returns cfg env t0 t1 img w faces n m avg :
  model_loaded w = true ->
  model_answer env w img (inr faces) ->
  stats_are w n m avg ->
  exists w',
    detect_faces cfg env t0 t1 img w = (Ret (valid_faces cfg faces), w') /\
    same_processor w w' /\
    stats_are w' (n + 1) (m + Z.of_nat (length (valid_faces cfg faces)))
      (smoothed avg (t1 - t0)) /\
    stat w' "gpu_memory_usage" = stat w "gpu_memory_usage".
Proof.
  intros H (fa & o & Hfa & Ho & Hget) Hstats.
  pose proof (_optimize_image_for_processing_state env img w) as Hst.
  destruct (update_stats_run w (Z.of_nat (length (valid_faces cfg faces)))
              (t1 - t0) n m avg Hstats) as (d & Hd & Hrun).
  eexists. split.
  - unfold detect_faces. unfold_py. rewrite H. cbn.
    destruct (_optimize_image_for_processing env img w) as [r w1].
    cbn in *. subst r w1. rewrite Hfa, Hget.
    unfold ret. rewrite Hrun. cbn [using_gpu set_objects].
    destruct (using_gpu w && ENABLE_MEMORY_OPTIMIZATION cfg);
      [rewrite _cleanup_gpu_memory_run|]; reflexivity.
  - unfold same_processor, stats_are, stat. cbn.
    rewrite !lookup_insert_eq, Hd. cbn.
    repeat (first [ rewrite lookup_insert_eq
                  | rewrite lookup_insert_ne by done ]).
    repeat split. by eexists.
Qed.

(** ** Sorting: proofs *)

Lemma elem_of_rev {A} (x : A) (l : list A) : x ∈ rev l <-> x ∈ l.
Proof. by rewrite <- Permutation_rev. Qed.

Section SortFacts.
Context {A K : Type} (key : A -> K) (lt : K -> K -> bool).

Lemma insert_sorted_perm (x : A) (l : list A) :
  insert_sorted key lt x l ≡ₚ x :: l.
Proof.
  induction l as [|y l IH]; simpl; [done|].
  destruct (lt (key x) (key y)); [done|].
  rewrite IH. apply Permutation_swap.
Qed.

Lemma sort_ascending_perm (l : list A) : sort_ascending key lt l ≡ₚ l.
Proof.
  unfold sort_ascending.
  enough (forall acc, fold_left (fun acc x => insert_sorted key lt x acc) l acc
                      ≡ₚ acc ++ l) as H by apply (H []).
  induction l as [|x l IH]; intros acc; simpl.
  - by rewrite app_nil_r.
  - rewrite IH, insert_sorted_perm. simpl. apply Permutation_middle.
Qed.

Lemma list_sort_perm (reverse : bool) (l : list A) :
  list_sort key lt reverse l ≡ₚ l.
Proof.
  destruct reverse; simpl; [|apply sort_ascending_perm].
  by rewrite <- Permutation_rev, sort_ascending_perm, <- Permutation_rev.
Qed.

(** The sort sees the keys through [lt] only: two orders that agree on
    the elements of the list sort it alike. *)
Context {K' : Type} (key' : A -> K') (lt' : K' -> K' -> bool).

Lemma insert_sorted_ext (x : A) (l : list A) :
  (forall y, y ∈ l -> lt (key x) (key y) = lt' (key' x) (key' y)) ->
  insert_sorted key lt x l = insert_sorted key' lt' x l.
Proof.
  induction l as [|y l IH]; intros Hagree; simpl; [done|].
  rewrite <- Hagree by left.
  destruct (lt (key x) (key y)); [done|].
  f_equal. apply IH. intros z Hz. apply Hagree. by right.
Qed.

Lemma sort_ascending_ext (l : list A) :
  (forall x y, x ∈ l -> y ∈ l -> lt (key x) (key y) = lt' (key' x) (key' y)) ->
  sort_ascending key lt l = sort_ascending key' lt' l.
Proof.
  unfold sort_ascending.
  enough (forall acc,
    (forall x y, x ∈ acc ++ l -> y ∈ acc ++ l ->
                 lt (key x) (key y) = lt' (key' x) (key' y)) ->
    fold_left (fun acc x => insert_sorted key lt x acc) l acc =
    fold_left (fun acc x => insert_sorted key' lt' x acc) l acc) as H
    by (intros Hagree; by apply (H [])).
  induction l as [|x l IH]; intros acc Hagree; simpl; [done|].
  rewrite <- insert_sorted_ext.
  - apply IH. intros y z Hy Hz.
    rewrite elem_of_app, insert_sorted_perm, elem_of_cons in Hy, Hz.
    apply Hagree; rewrite elem_of_app, elem_of_cons; tauto.
  - intros y Hy. apply Hagree; rewrite elem_of_app, elem_of_cons; auto.
Qed.

Lemma list_sort_ext (reverse : bool) (l : list A) :
  (forall x y, x ∈ l -> y ∈ l -> lt (key x) (key y) = lt' (key' x) (key' y)) ->
  list_sort key lt reverse l = list_sort key' lt' reverse l.
Proof.
  intros Hagree. destruct reverse; simpl.
  - f_equal. apply sort_ascending_ext. intros x y.
    rewrite !elem_of_rev. apply Hagree.
  - by apply sort_ascending_ext.
Qed.
End SortFacts.

Lemma StronglySorted_rev {A} (R : relation A) (l : list A) :
  StronglySorted R l -> StronglySorted (flip R) (rev l).
Proof.
  induction 1 as [|x l Hl IH Hx]; simpl; [constructor|].
  apply StronglySorted_app. split; [|split; [done|]].
  - intros y z Hy Hz. apply list_elem_of_singleton in Hz as ->.
    rewrite elem_of_rev in Hy. rewrite Forall_forall in Hx. by apply Hx.
  - repeat constructor.
Qed.

(** Sorting by a key of the total order [key_le]. *)
Section SortKeyed.
Context {A : Type} (k : A -> Z * Z * Z).

#[local] Abbreviation ascending := (ascending_by k).

Lemma insert_sorted_sorted (x : A) (l : list A) :
  StronglySorted ascending l ->
  StronglySorted ascending (insert_sorted k key_ltb x l).
Proof.
  induction 1 as [|y l Hl IH Hy]; simpl; [repeat constructor|].
  destruct (key_ltb (k x) (k y)) eqn:E.
  - assert (ascending x y) as Hxy.
    { unfold ascending_by, key_le, key_ltb in *.
      by destruct (key_compare (k x) (k y)). }
    constructor; [by constructor|]. constructor; [done|].
    eapply Forall_impl; [exact Hy|]. intros z Hz. cbn in Hz.
    unfold ascending_by in *. by etrans.
  - apply key_ltb_false in E. constructor; [done|].
    rewrite insert_sorted_perm. by constructor.
Qed.

Lemma sort_ascending_sorted (l : list A) :
  StronglySorted ascending (sort_ascending k key_ltb l).
Proof.
  unfold sort_ascending.
  enough (forall acc, StronglySorted ascending acc ->
    StronglySorted ascending
      (fold_left (fun acc x => insert_sorted k key_ltb x acc) l acc)) as H
    by (apply H; constructor).
  induction l as [|x l IH]; intros acc Hacc; simpl; [done|].
  by apply IH, insert_sorted_sorted.
Qed.

Lemma list_sort_reverse_sorted (l : list A) :
  StronglySorted (flip ascending) (list_sort k key_ltb true l).
Proof. apply StronglySorted_rev, sort_ascending_sorted. Qed.

(** The keys of the sorted list do not depend on the order of the
    input. *)
Lemma list_sort_reverse_keys (l l' : list A) :
  l ≡ₚ l' ->
  map k (list_sort k key_ltb true l) = map k (list_sort k key_ltb true l').
Proof.
  intros Hperm.
  apply (StronglySorted_unique_strong (flip key_le)).
  - intros a b _ _ Hab Hba. by apply (anti_symm key_le).
  - apply (StronglySorted_fmap _ (flip ascending)); [done|].
    apply list_sort_reverse_sorted.
  - apply (StronglySorted_fmap _ (flip ascending)); [done|].
    apply list_sort_reverse_sorted.
  - apply fmap_Permutation. by rewrite !list_sort_perm.
Qed.
End SortKeyed.

(** ** Image normalisation: proofs *)

(** An image within the bound of the session passes through unchanged. *)
Lemma _optimize_image_within_bounds (env : Env) (img : image) (w : World) :
  Z.max (height img) (width img) <= (if using_gpu w then 1920 else 1024) ->
  _optimize_image_for_processing env img w = (Ret img, w).
Proof.
  intros Hle. unfold _optimize_image_for_processing. unfold_py.
  destruct (using_gpu w); cbn;
    match goal with
    | |- context [?a >? ?b] => destruct (Z.gtb_spec a b) as [Hgt|_]; [lia|done]
    end.
Qed.

(** So normalising twice is normalising once on such an image. *)
Lemma _optimize_image_idempotent_within_bounds (env : Env) (img : image) (w : World) :
  Z.max (height img) (width img) <= (if using_gpu w then 1920 else 1024) ->
  (img' ← _optimize_image_for_processing env img;
   _optimize_image_for_processing env img') w =
  _optimize_image_for_processing env img w.
Proof.
  intros Hle. unfold mbind, Py_bind, bind.
  rewrite _optimize_image_within_bounds by done.
  by rewrite _optimize_image_within_bounds.
Qed.

(** C7 on the code: on a CPU session ([max_dim] = 1024) an image 1568
    wide and 1000 high comes back 1023 wide and 653 high. The scale
    [1024 / 1568] is rounded to binary64, [1568 * scale] is
    1023.9999999999999, and [int] truncates it: the longer edge is one
    pixel short of [max_dim]. *)
Theorem optimize_image_longer_edge_1568 :
  using_gpu (processor cfg_cpu env_three_faces) = false /\
  int_truediv 1024 1568 = inr 0.6530612244897959%float /\
  (1568 * 0.6530612244897959 = 1023.9999999999999)%float /\
  (_optimize_image_for_processing env_three_faces
     {| height := 1000; width := 1568; pixels := [] |}
     (processor cfg_cpu env_three_faces)).1 =
  Ret {| height := 653; width := 1023; pixels := [] |}.
Proof. vm_compute. repeat split. Qed.

(** The same on an accelerator session ([max_dim] = 1920) at a longer
    edge of 2148, and the image so narrow that its shorter edge scales to
    0, which [cv2.resize] rejects. *)
Example optimize_image_longer_edge_2148 :
  using_gpu (processor cfg_gpu env_three_faces) = true /\
  (_optimize_image_for_processing env_three_faces
     {| height := 2148; width := 1000; pixels := [] |}
     (processor cfg_gpu env_three_faces)).1 =
  Ret {| height := 1919; width := 893; pixels := [] |}.
Proof. vm_compute. repeat split. Qed.

Example optimize_image_narrow :
  (_optimize_image_for_processing env_three_faces
     {| height := 5000; width := 1; pixels := [] |}
     (processor cfg_cpu env_three_faces)).1 =
  Raise (cv2_error "(-215:Assertion failed) !dsize.empty() in function 'resize'").
Proof. vm_compute. reflexivity. Qed.

(** ** Statistics snapshot: proofs *)

#[local] Arguments int_truediv : simpl never.

(** [_log_gpu_memory] returns, leaves every other existing object as it
    was, and of the stats dict changes the entry "gpu_memory_usage"
    only. *)
Lemma _log_gpu_memory_frame (cfg : Config) (env : Env) (w : World) :
  is_Some (objects w !! processing_stats w) ->
  exists h,
    _log_gpu_memory cfg env w = (Ret tt, set_objects h w) /\
    (forall l, l <> processing_stats w -> is_Some (objects w !! l) ->
               h !! l = objects w !! l) /\
    (forall k, k <> "gpu_memory_usage" ->
               stat (set_objects h w) k = stat w k).
Proof.
  destruct w as [a ml ug di st h cs]. unfold stat. intros [d Hd].
  change (h !! st = Some d) in Hd. cbn [objects processing_stats set_objects].
  assert (Hfresh : fresh (dom h) <> st).
  { intros Heq. apply (is_fresh (dom h)). rewrite Heq.
    apply elem_of_dom. by eexists. }
  assert (Hfresh' : forall l, is_Some (h !! l) -> fresh (dom h) <> l).
  { intros l Hl Heq. apply (is_fresh (dom h)). rewrite Heq.
    by apply elem_of_dom. }
  assert (Hsame : exists h0,
            (Ret tt, {| self_app := a; model_loaded := ml; using_gpu := ug;
                        device_info := di; processing_stats := st;
                        objects := h; calls := cs |}) =
            (Ret tt, {| self_app := a; model_loaded := ml; using_gpu := ug;
                        device_info := di; processing_stats := st;
                        objects := h0; calls := cs |}) /\
            (forall l, l <> st -> is_Some (h !! l) -> h0 !! l = h !! l) /\
            (forall k : string, k <> "gpu_memory_usage" ->
               (h0 !! st ≫= λ d0 : dict, d0 !! k) = (h !! st ≫= λ d0 : dict, d0 !! k)))
    by (exists h; split; [done|split; done]).
  unfold _log_gpu_memory, dict_new, dict_set, set_objects. unfold_py. cbn.
  destruct (CUDA_AVAILABLE cfg); [|exact Hsame].
  destruct (torch_cuda_memory env) as [e|[[[allocated reserved] total]|]];
    cbn; [exact Hsame| |exact Hsame].
  destruct (int_truediv allocated 1024); cbn; [exact Hsame|].
  destruct (int_truediv reserved 1024); cbn; [exact Hsame|].
  destruct (int_truediv total 1024); cbn; [exact Hsame|].
  destruct (int_truediv allocated total); cbn; [exact Hsame|].
  rewrite lookup_insert_ne by exact Hfresh. rewrite Hd.
  eexists. split; [reflexivity|]. split.
  - intros l Hl Hsome. rewrite lookup_insert_ne by done.
    rewrite lookup_insert_ne; [done|]. by apply Hfresh'.
  - intros k Hk. cbn [objects processing_stats].
    rewrite lookup_insert_eq. cbn. by rewrite lookup_insert_ne.
Qed.

(** What [get_performance_stats] does on well-formed statistics: it
    returns a new dict [snap], a copy of the stats dict [d] with the
    entry "faces_per_second" added when the average is positive. *)
Lemma get_performance_stats_run (cfg : Config) (env : Env) (w : World)
    (d : dict) (v : value) (avg : float) :
  objects w !! processing_stats w = Some d ->
  d !! "average_processing_time" = Some v ->
  stat_number v = Some avg ->
  exists snap h1,
    get_performance_stats cfg env w = (Ret snap, set_objects h1 w) /\
    snap <> processing_stats w /\
    objects w !! snap = None /\
    h1 !! snap = Some (if PrimFloat.ltb 0 avg
                       then <["faces_per_second" := VFloat (1 / avg)]> d
                       else d) /\
    (using_gpu w = false -> h1 !! processing_stats w = Some d) /\
    (forall k, k <> "gpu_memory_usage" -> stat (set_objects h1 w) k = stat w k).
Proof.
  intros Hd Hv Hnum.
  set (snap := fresh (dom (objects w))).
  assert (Hnone : objects w !! snap = None)
    by (apply not_elem_of_dom, is_fresh).
  assert (Hne : snap <> processing_stats w) by (intros Heq; congruence).
  set (w0 := set_objects (<[snap := d]> (objects w)) w).
  assert (Hlog : exists h,
    (if using_gpu w then _log_gpu_memory cfg env else mret tt) w0
      = (Ret tt, set_objects h w) /\
    h !! snap = Some d /\
    (using_gpu w = false -> h !! processing_stats w = Some d) /\
    (forall k, k <> "gpu_memory_usage" -> stat (set_objects h w) k = stat w k)).
  { destruct (using_gpu w) eqn:Hgpu.
    - destruct (_log_gpu_memory_frame cfg env w0) as (h & Hrun & Hframe & Hstat).
      { unfold w0. cbn. rewrite lookup_insert_ne by done. by rewrite Hd. }
      exists h. split; [exact Hrun|]. split; [|split; [done|]].
      + rewrite (Hframe snap); unfold w0; cbn; [|done|];
          rewrite lookup_insert_eq; done.
      + intros k Hk. transitivity (stat w0 k); [by apply Hstat|].
        unfold stat, w0. cbn. by rewrite lookup_insert_ne.
    - exists (<[snap := d]> (objects w)). split; [done|].
      split; [by rewrite lookup_insert_eq|].
      split; [intros _; by rewrite lookup_insert_ne|].
      intros k _. unfold stat. cbn. by rewrite lookup_insert_ne. }
  destruct Hlog as (h & Hrun & Hsnap & Hcpu & Hstat).
  assert (Hhead :
    get_performance_stats cfg env w =
    (v ← dict_get snap "average_processing_time";
     positive ← lift_sum (py_gt_zero v);
     (if (positive : bool) then
        v ← dict_get snap "average_processing_time";
        q ← lift_sum (py_one_over v);
        dict_set snap "faces_per_second" (VFloat q)
      else mret tt);;
     mret snap) (set_objects h w)).
  { unfold get_performance_stats, dict_copy, dict_new. unfold_py.
    cbn. rewrite Hd. fold snap. fold w0.
    unfold mbind, mret, Py_bind, Py_ret, bind, ret in Hrun.
    change (using_gpu w0) with (using_gpu w). by rewrite Hrun. }
  rewrite Hhead. clear Hhead.
  unfold dict_get, dict_set. unfold_py. cbn. rewrite Hsnap, Hv. cbn.
  destruct v as [z|a|]; cbn in Hnum; [destruct z; simplify_eq| |done].
  - cbn. exists snap, h. rewrite Hsnap.
    change (PrimFloat.ltb 0 0) with false. done.
  - simplify_eq. cbn. destruct (PrimFloat.ltb 0 avg) eqn:Hpos; cbn.
    + rewrite Hsnap, Hv. cbn. rewrite (ltb_zero_neq avg Hpos). cbn.
      rewrite Hsnap.
      exists snap, (<[snap := <["faces_per_second" := VFloat (1 / avg)]> d]> h).
      split; [done|]. split; [done|]. split; [done|].
      split; [by rewrite lookup_insert_eq|].
      split; [intros Hg; rewrite lookup_insert_ne by done; by apply Hcpu|].
      intros k Hk. rewrite <- (Hstat k Hk). unfold stat. cbn.
      by rewrite lookup_insert_ne.
    + exists snap, h. rewrite Hsnap. done.
Qed.

(** C9: [get_performance_stats] returns a copy of the processing stats:
    a dict of its own, new on the heap, that holds the entries of the
    stats dict (with "faces_per_second" set to [1 / average] when the
    average is greater than 0, and nothing else added or changed).
    Whatever the caller then does to the entries of the returned dict,
    the stats dict of the processor keeps its entries; taking the
    snapshot leaves the three counters as they were, and on a CPU
    session it leaves the whole stats dict as it was. *)
Theorem get_performance_stats_returns_copy (cfg : Config) (env : Env) (w : World)
    (d : dict) (v : value) (avg : float) :
  objects w !! processing_stats w = Some d ->
  d !! "average_processing_time" = Some v ->
  stat_number v = Some avg ->
  exists snap w1,
    get_performance_stats cfg env w = (Ret snap, w1) /\
    objects w !! snap = None /\
    objects w1 !! snap =
      Some (if PrimFloat.ltb 0 avg
            then <["faces_per_second" := VFloat (1 / avg)]> d else d) /\
    snap <> processing_stats w1 /\
    same_processor w w1 /\
    (forall k, k <> "gpu_memory_usage" -> stat w1 k = stat w k) /\
    (using_gpu w = false ->
       objects w1 !! processing_stats w1 = objects w !! processing_stats w) /\
    (forall f : dict -> dict, exists w2,
       dict_mutate snap f w1 = (Ret tt, w2) /\
       same_processor w1 w2 /\
       objects w2 !! processing_stats w2 = objects w1 !! processing_stats w1).
Proof.
  intros Hd Hv Hnum.
  destruct (get_performance_stats_run cfg env w d v avg Hd Hv Hnum)
    as (snap & h1 & Hrun & Hne & Hfresh & Hsnap & Hcpu & Hstat).
  exists snap, (set_objects h1 w).
  split; [done|]. split; [done|]. split; [exact Hsnap|].
  split; [done|]. split; [by repeat split|].
  split; [done|]. split; [intros Hg; cbn; by rewrite Hcpu, Hd|].
  intros f. unfold dict_mutate. cbn. rewrite Hsnap.
  eexists. split; [reflexivity|]. split; [by repeat split|].
  cbn. by rewrite lookup_insert_ne.
Qed.

(** C10: the returned dict has the entry "faces_per_second", equal to
    [1.0 / average_processing_time], exactly when the average is greater
    than 0; when the average is 0 the entry is absent. The call returns:
    no division by zero is raised. *)
Theorem get_performance_stats_faces_per_second (cfg : Config) (env : Env)
    (w : World) (d : dict) (v : value) (avg : float) :
  objects w !! processing_stats w = Some d ->
  d !! "average_processing_time" = Some v ->
  stat_number v = Some avg ->
  d !! "faces_per_second" = None ->
  exists snap w1 stats,
    get_performance_stats cfg env w = (Ret snap, w1) /\
    objects w1 !! snap = Some stats /\
    stats !! "faces_per_second" =
      (if PrimFloat.ltb 0 avg then Some (VFloat (1 / avg)) else None) /\
    (PrimFloat.eqb avg 0 = true -> stats !! "faces_per_second" = None).
Proof.
  intros Hd Hv Hnum Hfps.
  destruct (get_performance_stats_run cfg env w d v avg Hd Hv Hnum)
    as (snap & h1 & Hrun & _ & _ & Hsnap & _).
  exists snap, (set_objects h1 w). eexists.
  split; [done|]. split; [exact Hsnap|].
  destruct (PrimFloat.ltb 0 avg) eqn:Hpos.
  - split; [by rewrite lookup_insert_eq|].
    intros Hz. by rewrite (ltb_zero_neq avg Hpos) in Hz.
  - done.
Qed.

Lemma processor_after_one_stats :
  objects processor_after_one !! processing_stats processor_after_one
    = Some stats_after_one /\
  stats_after_one !! "average_processing_time" = Some (VFloat 0.2) /\
  stat_number (VFloat 0.2) = Some 0.2%float /\
  stats_after_one !! "faces_per_second" = None.
Proof. repeat split; vm_compute; reflexivity. Defined.

Lemma get_performance_stats_returns_copy_witness :
  objects processor_after_one !! processing_stats processor_after_one
    = Some stats_after_one /\
  stats_after_one !! "average_processing_time" = Some (VFloat 0.2) /\
  stat_number (VFloat 0.2) = Some 0.2%float /\
  exists snap w1,
    get_performance_stats cfg_cpu env_three_faces processor_after_one
      = (Ret snap, w1) /\
    objects processor_after_one !! snap = None /\
    objects w1 !! snap =
      Some (if PrimFloat.ltb 0 0.2
            then <["faces_per_second" := VFloat (1 / 0.2)]> stats_after_one
            else stats_after_one) /\
    snap <> processing_stats w1 /\
    same_processor processor_after_one w1 /\
    (forall k, k <> "gpu_memory_usage" -> stat w1 k = stat processor_after_one k) /\
    (using_gpu processor_after_one = false ->
       objects w1 !! processing_stats w1 =
       objects processor_after_one !! processing_stats processor_after_one) /\
    (forall f : dict -> dict, exists w2,
       dict_mutate snap f w1 = (Ret tt, w2) /\
       same_processor w1 w2 /\
       objects w2 !! processing_stats w2 = objects w1 !! processing_stats w1).
Proof.
  destruct processor_after_one_stats as (H1 & H2 & H3 & _).
  split; [exact H1|]. split; [exact H2|]. split; [exact H3|].
  exact (get_performance_stats_returns_copy cfg_cpu env_three_faces _ _ _ _
           H1 H2 H3).
Defined.

Lemma get_performance_stats_faces_per_second_witness :
  objects processor_after_one !! processing_stats processor_after_one
    = Some stats_after_one /\
  stats_after_one !! "average_processing_time" = Some (VFloat 0.2) /\
  stat_number (VFloat 0.2) = Some 0.2%float /\
  stats_after_one !! "faces_per_second" = None /\
  exists snap w1 stats,
    get_performance_stats cfg_cpu env_three_faces processor_after_one
      = (Ret snap, w1) /\
    objects w1 !! snap = Some stats /\
    stats !! "faces_per_second" =
      (if PrimFloat.ltb 0 0.2 then Some (VFloat (1 / 0.2)) else None) /\
    (PrimFloat.eqb 0.2 0 = true -> stats !! "faces_per_second" = None).
Proof.
  destruct processor_after_one_stats as (H1 & H2 & H3 & H4).
  split; [exact H1|]. split; [exact H2|]. split; [exact H3|].
  split; [exact H4|].
  exact (get_performance_stats_faces_per_second cfg_cpu env_three_faces _ _ _ _
           H1 H2 H3 H4).
Defined.

(** On the code: a new processor has no "faces_per_second" in its
    snapshot; after a detection of 0.2 s the snapshot has 1 / 0.2 = 5;
    writing into the snapshot leaves the processor's counter at 1. *)
Example snapshot_of_new_processor :
  let r := get_performance_stats cfg_cpu env_three_faces
             (processor cfg_cpu env_three_faces) in
  r.1 = Ret 2%positive /\
  (d ← objects r.2 !! 2%positive; d !! "faces_per_second") = None /\
  (d ← objects r.2 !! 2%positive; d !! "average_processing_time")
    = Some (VInt 0).
Proof. vm_compute. done. Qed.

Example snapshot_after_one_detection :
  let r := get_performance_stats cfg_cpu env_three_faces processor_after_one in
  r.1 = Ret 2%positive /\
  (d ← objects r.2 !! 2%positive; d !! "faces_per_second") = Some (VFloat 5) /\
  (d ← objects r.2 !! 2%positive; d !! "total_processed") = Some (VInt 1) /\
  stat (dict_mutate 2%positive (<["total_processed" := VInt 99]>) r.2).2
    "total_processed" = Some (VInt 1).
Proof. vm_compute. done. Qed.

(** On an accelerator session the copy is shallow: the snapshot and the
    processor hold one and the same dict under "gpu_memory_usage" (the
    one [__init__] stored; the snapshot then stores a newer one in the
    processor). A write through the snapshot into that dict does not
    reach the three counters. *)
Example snapshot_on_accelerator :
  let w := processor cfg_gpu env_gpu in
  let r := get_performance_stats cfg_gpu env_gpu w in
  using_gpu w = true /\
  stat w "gpu_memory_usage" = Some (VDict 2%positive) /\
  r.1 = Ret 3%positive /\
  (d ← objects r.2 !! 3%positive; d !! "gpu_memory_usage") = Some (VDict 2%positive) /\
  stat r.2 "gpu_memory_usage" = Some (VDict 4%positive) /\
  (d ← objects r.2 !! 2%positive; d !! "allocated_mb") = Some (VFloat 1) /\
  stat (dict_mutate 2%positive (<["allocated_mb" := VFloat 0]>) r.2).2
    "total_processed" = Some (VInt 0).
Proof. vm_compute. done. Qed.

(** C1: with a loaded model, when the model raises on the normalised
    image, [detect_faces] returns the empty list and changes nothing;
    and whatever the image and the processor, the only exception
    [detect_faces] lets out is the [RuntimeError] of a model that is not
    loaded. *)
Theorem detect_faces_swallows_model_faults
    (cfg : Config) (env : Env) (t0 t1 : float) (img : image) (w : World) (e : exn) :
  model_loaded w = true ->
  model_answer env w img (inl e) ->
  detect_faces cfg env t0 t1 img w = (Ret [], w) /\
  (forall img' w' e',
     (detect_faces cfg env t0 t1 img' w').1 = Raise e' ->
     model_loaded w' = false /\ e' = RuntimeError "Face model not loaded").
Proof.
  intros Hl Hm. split; [by eapply detect_faces_model_raises|].
  intros img' w' e' Hr. destruct (model_loaded w') eqn:E.
  - destruct (detect_faces_returns cfg env t0 t1 img' w' E) as (l & w'' & Heq).
    rewrite Heq in Hr. done.
  - rewrite detect_faces_not_loaded in Hr by done. cbn in Hr. by simplify_eq.
Qed.

Lemma detect_faces_swallows_model_faults_witness :
  model_loaded (processor cfg_cpu env_model_fault) = true /\
  model_answer env_model_fault (processor cfg_cpu env_model_fault) photo
    (inl (Exn "RuntimeError" "ONNXRuntimeError")) /\
  detect_faces cfg_cpu env_model_fault 0 0.2 photo
      (processor cfg_cpu env_model_fault) =
    (Ret [], processor cfg_cpu env_model_fault).
Proof.
  assert (H1 : model_loaded (processor cfg_cpu env_model_fault) = true)
    by (vm_compute; reflexivity).
  assert (H2 : model_answer env_model_fault (processor cfg_cpu env_model_fault)
                 photo (inl (Exn "RuntimeError" "ONNXRuntimeError"))).
  { eexists _, photo. split; [vm_compute; reflexivity|].
    split; vm_compute; reflexivity. }
  split; [exact H1|]. split; [exact H2|].
  exact (proj1 (detect_faces_swallows_model_faults cfg_cpu env_model_fault
                  0 0.2 photo _ _ H1 H2)).
Defined.

(** C2, as the code has it: when normalisation and the model return,
    [detect_faces] returns the filtered records and the statistics move
    on: [total_processed] by 1, [total_faces_detected] by the length of
    the result, and [average_processing_time] to the elapsed time
    [t1 - t0] when it was 0 and to [avg*0.9 + elapsed*0.1] otherwise.
    When the model or the normalisation raises, the statistics are left
    as they were. *)
Theorem detect_faces_updates_stats
    (cfg : Config) (env : Env) (t0 t1 : float) (img : image) (w : World)
    (faces : list RawFace) (n m : Z) (avg : float) :
  model_loaded w = true ->
  stats_are w n m avg ->
  (model_answer env w img (inr faces) ->
   exists result w',
     detect_faces cfg env t0 t1 img w = (Ret result, w') /\
     stats_are w' (n + 1) (m + Z.of_nat (length result))
       (smoothed avg (t1 - t0))) /\
  (forall e, model_answer env w img (inl e) ->
     detect_faces cfg env t0 t1 img w = (Ret [], w)) /\
  (forall e, (_optimize_image_for_processing env img w).1 = Raise e ->
     detect_faces cfg env t0 t1 img w = (Ret [], w)).
Proof.
  intros Hl Hs. split; [|split].
  - intros Hm.
    destruct (detect_faces_model_returns cfg env t0 t1 img w faces n m avg
                Hl Hm Hs) as (w' & Hrun & _ & Hs' & _).
    eauto.
  - intros e Hm. by eapply detect_faces_model_raises.
  - intros e Ho. by eapply detect_faces_normalise_raises.
Qed.

(** C3: when the model returns [faces], the result of [detect_faces] is
    the list of records of the faces that pass the size test, in order;
    so the record of a face of [faces] is in the result exactly when its
    integer width and height are both at least [MIN_FACE_SIZE]. *)
Theorem detect_faces_keeps_large_faces
    (cfg : Config) (env : Env) (t0 t1 : float) (img : image) (w : World)
    (faces : list RawFace) (n m : Z) (avg : float) :
  model_loaded w = true ->
  stats_are w n m avg ->
  model_answer env w img (inr faces) ->
  exists result,
    (detect_faces cfg env t0 t1 img w).1 = Ret result /\
    result = map face_info (List.filter (large_enough cfg) faces) /\
    forall face, In face faces ->
      (In (face_info face) result <->
       MIN_FACE_SIZE cfg <= bbox_width face /\
       MIN_FACE_SIZE cfg <= bbox_height face).
Proof.
  intros Hl Hs Hm.
  destruct (detect_faces_model_returns cfg env t0 t1 img w faces n m avg
              Hl Hm Hs) as (w' & Hrun & _).
  exists (valid_faces cfg faces). rewrite Hrun. split; [done|].
  split; [apply valid_faces_filter|].
  intros face Hin. rewrite valid_faces_filter, in_map_iff. split.
  - intros (face' & Heq & Hin'). apply filter_In in Hin' as [_ Hbig].
    unfold large_enough in Hbig.
    assert (bbox_width face' = bbox_width face /\
            bbox_height face' = bbox_height face) as [<- <-].
    { unfold face_info in Heq.
      destruct (face_bbox face') as [[[? ?] ?] ?] eqn:E1,
               (face_bbox face) as [[[? ?] ?] ?] eqn:E2.
      by simplify_eq. }
    lia.
  - intros [Hw Hh]. exists face. split; [done|].
    apply filter_In. split; [done|]. unfold large_enough. lia.
Qed.

Lemma processor_cpu_three_faces_ready :
  model_loaded (processor cfg_cpu env_three_faces) = true /\
  stats_are (processor cfg_cpu env_three_faces) 0 0 0 /\
  model_answer env_three_faces (processor cfg_cpu env_three_faces) photo
    (inr three_faces).
Proof.
  split; [vm_compute; reflexivity|]. split.
  - split; [vm_compute; reflexivity|]. split; [vm_compute; reflexivity|].
    exists (VInt 0). split; vm_compute; reflexivity.
  - eexists _, photo. split; [vm_compute; reflexivity|].
    split; vm_compute; reflexivity.
Defined.

Lemma detect_faces_updates_stats_witness :
  model_loaded (processor cfg_cpu env_three_faces) = true /\
  stats_are (processor cfg_cpu env_three_faces) 0 0 0 /\
  model_answer env_three_faces (processor cfg_cpu env_three_faces) photo
    (inr three_faces) /\
  exists result w',
    detect_faces cfg_cpu env_three_faces 0 0.2 photo
      (processor cfg_cpu env_three_faces) = (Ret result, w') /\
    stats_are w' (0 + 1) (0 + Z.of_nat (length result)) (smoothed 0 (0.2 - 0)).
Proof.
  destruct processor_cpu_three_faces_ready as (H1 & H2 & H3).
  split; [exact H1|]. split; [exact H2|]. split; [exact H3|].
  exact (proj1 (detect_faces_updates_stats cfg_cpu env_three_faces 0 0.2 photo
                  _ three_faces 0 0 0 H1 H2) H3).
Defined.

(** C2 as stated fails when the model raises: the call returns the empty
    list and [total_processed] stays at 0 instead of moving to 1. *)
Lemma detect_faces_updates_stats_counterexample :
  model_loaded (processor cfg_cpu env_model_fault) = true /\
  stat (processor cfg_cpu env_model_fault) "total_processed" = Some (VInt 0) /\
  (detect_faces cfg_cpu env_model_fault 0 0.2 photo
     (processor cfg_cpu env_model_fault)).1 = Ret [] /\
  stat (detect_faces cfg_cpu env_model_fault 0 0.2 photo
          (processor cfg_cpu env_model_fault)).2 "total_processed"
    <> Some (VInt (0 + 1)).
Proof.
  split; [vm_compute; reflexivity|]. split; [vm_compute; reflexivity|].
  split; [vm_compute; reflexivity|]. vm_compute. discriminate.
Qed.

(** The scenario of the specification, run on the code: a first
    detection of 0.2 s sets the average to 0.2; a second one of 0.1 s
    sets it to [0.2*0.9 + 0.1*0.1], which in binary64 is
    0.19000000000000003 and not the literal 0.19. *)
Example two_detections_average :
  let w1 := (detect_faces cfg_cpu env_three_faces 0 0.2 photo
               (processor cfg_cpu env_three_faces)).2 in
  let w2 := (detect_faces cfg_cpu env_three_faces 0 0.1 photo w1).2 in
  stat w1 "average_processing_time" = Some (VFloat 0.2) /\
  stat w2 "average_processing_time" = Some (VFloat (0.2 * 0.9 + 0.1 * 0.1)) /\
  stat w2 "average_processing_time" = Some (VFloat 0.19000000000000003) /\
  stat w2 "total_processed" = Some (VInt 2) /\
  PrimFloat.eqb (0.2 * 0.9 + 0.1 * 0.1) 0.19 = false.
Proof. vm_compute. repeat split. Qed.

Lemma detect_faces_keeps_large_faces_witness :
  model_loaded (processor cfg_cpu env_three_faces) = true /\
  stats_are (processor cfg_cpu env_three_faces) 0 0 0 /\
  model_answer env_three_faces (processor cfg_cpu env_three_faces) photo
    (inr three_faces) /\
  exists result,
    (detect_faces cfg_cpu env_three_faces 0 0.2 photo
       (processor cfg_cpu env_three_faces)).1 = Ret result /\
    result = map face_info (List.filter (large_enough cfg_cpu) three_faces) /\
    forall face, In face three_faces ->
      (In (face_info face) result <->
       MIN_FACE_SIZE cfg_cpu <= bbox_width face /\
       MIN_FACE_SIZE cfg_cpu <= bbox_height face).
Proof.
  destruct processor_cpu_three_faces_ready as (H1 & H2 & H3).
  split; [exact H1|]. split; [exact H2|]. split; [exact H3|].
  exact (detect_faces_keeps_large_faces cfg_cpu env_three_faces 0 0.2 photo
           _ three_faces 0 0 0 H1 H2 H3).
Defined.

(** Of [three_faces] the 50 x 70 face is kept (the width equals
    [MIN_FACE_SIZE]); the 49 x 100 and the 120 x 49 ones are dropped. *)
Example three_faces_detected :
  (detect_faces cfg_cpu env_three_faces 0 0.2 photo
     (processor cfg_cpu env_three_faces)).1 =
  Ret [ {| bbox := (10, 10, 50, 70); confidence := 0.9;
           embedding := [1; 0]%float; landmarks := None; age := Some 30;
           gender := Some "M" |} ].
Proof. vm_compute. reflexivity. Qed.

(** ** Matching: proofs *)

Lemma similarities_comparable (probe : list float) (embeddings : list (Stored float)) :
  comparable probe embeddings ->
  similarities probe embeddings = inr (map (match_of probe) embeddings) /\
  Forall (fun m => is_nan (similarity m) = false) (map (match_of probe) embeddings).
Proof.
  induction 1 as [|stored rest (s & Hs & Hnan) _ [IH1 IH2]]; simpl; [done|].
  rewrite Hs, IH1. split.
  - unfold match_of at 2. by rewrite Hs.
  - constructor; [|done]. unfold match_of. cbn. by rewrite Hs.
Qed.

Lemma StronglySorted_impl_elem {A} (R R' : relation A) (l : list A) :
  (forall a b, a ∈ l -> b ∈ l -> R a b -> R' a b) ->
  StronglySorted R l -> StronglySorted R' l.
Proof.
  intros Himpl Hl. induction Hl as [|x l Hl IH Hx]; constructor.
  - apply IH. intros a b Ha Hb. apply Himpl; by right.
  - rewrite Forall_forall in Hx |- *. intros y Hy.
    apply Himpl; [by left|by right|by apply Hx].
Qed.

Lemma map_eq_Forall2 {A B} (f : A -> B) (P : A -> Prop) (l l' : list A) :
  map f l = map f l' -> Forall P l -> Forall P l' ->
  Forall2 (fun a b => P a /\ P b /\ f a = f b) l l'.
Proof.
  revert l'. induction l as [|a l IH]; intros [|b l'] Heq Hl Hl';
    simplify_eq/=; constructor.
  - by inv Hl; inv Hl'.
  - inv Hl; inv Hl'. by apply IH.
Qed.

(** On similarities that are numbers the sort of the code is the sort by
    [float_key]. *)
Lemma list_sort_float_key (ms : list (Match float)) :
  Forall (fun m => is_nan (similarity m) = false) ms ->
  list_sort similarity PrimFloat.ltb true ms =
  list_sort (fun m => float_key (similarity m)) key_ltb true ms.
Proof.
  intros Hnan. apply list_sort_ext. intros x y Hx Hy.
  rewrite Forall_forall in Hnan. apply ltb_key; by apply Hnan.
Qed.

Lemma list_sort_descending (ms : list (Match float)) :
  Forall (fun m => is_nan (similarity m) = false) ms ->
  descending (list_sort similarity PrimFloat.ltb true ms).
Proof.
  intros Hnan. rewrite list_sort_float_key by done. unfold descending.
  eapply StronglySorted_impl_elem;
    [|apply (list_sort_reverse_sorted (fun m => float_key (similarity m)))].
  intros a b Ha Hb Hab. rewrite Forall_forall in Hnan.
  rewrite list_sort_perm in Ha, Hb.
  apply leb_key; [by apply Hnan..|]. exact Hab.
Qed.

Lemma list_sort_same_ranking (ms ms' : list (Match float)) :
  Forall (fun m => is_nan (similarity m) = false) ms ->
  ms ≡ₚ ms' ->
  same_ranking (list_sort similarity PrimFloat.ltb true ms)
               (list_sort similarity PrimFloat.ltb true ms').
Proof.
  intros Hnan Hperm.
  assert (Hnan' : Forall (fun m => is_nan (similarity m) = false) ms')
    by (by rewrite <- Hperm).
  split; [by rewrite !list_sort_perm|].
  rewrite !list_sort_float_key by done.
  eapply Forall2_impl.
  - apply (map_eq_Forall2 (fun m => float_key (similarity m))
             (fun m => is_nan (similarity m) = false)).
    + by apply list_sort_reverse_keys.
    + by rewrite list_sort_perm.
    + by rewrite list_sort_perm.
  - intros a b (Ha & Hb & Hk). by apply eqb_key.
Qed.

Lemma rank_matches_sorted
    (probe : list float) (embeddings embeddings' : list (Stored float)) :
  comparable probe embeddings ->
  embeddings ≡ₚ embeddings' ->
  exists ms ms',
    rank_matches probe embeddings = inr ms /\
    rank_matches probe embeddings' = inr ms' /\
    ms ≡ₚ map (match_of probe) embeddings /\
    descending ms /\ descending ms' /\ same_ranking ms ms'.
Proof.
  intros Hcmp Hperm.
  assert (Hcmp' : comparable probe embeddings')
    by (unfold comparable; by rewrite <- Hperm).
  destruct (similarities_comparable probe embeddings Hcmp) as [Hs Hnan].
  destruct (similarities_comparable probe embeddings' Hcmp') as [Hs' Hnan'].
  unfold rank_matches. rewrite Hs, Hs'. eexists _, _.
  split; [done|]. split; [done|].
  split; [apply list_sort_perm|].
  split; [by apply list_sort_descending|].
  split; [by apply list_sort_descending|].
  apply list_sort_same_ranking; [done|]. by apply fmap_Permutation.
Qed.

(** C5, as the code has it: for a detected selfie face and a non-empty
    list of stored embeddings whose similarities to it are all numbers
    (no NaN), [compare_faces] answers with the matches sorted by
    similarity, greatest first; and for every permutation of the stored
    embeddings it answers with the same ranking up to the order among
    equal similarities. *)
Theorem compare_faces_sorted_any_order
    (face : FaceInfo) (others : list FaceInfo)
    (embeddings embeddings' : list (Stored float)) :
  embeddings <> [] ->
  comparable (embedding face) embeddings ->
  embeddings ≡ₚ embeddings' ->
  exists ms ms',
    compare_faces (face :: others) embeddings = Ok200 ms /\
    compare_faces (face :: others) embeddings' = Ok200 ms' /\
    ms ≡ₚ map (match_of (embedding face)) embeddings /\
    descending ms /\ descending ms' /\ same_ranking ms ms'.
Proof.
  intros Hne Hcmp Hperm.
  destruct (rank_matches_sorted _ _ _ Hcmp Hperm)
    as (ms & ms' & Hr & Hr' & Hp & Hd & Hd' & Hsame).
  exists ms, ms'. unfold compare_faces. rewrite Hr, Hr'.
  destruct embeddings as [|stored rest]; [done|].
  destruct embeddings' as [|stored' rest'];
    [by apply Permutation_nil_r in Hperm|].
  done.
Qed.

Lemma compare_faces_sorted_any_order_witness :
  [stored_near; stored_far; stored_same] <> [] /\
  comparable (embedding selfie_face) [stored_near; stored_far; stored_same] /\
  [stored_near; stored_far; stored_same] ≡ₚ [stored_same; stored_far; stored_near] /\
  exists ms ms',
    compare_faces [selfie_face] [stored_near; stored_far; stored_same] = Ok200 ms /\
    compare_faces [selfie_face] [stored_same; stored_far; stored_near] = Ok200 ms' /\
    ms ≡ₚ map (match_of (embedding selfie_face))
            [stored_near; stored_far; stored_same] /\
    descending ms /\ descending ms' /\ same_ranking ms ms'.
Proof.
  assert (H1 : [stored_near; stored_far; stored_same] <> []) by discriminate.
  assert (H2 : comparable (embedding selfie_face)
                 [stored_near; stored_far; stored_same]).
  { repeat constructor; eexists; (split; [vm_compute; reflexivity|]);
      vm_compute; reflexivity. }
  assert (H3 : [stored_near; stored_far; stored_same]
               ≡ₚ [stored_same; stored_far; stored_near]).
  { etrans; [apply Permutation_swap|]. etrans; [apply perm_skip, Permutation_swap|].
    apply Permutation_swap. }
  split; [exact H1|]. split; [exact H2|]. split; [exact H3|].
  exact (compare_faces_sorted_any_order selfie_face [] _ _ H1 H2 H3).
Defined.

Example compare_faces_three :
  compare_faces [selfie_face] [stored_near; stored_far; stored_same] =
  Ok200 [ {| photoId := "same"; similarity := 1%float |};
          {| photoId := "near"; similarity := 0.8%float |};
          {| photoId := "far"; similarity := 0%float |} ].
Proof. vm_compute. reflexivity. Qed.

(** C5 as stated fails on a stored embedding of norm zero: its
    similarity is NaN, and next to a NaN no order of the results is
    sorted. Both orders of the two stored embeddings are run. *)
Lemma compare_faces_sorted_counterexample :
  length (embedding selfie_face_512) = 512%nat /\
  length (stored_embedding stored_zero) = 512%nat /\
  length (stored_embedding stored_unit) = 512%nat /\
  (exists ms, compare_faces [selfie_face_512] [stored_zero; stored_unit] = Ok200 ms /\
              ~ descending ms) /\
  (exists ms, compare_faces [selfie_face_512] [stored_unit; stored_zero] = Ok200 ms /\
              ~ descending ms).
Proof.
  split; [reflexivity|]. split; [reflexivity|]. split; [reflexivity|].
  split; (eexists; split; [vm_compute; reflexivity|]);
    intros Hs; apply StronglySorted_cons in Hs as [Hhd _];
    apply Forall_cons in Hhd as [Hle _]; vm_compute in Hle; discriminate.
Qed.

(** ** The range of the cosine similarity on binary64: proofs *)



Lemma sf_zero_zero_or_nan (x : spec_float) : sf_zero x -> sf_zero_or_nan x.
Proof. by destruct x. Qed.















(** On the code: an infinite product of norms with a finite dot
    product gives 0. *)
Example cosine_similarity_infinite_norm :
  np_dot huge_512 unit_512 = inr 1e200%float /\
  (np_linalg_norm huge_512 * np_linalg_norm unit_512)%float = infinity /\
  cosine_similarity huge_512 unit_512 = inr 0%float.
Proof. vm_compute. repeat split. Qed.

(** On the code: a zero vector as stored embedding, and as probe. *)
Example cosine_similarity_zero_vectors :
  zero_vector zeros_512 /\
  (exists s, cosine_similarity unit_512 zeros_512 = inr s /\ is_nan s = true) /\
  (exists s, cosine_similarity zeros_512 unit_512 = inr s /\ is_nan s = true).
Proof.
  split; [|split].
  - unfold zero_vector, zeros_512. apply Forall_forall.
    intros x Hx%list_elem_of_In%repeat_spec. by subst.
  - eexists. split; [vm_compute; reflexivity|reflexivity].
  - eexists. split; [vm_compute; reflexivity|reflexivity].
Qed.

(** ** Admission of requests: proofs *)

Module AppFacts.
Import App.

Lemma inside_insert (reqs : list pc) (i : nat) (p q : pc) :
  reqs !! i = Some p ->
  (length (List.filter is_inside (<[i := q]> reqs))
   + (if is_inside p then 1 else 0) =
   length (List.filter is_inside reqs)
   + (if is_inside q then 1 else 0))%nat.
Proof.
  revert i. induction reqs as [|r reqs IH]; intros [|i] Hi; simplify_eq/=.
  - destruct (is_inside p), (is_inside q); simpl; lia.
  - specialize (IH i Hi). destruct (is_inside r); simpl; lia.
Qed.

Lemma shared_invariant_step (l : loc) (i : nat) (s s' : server) :
  shared_invariant l s -> step (Shared l) i s = Some s' ->
  shared_invariant l s'.
Proof.
  intros [(n & Hn & Hsum) Hall] Hstep. unfold step in Hstep.
  destruct (requests s !! i) as [p|] eqn:Hi; [|done].
  pose proof (Forall_lookup_1 _ _ _ _ Hall Hi) as Hp.
  unfold shared_invariant, inside in *.
  destruct p as [|l'|l'|]; simplify_eq/=.
  - pose proof (inside_insert _ _ _ (Waiting l) Hi) as Hc. simpl in Hc.
    split; [exists n; split; [done|lia]|]. by apply Forall_insert.
  - rewrite Hn in Hstep. destruct n as [|n]; simplify_eq/=.
    pose proof (inside_insert _ _ _ (Inside l) Hi) as Hc. simpl in Hc.
    split; [exists n; rewrite lookup_insert_eq; split; [done|lia]|].
    by apply Forall_insert.
  - rewrite Hn in Hstep. simplify_eq/=.
    pose proof (inside_insert _ _ _ Finished Hi) as Hc. simpl in Hc.
    split; [exists (S n); rewrite lookup_insert_eq; split; [done|lia]|].
    by apply Forall_insert.
Qed.

(** The bound of the specification holds on a server whose requests
    share one semaphore, under every schedule. *)
Lemma shared_semaphore_bound (l : loc) (n : nat) (schedule : list nat) (s : server) :
  run (Shared l) schedule (start (Shared l) n) = Some s ->
  (inside s <= MAX_WORKERS)%nat.
Proof.
  enough (forall s0, shared_invariant l s0 ->
                     run (Shared l) schedule s0 = Some s ->
                     shared_invariant l s) as H.
  { intros Hrun. destruct (H (start (Shared l) n)) as [(k & _ & Hk) _];
      [|done|lia].
    split.
    - exists MAX_WORKERS. split; [apply lookup_singleton_eq|].
      unfold inside. simpl. clear. induction n; simpl; [done|lia].
    - simpl. apply Forall_replicate. done. }
  induction schedule as [|i rest IH]; intros s0 Hinv Hrun; simplify_eq/=;
    [done|].
  destruct (step (Shared l) i s0) as [s1|] eqn:Hstep; [|done].
  eapply IH; [|done]. by eapply shared_invariant_step.
Qed.

End AppFacts.

(** C8 on the code: three requests arrive at [process_photo]; each
    builds a semaphore of its own with [MAX_WORKERS] = 2 permits and
    acquires it at once, so all three are inside the detection together:
    more than [MAX_WORKERS]. No [acquire] of the code ever finds a
    counter of 0. *)
Theorem process_photo_lets_three_in :
  exists s,
    App.run App.PerCall [0; 1; 2; 0; 1; 2]%nat (App.start App.PerCall 3) = Some s /\
    App.requests s = [App.Inside 1; App.Inside 2; App.Inside 3]%positive /\
    App.inside s = 3%nat /\
    (App.MAX_WORKERS < App.inside s)%nat.
Proof.
  eexists. split; [vm_compute; reflexivity|].
  split; [reflexivity|]. split; [reflexivity|]. vm_compute. lia.
Qed.
(** ** The configuration module: proofs *)

(** What a completed import has bound, in terms of [os.environ] before
    it and of the probes. *)
Lemma config_py_spec (host : Host) (environ environ' : gmap string string)
    (m : ConfigModule) :
  config_py host environ = (Ret m, environ') ->
  let force := String.eqb (str_lower (default "false" (environ !! "FORCE_CPU"))) "true" in
  let auto := String.eqb (str_lower (default "true" (environ !! "AUTO_DETECT_GPU"))) "true" in
  let probes := if auto && negb force then detect_gpu_availability host
                else (false, false,
                      {| cuda_devices := None; cuda_device_name := None;
                         cuda_memory := None; onnx_providers := None |}) in
  let cfg := imported m in
  FORCE_CPU cfg = force /\ AUTO_DETECT_GPU m = auto /\
  GPU_AVAILABLE cfg = (probes.1.1 || probes.1.2) && negb force /\
  CUDA_AVAILABLE cfg = probes.1.1 && negb force /\
  ONNX_GPU_AVAILABLE cfg = probes.1.2 && negb force /\
  py_int host (default "0" (environ !! "GPU_DEVICE_ID")) = inr (GPU_DEVICE_ID cfg) /\
  ONNX_PROVIDERS cfg =
    get_onnx_providers host (ONNX_GPU_AVAILABLE cfg) (GPU_DEVICE_ID cfg) /\
  ARCFACE_MODEL_NAME cfg = "buffalo_l" /\
  (GPU_AVAILABLE cfg = false -> environ' = environ).
Proof.
  cbv zeta. unfold config_py, getenv_true, getenv_int, os_getenv,
    os_environ_setdefault. unfold_py. cbn.
  destruct (py_int host (default "0" (environ !! "GPU_DEVICE_ID"))) as [e|id];
    cbn; [done|].
  set (force := String.eqb (str_lower (default "false" (environ !! "FORCE_CPU"))) "true").
  set (auto := String.eqb (str_lower (default "true" (environ !! "AUTO_DETECT_GPU"))) "true").
  destruct (if auto && negb force then detect_gpu_availability host else _)
    as [[has_cuda has_gpu_onnx] gpu_info]; cbn.
  destruct ((has_cuda || has_gpu_onnx) && negb force) eqn:Hgpu; cbn;
    repeat (case_match_goal; cbn; try done);
    intros; simplify_eq; cbn; repeat split; done.
Qed.

Lemma config_py_gpu_available (host : Host) (environ environ' : gmap string string)
    (m : ConfigModule) :
  config_py host environ = (Ret m, environ') ->
  GPU_AVAILABLE (imported m) =
    CUDA_AVAILABLE (imported m) || ONNX_GPU_AVAILABLE (imported m) /\
  (GPU_AVAILABLE (imported m) = true -> FORCE_CPU (imported m) = false).
Proof.
  intros Hrun.
  destruct (config_py_spec _ _ _ _ Hrun)
    as (Hforce & _ & Hgpu & Hcuda & Honnx & _).
  rewrite Hgpu, Hcuda, Honnx, Hforce.
  destruct (String.eqb (str_lower (default "false" (environ !! "FORCE_CPU"))) "true");
    cbn; [by rewrite !andb_false_r|].
  by rewrite !andb_true_r.
Qed.
(** ** Construction: what a built processor looks like *)

(** [_initialize_model] from the fields [__init__] has set: when it
    returns, the model object, the label and the flags fit together,
    and of the heap only the entry "gpu_memory_usage" of the stats dict
    may have changed. *)
Lemma _initialize_model_success (cfg : Config) (env : Env)
    (a : option FaceAnalysis) (di : string) (st : loc) (h : heap) :
  let w0 := {| self_app := a; model_loaded := false; using_gpu := false;
               device_info := di; processing_stats := st; objects := h;
               calls := [] |} in
  let w := (_initialize_model cfg env w0).2 in
  is_Some (h !! st) ->
  (_initialize_model cfg env w0).1 = Ret tt ->
  model_loaded w = true /\ processing_stats w = st /\
  self_app w =
    Some {| fa_name := ARCFACE_MODEL_NAME cfg;
            fa_providers := if using_gpu w then accelerator_providers cfg
                            else cpu_providers;
            fa_prepared := Some (if using_gpu w
                                 then (GPU_DEVICE_ID cfg, (1024, 1024))
                                 else (-1, (640, 640))) |} /\
  device_info w = (if using_gpu w then gpu_device_info cfg
                   else if accelerator_chosen cfg then "CPU (fallback)"
                        else "CPU") /\
  (using_gpu w = true -> accelerator_chosen cfg = true) /\
  (using_gpu w = false ->
     backend_loads cfg env cpu_providers (-1) (640, 640) = true) /\
  (forall l, l <> st -> is_Some (h !! l) -> objects w !! l = h !! l) /\
  (forall k, k <> "gpu_memory_usage" -> stat w k = (d ← h !! st; d !! k)).
Proof.
  cbv zeta. intros Hst.
  unfold _initialize_model, _fallback_to_cpu, choose_device, new_FaceAnalysis,
    prepare, accelerator_chosen, backend_loads, accelerator_providers.
  unfold_py. cbn.
  destruct (import_insightface env) eqn:Himp,
    (FORCE_CPU cfg) eqn:Hforce, (GPU_AVAILABLE cfg) eqn:Hgpu; cbn;
    destruct (FaceAnalysis_new env (ARCFACE_MODEL_NAME cfg) cpu_providers) eqn:Hnc;
    cbn;
    destruct (FaceAnalysis_prepare env cpu_providers (-1) (640, 640)) eqn:Hpc;
    cbn;
    try (destruct (FaceAnalysis_new env (ARCFACE_MODEL_NAME cfg)
                     (map fst (ONNX_PROVIDERS cfg))) eqn:Hna; cbn;
         rewrite ?Hnc, ?Hpc; cbn);
    try (destruct (FaceAnalysis_prepare env (map fst (ONNX_PROVIDERS cfg))
                     (GPU_DEVICE_ID cfg) (1024, 1024)) eqn:Hpa; cbn;
         rewrite ?Hnc, ?Hpc; cbn);
    try match goal with
        | |- context [_log_gpu_memory ?c ?e ?w0] =>
            destruct (_log_gpu_memory_frame c e w0 Hst) as (h1 & -> & Hf1 & Hf2)
        end; cbn;
    intros; simplify_eq; cbn; (repeat split; try done);
    try (intros; by apply Hf1); try (intros; by apply Hf2).
Qed.

Lemma initial_stats_are (w : World) :
  objects w !! processing_stats w = Some initial_stats -> stats_are w 0 0 0.
Proof.
  intros H. unfold stats_are, stat. rewrite H.
  split; [done|]. split; [done|]. by exists (VInt 0).
Qed.

(** When the backend tried first loads, [_initialize_model] returns
    with that backend. *)
Lemma _initialize_model_preferred (cfg : Config) (env : Env)
    (a : option FaceAnalysis) (di : string) (st : loc) (h : heap) :
  let w0 := {| self_app := a; model_loaded := false; using_gpu := false;
               device_info := di; processing_stats := st; objects := h;
               calls := [] |} in
  preferred_loads cfg env = true ->
  (_initialize_model cfg env w0).1 = Ret tt /\
  using_gpu (_initialize_model cfg env w0).2 = accelerator_chosen cfg.
Proof.
  cbv zeta.
  unfold _initialize_model, _fallback_to_cpu, choose_device, new_FaceAnalysis,
    prepare, preferred_loads, accelerator_chosen, backend_loads,
    accelerator_providers.
  unfold_py. cbn.
  destruct (import_insightface env) eqn:Himp,
    (FORCE_CPU cfg) eqn:Hforce, (GPU_AVAILABLE cfg) eqn:Hgpu; cbn;
    try done;
    try (destruct (FaceAnalysis_new env (ARCFACE_MODEL_NAME cfg) cpu_providers)
           eqn:Hnc; cbn; [done|];
         destruct (FaceAnalysis_prepare env cpu_providers (-1) (640, 640))
           eqn:Hpc; cbn; done).
  destruct (FaceAnalysis_new env (ARCFACE_MODEL_NAME cfg)
              (map fst (ONNX_PROVIDERS cfg))) eqn:Hna; cbn; [done|].
  destruct (FaceAnalysis_prepare env (map fst (ONNX_PROVIDERS cfg))
              (GPU_DEVICE_ID cfg) (1024, 1024)) eqn:Hpa; cbn; [done|].
  intros _.
  match goal with
  | |- context [_log_gpu_memory ?c ?e ?w0] =>
      destruct (_log_gpu_memory_returns c e w0) as (h1 & ->)
  end. done.
Qed.

(** The provider names [get_onnx_providers] returns: the accelerators
    that onnxruntime offers, in the order TensorRT, CUDA, DirectML,
    then the CPU. *)
Lemma get_onnx_providers_names (host : Host) (b : bool) (id : Z) :
  exists accelerators,
    map fst (get_onnx_providers host b id) =
      accelerators ++ ["CPUExecutionProvider"] /\
    sublist accelerators ["TensorrtExecutionProvider"; "CUDAExecutionProvider";
                          "DmlExecutionProvider"] /\
    (b = false -> accelerators = []) /\
    (forall available, b = true ->
       ort_get_available_providers host = inr available ->
       ("TensorrtExecutionProvider" ∈ accelerators <->
          "TensorrtExecutionProvider" ∈ available) /\
       ("CUDAExecutionProvider" ∈ accelerators <->
          "CUDAExecutionProvider" ∈ available)).
Proof.
  unfold get_onnx_providers.
  destruct b;
    [|exists []; split; [done|]; split; [repeat constructor|]; split; done].
  destruct (ort_get_available_providers host) as [e|available];
    [exists []; split; [done|]; split; [repeat constructor|]; split; done|].
  exists ((if bool_decide ("TensorrtExecutionProvider" ∈ available)
           then ["TensorrtExecutionProvider"] else [])
          ++ (if bool_decide ("CUDAExecutionProvider" ∈ available)
              then ["CUDAExecutionProvider"] else [])
          ++ (if bool_decide ("DmlExecutionProvider" ∈ available)
              then ["DmlExecutionProvider"] else [])).
  split; [|split; [|split; [done|]]].
  - repeat case_bool_decide; reflexivity.
  - repeat case_bool_decide; cbn; repeat constructor.
  - intros ? _ [= <-].
    repeat case_bool_decide; cbn; split; split; intros Hin; try done;
      try (repeat constructor; fail);
      repeat (apply elem_of_cons in Hin as [Hin|Hin]; [done|]);
      by apply elem_of_nil in Hin.
Qed.

(** X1: however the machine answers the probes, the flags an import of
    [config.py] binds fit together: [GPU_AVAILABLE] is the disjunction
    of the other two, it is set only with [FORCE_CPU] false and
    [AUTO_DETECT_GPU] true, so [_initialize_model] chooses the
    accelerator exactly when it is set; and with [FORCE_CPU] set or
    [AUTO_DETECT_GPU] cleared all three flags are false, the provider
    list is the CPU provider alone and [os.environ] is left as it was. *)
Theorem config_py_force_cpu_overrides (host : Host)
    (environ : gmap string string) (m : ConfigModule) :
  (config_py host environ).1 = Ret m ->
  let cfg := imported m in
  GPU_AVAILABLE cfg = CUDA_AVAILABLE cfg || ONNX_GPU_AVAILABLE cfg /\
  accelerator_chosen cfg = GPU_AVAILABLE cfg /\
  (GPU_AVAILABLE cfg = true -> FORCE_CPU cfg = false /\ AUTO_DETECT_GPU m = true) /\
  (FORCE_CPU cfg = true \/ AUTO_DETECT_GPU m = false ->
     GPU_AVAILABLE cfg = false /\ CUDA_AVAILABLE cfg = false /\
     ONNX_GPU_AVAILABLE cfg = false /\
     map fst (ONNX_PROVIDERS cfg) = ["CPUExecutionProvider"] /\
     (config_py host environ).2 = environ).
Proof.
  destruct (config_py host environ) as [r environ'] eqn:Hrun.
  intros Hr. cbn in Hr. subst r. cbv zeta. cbn [snd].
  destruct (config_py_spec _ _ _ _ Hrun)
    as (Hforce & Hauto & Hgpu & Hcuda & Honnx & _ & Hprov & _ & Henv).
  unfold accelerator_chosen.
  rewrite Hprov. clear Hprov. revert Henv.
  rewrite Hgpu, Hcuda, Honnx, Hforce, Hauto.
  destruct (String.eqb (str_lower (default "false" (environ !! "FORCE_CPU"))) "true"),
    (String.eqb (str_lower (default "true" (environ !! "AUTO_DETECT_GPU"))) "true");
    cbn; try (destruct (detect_gpu_availability host) as [[[] []] ?]; cbn);
    intros Henv;
    repeat match goal with
           | |- _ /\ _ => split
           | |- _ -> _ => intros ?
           | H : _ \/ _ |- _ => destruct H
           end; try done; by apply Henv.
Qed.

Lemma config_py_force_cpu_overrides_witness :
  (config_py host_cuda {[ "FORCE_CPU" := "True" ]}).1 = Ret module_forced /\
  FORCE_CPU (imported module_forced) = true /\
  GPU_AVAILABLE (imported module_forced) = false /\
  map fst (ONNX_PROVIDERS (imported module_forced)) = ["CPUExecutionProvider"] /\
  (config_py host_cuda {[ "FORCE_CPU" := "True" ]}).2 = {[ "FORCE_CPU" := "True" ]}.
Proof.
  assert (Hrun : (config_py host_cuda {[ "FORCE_CPU" := "True" ]}).1
                 = Ret module_forced) by (vm_compute; reflexivity).
  destruct (config_py_force_cpu_overrides _ _ _ Hrun) as (_ & _ & _ & Hcpu).
  destruct (Hcpu (or_introl eq_refl)) as (H1 & _ & _ & H2 & H3).
  split; [exact Hrun|]. split; [reflexivity|]. split; [exact H1|].
  split; [exact H2|exact H3].
Defined.



(** X3: the import of [config.py] raises only what [int] raises on one
    of the numeric settings, and has not touched [os.environ] by then;
    no answer of the torch and onnxruntime probes makes it raise. *)
Theorem config_py_raises_only_from_int (host : Host)
    (environ : gmap string string) (e : exn) :
  (config_py host environ).1 = Raise e ->
  (config_py host environ).2 = environ /\
  exists k d, py_int host (default d (environ !! k)) = inl e /\
              k ∈ ["GPU_DEVICE_ID"; "GPU_BATCH_SIZE"; "CPU_BATCH_SIZE";
                   "GPU_MAX_IMAGE_SIZE"; "CPU_MAX_IMAGE_SIZE"; "MIN_FACE_SIZE";
                   "MAX_IMAGES_TO_PROCESS"; "MAX_WORKERS"].
Proof.
  unfold config_py, getenv_true, getenv_int, os_getenv, os_environ_setdefault.
  unfold_py. cbn.
  assert (Hin : forall k d e0,
            k ∈ ["GPU_DEVICE_ID"; "GPU_BATCH_SIZE"; "CPU_BATCH_SIZE";
                 "GPU_MAX_IMAGE_SIZE"; "CPU_MAX_IMAGE_SIZE"; "MIN_FACE_SIZE";
                 "MAX_IMAGES_TO_PROCESS"; "MAX_WORKERS"] ->
            py_int host (default d (environ !! k)) = inl e0 ->
            (Raise e0 : outcome ConfigModule) = Raise e ->
            environ = environ /\
            exists k d, py_int host (default d (environ !! k)) = inl e /\
              k ∈ ["GPU_DEVICE_ID"; "GPU_BATCH_SIZE"; "CPU_BATCH_SIZE";
                   "GPU_MAX_IMAGE_SIZE"; "CPU_MAX_IMAGE_SIZE"; "MIN_FACE_SIZE";
                   "MAX_IMAGES_TO_PROCESS"; "MAX_WORKERS"]).
  { intros k d e0 Hk Hint [= <-]. split; [done|]. by exists k, d. }
  destruct (py_int host (default "0" (environ !! "GPU_DEVICE_ID"))) as [e0|id]
    eqn:H0; cbn; [apply (Hin "GPU_DEVICE_ID" _ _ ltac:(repeat constructor) H0)|].
  destruct (if _ && negb _ then detect_gpu_availability host else _)
    as [[has_cuda has_gpu_onnx] gpu_info]; cbn.
  destruct ((has_cuda || has_gpu_onnx) && negb _) eqn:Hgpu; cbn.
  all: repeat match goal with
       | |- context [py_int ?h (default ?d (?env !! ?k))] =>
           let H := fresh "H" in
           destruct (py_int h (default d (env !! k))) as [?|?] eqn:H; cbn;
             [apply (Hin k d _ ltac:(repeat constructor) H)|]
       end.
  all: done.
Qed.

Lemma config_py_raises_only_from_int_witness :
  (config_py host_cuda {[ "MAX_WORKERS" := "many" ]}).1
    = Raise (ValueError "invalid literal for int() with base 10: many") /\
  (config_py host_cuda {[ "MAX_WORKERS" := "many" ]}).2
    = {[ "MAX_WORKERS" := "many" ]}.
Proof.
  assert (Hrun : (config_py host_cuda {[ "MAX_WORKERS" := "many" ]}).1
                 = Raise (ValueError "invalid literal for int() with base 10: many"))
    by (vm_compute; reflexivity).
  split; [exact Hrun|].
  exact (proj1 (config_py_raises_only_from_int _ _ _ Hrun)).
Defined.

(** X4: a constructor that returns leaves a consistent processor. The
    model is loaded and prepared: on the accelerator with the configured
    providers, the configured device and detection size 1024x1024, on
    the CPU with the CPU provider, context -1 and 640x640. The label is
    the accelerator's, "CPU", or "CPU (fallback)" after a failed
    accelerator load; the three counters are 0; and every object that
    existed before is as it was. *)
Theorem init_builds_consistent_session (cfg : Config) (env : Env) (h : heap) :
  (__init__ cfg env h).1 = Ret tt ->
  let w := (__init__ cfg env h).2 in
  model_loaded w = true /\
  self_app w =
    Some {| fa_name := ARCFACE_MODEL_NAME cfg;
            fa_providers := if using_gpu w then map fst (ONNX_PROVIDERS cfg)
                            else ["CPUExecutionProvider"];
            fa_prepared := Some (if using_gpu w
                                 then (GPU_DEVICE_ID cfg, (1024, 1024))
                                 else (-1, (640, 640))) |} /\
  device_info w = (if using_gpu w then gpu_device_info cfg
                   else if accelerator_chosen cfg then "CPU (fallback)"
                        else "CPU") /\
  (using_gpu w = true -> FORCE_CPU cfg = false /\ GPU_AVAILABLE cfg = true) /\
  stats_are w 0 0 0 /\
  (forall l, is_Some (h !! l) -> objects w !! l = h !! l).
Proof.
  intros Hret. cbv zeta.
  assert (Hfresh : forall l, is_Some (h !! l) -> l <> fresh (dom h)).
  { intros l Hl ->. apply (is_fresh (dom h)). by apply elem_of_dom. }
  destruct (_initialize_model_success cfg env None "" (fresh (dom h))
              (<[fresh (dom h) := initial_stats]> h))
    as (Hloaded & Hst & Happ & Hlabel & Hgpu & _ & Hheap & Hstat);
    [by rewrite lookup_insert_eq|exact Hret|].
  fold (__init__ cfg env h) in *.
  split; [done|]. split; [done|]. split; [done|]. split; [|split].
  - intros Hg. specialize (Hgpu Hg). unfold accelerator_chosen in Hgpu.
    by destruct (FORCE_CPU cfg), (GPU_AVAILABLE cfg).
  - unfold stats_are. rewrite !Hstat by done. rewrite lookup_insert_eq.
    split; [done|]. split; [done|]. by exists (VInt 0).
  - intros l Hl. rewrite Hheap.
    + by rewrite lookup_insert_ne by (symmetry; by apply Hfresh).
    + by apply Hfresh.
    + by rewrite lookup_insert_ne by (symmetry; by apply Hfresh).
Qed.

Lemma init_builds_consistent_session_witness :
  (__init__ cfg_gpu env_gpu ∅).1 = Ret tt /\
  using_gpu (__init__ cfg_gpu env_gpu ∅).2 = true /\
  device_info (__init__ cfg_gpu env_gpu ∅).2 = "GPU 0 (CUDA)" /\
  stats_are (__init__ cfg_gpu env_gpu ∅).2 0 0 0.
Proof.
  assert (Hret : (__init__ cfg_gpu env_gpu ∅).1 = Ret tt)
    by (vm_compute; reflexivity).
  destruct (init_builds_consistent_session cfg_gpu env_gpu ∅ Hret)
    as (_ & _ & Hlabel & _ & Hstats & _).
  split; [exact Hret|]. split; [vm_compute; reflexivity|].
  split; [vm_compute; reflexivity|]. exact Hstats.
Defined.

(** X5: on a machine where torch sees a CUDA device and onnxruntime
    offers no CUDA or TensorRT provider, [config.py] sets
    [GPU_AVAILABLE] and leaves the CPU provider alone in the list. The
    constructor then chooses the accelerator: when the load succeeds the
    processor counts as accelerated ([using_gpu], the label "GPU n
    (CUDA)", detection size 1024x1024, context n) while the model object
    was built with the CPU provider only. *)
Theorem cuda_without_onnx_gpu_session (host : Host)
    (environ : gmap string string) (m : ConfigModule) (env : Env) (h : heap) :
  (config_py host environ).1 = Ret m ->
  GPU_AVAILABLE (imported m) = true ->
  ONNX_GPU_AVAILABLE (imported m) = false ->
  backend_loads (imported m) env ["CPUExecutionProvider"]
    (GPU_DEVICE_ID (imported m)) (1024, 1024) = true ->
  let w := (__init__ (imported m) env h).2 in
  (__init__ (imported m) env h).1 = Ret tt /\
  using_gpu w = true /\
  device_info w = "GPU " +:+ pretty (GPU_DEVICE_ID (imported m)) +:+ " (CUDA)" /\
  self_app w =
    Some {| fa_name := "buffalo_l";
            fa_providers := ["CPUExecutionProvider"];
            fa_prepared := Some (GPU_DEVICE_ID (imported m), (1024, 1024)) |}.
Proof.
  destruct (config_py host environ) as [r environ'] eqn:Hrun.
  intros Hr Hgpu Honnx Hloads. cbn in Hr. subst r. cbv zeta.
  destruct (config_py_spec _ _ _ _ Hrun)
    as (Hforce & _ & Hgpu' & Hcuda & Honnx' & _ & Hprov & Hname & _).
  destruct (get_onnx_providers_names host (ONNX_GPU_AVAILABLE (imported m))
              (GPU_DEVICE_ID (imported m)))
    as (accelerators & Hnames & _ & Hoff & _).
  rewrite <- Hprov, (Hoff Honnx) in Hnames. cbn in Hnames.
  destruct (config_py_gpu_available _ _ _ _ Hrun) as [Hor Hnf].
  assert (Hf : FORCE_CPU (imported m) = false) by (by apply Hnf).
  assert (Hc : CUDA_AVAILABLE (imported m) = true)
    by (by rewrite Hgpu, Honnx, orb_false_r in Hor).
  assert (Hacc : accelerator_chosen (imported m) = true)
    by (unfold accelerator_chosen; by rewrite Hf, Hgpu).
  assert (Hpref : preferred_loads (imported m) env = true).
  { unfold preferred_loads, accelerator_providers. by rewrite Hacc, Hnames. }
  destruct (_initialize_model_preferred (imported m) env None "" (fresh (dom h))
              (<[fresh (dom h) := initial_stats]> h) Hpref) as [Hret Hg].
  destruct (_initialize_model_success (imported m) env None "" (fresh (dom h))
              (<[fresh (dom h) := initial_stats]> h))
    as (_ & _ & Happ & Hlabel & _);
    [by rewrite lookup_insert_eq|exact Hret|].
  fold (__init__ (imported m) env h) in *.
  rewrite Hacc in Hg. rewrite Hg in Happ, Hlabel.
  split; [done|]. split; [done|]. split.
  - rewrite Hlabel. unfold gpu_device_info. by rewrite Hc.
  - rewrite Happ. unfold accelerator_providers. by rewrite Hnames, Hname.
Qed.

Lemma cuda_without_onnx_gpu_session_witness :
  (config_py host_torch_only ∅).1 = Ret module_torch_only /\
  using_gpu (__init__ (imported module_torch_only) env_three_faces ∅).2 = true /\
  device_info (__init__ (imported module_torch_only) env_three_faces ∅).2
    = "GPU 0 (CUDA)" /\
  self_app (__init__ (imported module_torch_only) env_three_faces ∅).2 =
    Some {| fa_name := "buffalo_l";
            fa_providers := ["CPUExecutionProvider"];
            fa_prepared := Some (0, (1024, 1024)) |}.
Proof.
  assert (Hrun : (config_py host_torch_only ∅).1 = Ret module_torch_only)
    by (vm_compute; reflexivity).
  destruct (cuda_without_onnx_gpu_session host_torch_only ∅ module_torch_only
              env_three_faces ∅ Hrun eq_refl eq_refl eq_refl)
    as (_ & Hg & Hlabel & Happ).
  split; [exact Hrun|]. split; [exact Hg|]. split; [exact Hlabel|exact Happ].
Defined.

(** ** What detection leaves alone: proofs *)

#[global] Instance only_stats_changed_refl keys :
  Reflexive (only_stats_changed keys).
Proof. intros w. by repeat split. Qed.

#[global] Instance only_stats_changed_trans keys :
  Transitive (only_stats_changed keys).
Proof.
  intros w1 w2 w3 (Hp & Hobj & Hst & Hk) (Hp' & Hobj' & Hst' & Hk').
  assert (Hps : processing_stats w2 = processing_stats w1)
    by (symmetry; apply Hp).
  rewrite Hps in *.
  split; [|split; [|split]].
  - destruct Hp as (?&?&?&?&?&?), Hp' as (?&?&?&?&?&?).
    repeat split; congruence.
  - intros l Hl. rewrite Hobj' by done. by apply Hobj.
  - by rewrite Hst'.
  - intros k Hkk. rewrite Hk' by done. by apply Hk.
Qed.

Section Frame.
Context (keys : list string).

Lemma framed_unchanged st {A} (c : Py World A) :
  (forall w, (c w).2 = w) -> framed keys st c.
Proof. intros H w _. by rewrite H. Qed.

Lemma framed_bind st {A B} (c : Py World A) (k : A -> Py World B) :
  framed keys st c -> (forall a, framed keys st (k a)) -> framed keys st (c ≫= k).
Proof.
  intros Hc Hk w Hw. unfold mbind, Py_bind, bind.
  specialize (Hc w Hw). destruct (c w) as [[a|e] w1]; cbn in *; [|done].
  etrans; [exact Hc|]. apply Hk. rewrite <- Hw. symmetry. apply Hc.
Qed.

Lemma framed_try_except st {A} (c : Py World A) (h : exn -> Py World A) :
  framed keys st c -> (forall e, framed keys st (h e)) -> framed keys st (try_except c h).
Proof.
  intros Hc Hh w Hw. unfold try_except.
  specialize (Hc w Hw). destruct (c w) as [[a|e] w1]; cbn in *; [done|].
  etrans; [exact Hc|]. apply Hh. rewrite <- Hw. symmetry. apply Hc.
Qed.

Lemma framed_dict_get st l k : framed keys st (dict_get l k).
Proof.
  apply framed_unchanged. intros w. unfold dict_get.
  by repeat case_match.
Qed.

Lemma framed_dict_set st k v : k ∈ keys -> framed keys st (dict_set st k v).
Proof.
  intros Hk w <-. unfold dict_set.
  destruct (objects w !! processing_stats w) as [d|] eqn:Hd; cbn; [|done].
  split; [by repeat split|]. cbn. split; [|split].
  - intros l Hl. by rewrite lookup_insert_ne.
  - rewrite lookup_insert_eq, Hd. split; by eexists.
  - intros k' Hk'. unfold stat. cbn. rewrite lookup_insert_eq, Hd. cbn.
    rewrite lookup_insert_ne; [done|]. by intros ->.
Qed.
End Frame.

Lemma framed_lift_sum keys st {A} (r : exn + A) : framed keys st (lift_sum r).
Proof. apply framed_unchanged. by destruct r. Qed.

Lemma framed_update_stats (st : loc) (found : Z) (t : float) :
  framed counters st (update_stats found t).
Proof.
  intros w Hw. unfold update_stats, mbind at 1, Py_bind, bind, gets. cbn.
  rewrite Hw. revert w Hw.
  change (framed counters st
    (v ← dict_get st "total_processed";
     v ← lift_sum (py_iadd_int v 1);
     dict_set st "total_processed" v;;
     v ← dict_get st "total_faces_detected";
     v ← lift_sum (py_iadd_int v found);
     dict_set st "total_faces_detected" v;;
     v ← dict_get st "average_processing_time";
     if py_eq_zero v then
       dict_set st "average_processing_time" (VFloat t)
     else
       v ← dict_get st "average_processing_time";
       x ← lift_sum (py_mul_float v 0.9);
       dict_set st "average_processing_time" (VFloat (x + t * 0.1)))).
  repeat first
    [ apply framed_bind; [|intros ?]
    | apply framed_dict_get
    | apply framed_lift_sum
    | apply framed_dict_set; unfold counters; set_solver
    | match goal with |- framed _ _ (if ?b then _ else _) => destruct b end ].
Qed.

Lemma framed_detect_faces (cfg : Config) (env : Env) (t0 t1 : float)
    (img : image) (st : loc) :
  framed counters st (detect_faces cfg env t0 t1 img).
Proof.
  unfold detect_faces.
  apply framed_bind; [by apply framed_unchanged|]. intros loaded.
  destruct loaded; cbn; [|by apply framed_unchanged].
  apply framed_try_except; [|intros ?; by apply framed_unchanged].
  apply framed_bind;
    [apply framed_unchanged, _optimize_image_for_processing_state|].
  intros optimized. apply framed_bind; [by apply framed_unchanged|].
  intros a. apply framed_bind;
    [destruct a; [apply framed_lift_sum|by apply framed_unchanged]|].
  intros faces.
  apply framed_bind; [apply framed_update_stats|]. intros _.
  apply framed_bind; [by apply framed_unchanged|]. intros gpu.
  apply framed_bind; [|intros _; by apply framed_unchanged].
  destruct (gpu && _); [|by apply framed_unchanged].
  apply framed_unchanged. intros w. by rewrite _cleanup_gpu_memory_run.
Qed.

(** X6: whatever the image, the clock and the model do, and whatever
    state the processor is in, [detect_faces] changes nothing but the
    three counters of the stats dict: the model object, the flags, the
    label, the entry "gpu_memory_usage" and every other object stay as
    they were, and no object is created or lost. *)
Theorem detect_faces_changes_counters_only (cfg : Config) (env : Env)
    (t0 t1 : float) (img : image) (w : World) :
  only_stats_changed
    ["total_processed"; "total_faces_detected"; "average_processing_time"]
    w (detect_faces cfg env t0 t1 img w).2.
Proof. by apply (framed_detect_faces cfg env t0 t1 img (processing_stats w)). Qed.

(** ** Image files and batches: proofs *)

(** One call of [detect_faces] on well-formed statistics counts fully
    or not at all. *)
Lemma detect_faces_step (cfg : Config) (env : Env) (t0 t1 : float) (img : image)
    (w : World) (n m : Z) (avg : float) :
  stats_are w n m avg ->
  (detect_faces cfg env t0 t1 img w =
     (Raise (RuntimeError "Face model not loaded"), w) /\ model_loaded w = false) \/
  (detect_faces cfg env t0 t1 img w = (Ret [], w) /\ model_loaded w = true) \/
  (exists l w',
     detect_faces cfg env t0 t1 img w = (Ret l, w') /\ model_loaded w = true /\
     same_processor w w' /\
     stats_are w' (n + 1) (m + Z.of_nat (length l)) (smoothed avg (t1 - t0))).
Proof.
  intros Hstats.
  destruct (model_loaded w) eqn:Hloaded;
    [right|left; split; [by apply detect_faces_not_loaded|done]].
  destruct (_optimize_image_for_processing env img w) as [[o|e] w1] eqn:Ho.
  2: { left. split; [|done].
       eapply detect_faces_normalise_raises; [done|]. by rewrite Ho. }
  destruct (self_app w) as [fa|] eqn:Hfa.
  - destruct (FaceAnalysis_get env fa o) as [e|faces] eqn:Hget.
    + left. split; [|done]. eapply (detect_faces_model_raises _ _ _ _ _ _ e);
        [done|]. exists fa, o. by rewrite Ho.
    + right.
      destruct (detect_faces_model_returns cfg env t0 t1 img w faces n m avg)
        as (w' & Hrun & Hsame & Hst & _); [done| |done|].
      { exists fa, o. by rewrite Ho. }
      by exists (valid_faces cfg faces), w'.
  - left. split; [|done].
    pose proof (_optimize_image_for_processing_state env img w) as Hst.
    unfold detect_faces. unfold_py. rewrite Hloaded. cbn.
    rewrite Ho in *. cbn in *. subst w1. by rewrite Hfa.
Qed.

Section FilesFacts.
Variable cfg : Config.
Variable env : Env.
Variable io : Cv2IO.

Lemma process_image_file_returns (t0 t1 : float) (image_path : string) (w : World) :
  exists l w', process_image_file cfg env io t0 t1 image_path w = (Ret l, w').
Proof.
  unfold process_image_file, try_except.
  match goal with
  | |- exists l w', (let (o, s') := ?c in _) = _ => destruct c as [[l|e] w']
  end; by eexists _, _.
Qed.

Lemma framed_process_image_file (t0 t1 : float) (image_path : string) (st : loc) :
  framed counters st (process_image_file cfg env io t0 t1 image_path).
Proof.
  unfold process_image_file.
  apply framed_try_except; [|intros ?; by apply framed_unchanged].
  apply framed_bind; [apply framed_lift_sum|]. intros [bgr|];
    [|by apply framed_unchanged].
  apply framed_bind; [apply framed_lift_sum|]. intros rgb.
  apply framed_bind; [apply framed_detect_faces|]. intros faces.
  by apply framed_unchanged.
Qed.

(** [process_image_file] when the file is no image, when the model is
    not loaded, and in general on well-formed statistics. *)
Lemma process_image_file_unreadable (t0 t1 : float) (image_path : string) (w : World) :
  cv2_imread io image_path = inr None \/ model_loaded w = false ->
  process_image_file cfg env io t0 t1 image_path w = (Ret [], w).
Proof.
  intros H. unfold process_image_file. unfold_py.
  destruct (cv2_imread io image_path) as [e|[bgr|]]; cbn; try done.
  destruct H as [H|H]; [done|].
  destruct (cv2_cvtColor io bgr) as [e|rgb]; cbn; [done|].
  by rewrite (detect_faces_not_loaded cfg env t0 t1 rgb w H).
Qed.

Lemma process_image_file_step (t0 t1 : float) (image_path : string) (w : World)
    (n m : Z) (avg : float) :
  stats_are w n m avg ->
  process_image_file cfg env io t0 t1 image_path w = (Ret [], w) \/
  (exists l w',
     process_image_file cfg env io t0 t1 image_path w = (Ret l, w') /\
     same_processor w w' /\
     stats_are w' (n + 1) (m + Z.of_nat (length l)) (smoothed avg (t1 - t0))).
Proof.
  intros Hstats. unfold process_image_file. unfold_py.
  destruct (cv2_imread io image_path) as [e|[bgr|]]; cbn; [by left| |by left].
  destruct (cv2_cvtColor io bgr) as [e|rgb]; cbn; [by left|].
  destruct (detect_faces_step cfg env t0 t1 rgb w n m avg Hstats)
    as [[-> _]|[[-> _]|(l & w' & -> & _ & Hsame & Hst)]]; cbn;
    [by left|by left|].
  right. by exists l, w'.
Qed.
End FilesFacts.

Lemma total_faces_insert (results : gmap string (list FaceInfo)) (p : string)
    (l : list FaceInfo) :
  results !! p = None ->
  total_faces (<[p := l]> results) = total_faces results + Z.of_nat (length l).
Proof.
  intros Hp. unfold total_faces.
  rewrite map_fold_insert_L; [done| |done].
  intros. lia.
Qed.

Section BatchFacts.
Variable cfg : Config.
Variable env : Env.
Variable io : Cv2IO.

(** The loop returns a dict with an entry for every path, and changes
    the counters only. *)
Lemma process_batch_loop_keys (clock : nat -> float * float)
    (image_paths : list string) :
  forall (i : nat) (results : gmap string (list FaceInfo)) (w : World),
  exists results' w',
    process_batch_loop cfg env io clock i image_paths results w
      = (Ret results', w') /\
    dom results' = dom results ∪ list_to_set image_paths /\
    only_stats_changed counters w w' /\
    (forall p, cv2_imread io p = inr None \/ model_loaded w = false ->
               p ∈ image_paths -> results' !! p = Some []) /\
    (forall p, p ∉ image_paths -> results' !! p = results !! p).
Proof.
  induction image_paths as [|p rest IH]; intros i results w; simpl.
  - exists results, w. split; [done|]. split; [set_solver|].
    split; [done|]. split; [|done]. intros p _ Hp. by apply elem_of_nil in Hp.
  - unfold mbind, Py_bind, bind.
    destruct (process_image_file_returns cfg env io (clock i).1 (clock i).2 p w)
      as (l & w1 & Hrun).
    pose proof (framed_process_image_file cfg env io (clock i).1 (clock i).2 p
                  (processing_stats w) w eq_refl) as Hframe.
    rewrite Hrun in *. cbn in Hframe.
    destruct (IH (S i) (<[p := l]> results) w1)
      as (results' & w' & Hloop & Hdom & Hframe' & Hempty & Hother).
    exists results', w'. split; [done|]. split; [|split; [|split]].
    + rewrite Hdom, dom_insert_L. set_solver.
    + by etrans.
    + intros q Hq Hin.
      assert (Hq1 : cv2_imread io q = inr None \/ model_loaded w1 = false).
      { destruct Hq as [Hq|Hq]; [by left|right].
        destruct Hframe as [(_ & Hml & _) _]. by rewrite <- Hml. }
      destruct (decide (q ∈ rest)) as [Hrest|Hrest]; [by apply Hempty|].
      apply elem_of_cons in Hin as [->|Hin]; [|done].
      rewrite Hother by done. rewrite lookup_insert_eq.
      rewrite (process_image_file_unreadable _ _ _ _ _ _ _ Hq) in Hrun.
      by injection Hrun as <- _.
    + intros q Hq. apply not_elem_of_cons in Hq as [Hne Hq].
      rewrite Hother by done. by rewrite lookup_insert_ne.
Qed.

(** On well-formed statistics the counter of faces grows by the number
    of records the loop stores, as long as no path comes twice. *)
Lemma process_batch_loop_counts (clock : nat -> float * float)
    (image_paths : list string) :
  forall (i : nat) (results : gmap string (list FaceInfo)) (w : World)
         (n m : Z) (avg : float),
  stats_are w n m avg ->
  NoDup image_paths ->
  (forall p, p ∈ image_paths -> results !! p = None) ->
  exists results' w' n' avg',
    process_batch_loop cfg env io clock i image_paths results w
      = (Ret results', w') /\
    stats_are w' n' (m + (total_faces results' - total_faces results)) avg' /\
    n <= n' <= n + Z.of_nat (length image_paths).
Proof.
  induction image_paths as [|p rest IH];
    intros i results w n m avg Hstats Hnodup Hfresh; simpl.
  - exists results, w, n, avg. split; [done|].
    replace (m + (total_faces results - total_faces results)) with m by lia.
    split; [done|lia].
  - apply NoDup_cons in Hnodup as [Hp Hnodup].
    assert (Hnone : results !! p = None) by (apply Hfresh; by left).
    assert (Hfresh' : forall l q, q ∈ rest -> <[p := l]> results !! q = None).
    { intros l q Hq. rewrite lookup_insert_ne by (by intros ->).
      apply Hfresh. by right. }
    unfold mbind, Py_bind, bind.
    destruct (process_image_file_step cfg env io (clock i).1 (clock i).2 p w
                n m avg Hstats) as [Hrun|(l & w1 & Hrun & _ & Hstats1)];
      rewrite Hrun.
    + destruct (IH (S i) (<[p := []]> results) w n m avg Hstats Hnodup
                  (Hfresh' [])) as (results' & w' & n' & avg' & Hloop & Hst & Hn).
      exists results', w', n', avg'. split; [done|].
      rewrite total_faces_insert in Hst by done. cbn [length] in Hst.
      change (Z.of_nat 0) with 0 in Hst. rewrite Z.add_0_r in Hst.
      split; [done|lia].
    + destruct (IH (S i) (<[p := l]> results) w1 (n + 1)
                  (m + Z.of_nat (length l)) _ Hstats1 Hnodup (Hfresh' l))
        as (results' & w' & n' & avg' & Hloop & Hst & Hn).
      exists results', w', n', avg'. split; [done|].
      rewrite total_faces_insert in Hst by done.
      replace (m + Z.of_nat (length l) +
               (total_faces results' - (total_faces results + Z.of_nat (length l))))
        with (m + (total_faces results' - total_faces results)) in Hst by lia.
      split; [done|lia].
Qed.
End BatchFacts.

(** X7: [process_image_file] never raises, in whatever state the
    processor is: it returns a list and changes at most the three
    counters of the stats dict. For a file that [cv2.imread] cannot
    read, and on a processor whose model is not loaded, it returns the
    empty list and changes nothing: the "Face model not loaded" error of
    [detect_faces] does not reach the caller. *)
Theorem process_image_file_never_raises (cfg : Config) (env : Env) (io : Cv2IO)
    (t0 t1 : float) (image_path : string) (w : World) :
  exists l w',
    process_image_file cfg env io t0 t1 image_path w = (Ret l, w') /\
    only_stats_changed
      ["total_processed"; "total_faces_detected"; "average_processing_time"]
      w w' /\
    (cv2_imread io image_path = inr None \/ model_loaded w = false ->
       l = [] /\ w' = w).
Proof.
  destruct (process_image_file_returns cfg env io t0 t1 image_path w)
    as (l & w' & Hrun).
  exists l, w'. split; [done|]. split.
  - pose proof (framed_process_image_file cfg env io t0 t1 image_path
                  (processing_stats w) w eq_refl) as Hframe.
    by rewrite Hrun in Hframe.
  - intros H. rewrite (process_image_file_unreadable _ _ _ _ _ _ _ H) in Hrun.
    by injection Hrun as <- <-.
Qed.

(** X8: on a CPU processor, or with parallel processing disabled,
    [process_batch] never raises: it returns a dict whose keys are
    exactly the given paths, and changes at most the three counters of
    the stats dict. A path that [cv2.imread] cannot read is mapped to
    the empty list, as is every path when the model is not loaded. *)
Theorem process_batch_sequential_keys (cfg : Config) (env : Env) (io : Cv2IO)
    (clock : nat -> float * float) (image_paths : list string) (w : World) :
  ENABLE_PARALLEL_PROCESSING cfg = false \/ using_gpu w = false ->
  exists results w',
    process_batch cfg env io clock image_paths w = Completed (Ret results, w') /\
    dom results = list_to_set image_paths /\
    only_stats_changed
      ["total_processed"; "total_faces_detected"; "average_processing_time"]
      w w' /\
    (forall p, cv2_imread io p = inr None \/ model_loaded w = false ->
               p ∈ image_paths -> results !! p = Some []).
Proof.
  intros Hseq. unfold process_batch.
  assert (negb (ENABLE_PARALLEL_PROCESSING cfg) || negb (using_gpu w) = true)
    as -> by (destruct Hseq as [-> | ->]; [done|apply orb_true_r]).
  destruct (process_batch_loop_keys cfg env io clock image_paths 0%nat ∅ w)
    as (results & w' & Hrun & Hdom & Hframe & Hempty & _).
  exists results, w'. rewrite Hrun. split; [done|].
  split; [rewrite Hdom; set_solver|]. split; done.
Qed.

Lemma process_batch_sequential_keys_witness :
  exists results w',
    process_batch cfg_cpu env_three_faces io_missing (fun _ => (0, 0.2)%float)
      ["a.jpg"; "b.jpg"] (processor cfg_cpu env_three_faces)
      = Completed (Ret results, w') /\
    dom results = list_to_set ["a.jpg"; "b.jpg"] /\
    results !! "a.jpg" = Some [].
Proof.
  destruct (process_batch_sequential_keys cfg_cpu env_three_faces io_missing
              (fun _ => (0, 0.2)%float) ["a.jpg"; "b.jpg"]
              (processor cfg_cpu env_three_faces) (or_intror eq_refl))
    as (results & w' & Hrun & Hdom & _ & Hempty).
  exists results, w'. split; [exact Hrun|]. split; [exact Hdom|].
  apply Hempty; [left; reflexivity|]. apply elem_of_cons. left. reflexivity.
Defined.

(** X9: on well-formed statistics, a sequential [process_batch] over
    paths that are all different raises the counter
    "total_faces_detected" by exactly the number of face records in the
    dict it returns, and "total_processed" by at most the number of
    paths. *)
Theorem process_batch_counts_faces (cfg : Config) (env : Env) (io : Cv2IO)
    (clock : nat -> float * float) (image_paths : list string) (w : World)
    (n m : Z) (avg : float) :
  ENABLE_PARALLEL_PROCESSING cfg = false \/ using_gpu w = false ->
  stats_are w n m avg ->
  NoDup image_paths ->
  exists results w' n' avg',
    process_batch cfg env io clock image_paths w = Completed (Ret results, w') /\
    stats_are w' n' (m + total_faces results) avg' /\
    n <= n' <= n + Z.of_nat (length image_paths).
Proof.
  intros Hseq Hstats Hnodup. unfold process_batch.
  assert (negb (ENABLE_PARALLEL_PROCESSING cfg) || negb (using_gpu w) = true)
    as -> by (destruct Hseq as [-> | ->]; [done|apply orb_true_r]).
  destruct (process_batch_loop_counts cfg env io clock image_paths 0%nat ∅ w
              n m avg Hstats Hnodup)
    as (results & w' & n' & avg' & Hrun & Hst & Hn); [done|].
  exists results, w', n', avg'. rewrite Hrun. split; [done|].
  split; [|done].
  replace (total_faces ∅) with 0 in Hst by reflexivity.
  by rewrite Z.sub_0_r in Hst.
Qed.

Lemma process_batch_counts_faces_witness :
  exists results w' n' avg',
    process_batch cfg_cpu env_three_faces io_photos (fun _ => (0, 0.2)%float)
      ["a.jpg"; "b.jpg"] (processor cfg_cpu env_three_faces)
      = Completed (Ret results, w') /\
    stats_are w' n' (0 + total_faces results) avg' /\
    0 <= n' <= 0 + Z.of_nat (length ["a.jpg"; "b.jpg"]).
Proof.
  apply (process_batch_counts_faces cfg_cpu env_three_faces io_photos
           (fun _ => (0, 0.2)%float) ["a.jpg"; "b.jpg"]
           (processor cfg_cpu env_three_faces) 0 0 0 (or_intror eq_refl)).
  - vm_compute. split; [reflexivity|]. split; [reflexivity|].
    exists (VInt 0). split; reflexivity.
  - apply NoDup_cons. split; [|apply NoDup_cons; split; [|apply NoDup_nil_2]].
    + intros H. apply list_elem_of_singleton in H. discriminate.
    + intros H. apply elem_of_nil in H. exact H.
Defined.

(** X10: the empty batch. On a CPU processor, or with parallel
    processing disabled, [process_batch([])] returns the empty dict and
    changes nothing. On an accelerated processor with parallel
    processing enabled it raises [ValueError]: the pool is built with
    [min(MAX_WORKERS, 0)] workers. With at least one path and a positive
    [MAX_WORKERS] the pool has between 1 and [MAX_WORKERS] workers and
    never more than there are paths. *)
Theorem process_batch_empty_input (cfg : Config) (env : Env) (io : Cv2IO)
    (clock : nat -> float * float) (image_paths : list string) (w : World) :
  (ENABLE_PARALLEL_PROCESSING cfg = false \/ using_gpu w = false ->
   process_batch cfg env io clock [] w = Completed (Ret ∅, w)) /\
  (ENABLE_PARALLEL_PROCESSING cfg = true -> using_gpu w = true ->
   process_batch cfg env io clock [] w =
     Completed (Raise (ValueError "max_workers must be greater than 0"), w) /\
   (image_paths <> [] -> 0 < MAX_WORKERS cfg ->
    exists max_workers,
      process_batch cfg env io clock image_paths w = InThreads max_workers /\
      1 <= max_workers <= MAX_WORKERS cfg /\
      max_workers <= Z.of_nat (length image_paths))).
Proof.
  unfold process_batch. split.
  - intros [-> | ->]; [done|]. by rewrite orb_true_r.
  - intros -> ->. cbn [negb orb]. split.
    + change (Z.of_nat (length (@nil string))) with 0.
      destruct (Z.leb_spec (Z.min (MAX_WORKERS cfg) 0) 0) as [_|Hgt]; [done|lia].
    + intros Hne Hpos.
      exists (Z.min (MAX_WORKERS cfg) (Z.of_nat (length image_paths))).
      assert (0 < Z.of_nat (length image_paths))
        by (destruct image_paths; [done|]; simpl length; lia).
      destruct (Z.leb_spec (Z.min (MAX_WORKERS cfg) (Z.of_nat (length image_paths))) 0)
        as [Hle|Hgt]; [lia|].
      split; [done|lia].
Qed.

(** ** Reports, snapshots and the service: proofs *)

(** X11: [get_model_info] hands out the stats dict of the processor
    itself. A report taken before a detection is the report taken after
    it, and the counters read through its entry 'processing_stats' are
    those after the detection. *)
Theorem get_model_info_shares_stats (m : ConfigModule) (env : Env)
    (t0 t1 : float) (img : image) (w : World) (faces : list RawFace)
    (n k : Z) (avg : float) :
  model_loaded w = true ->
  model_answer env w img (inr faces) ->
  stats_are w n k avg ->
  let info := get_model_info m w in
  let w' := (detect_faces (imported m) env t0 t1 img w).2 in
  info_processing_stats info = processing_stats w /\
  get_model_info m w' = info /\
  (d ← objects w !! info_processing_stats info; d !! "total_processed")
    = Some (VInt n) /\
  (d ← objects w' !! info_processing_stats info; d !! "total_processed")
    = Some (VInt (n + 1)).
Proof.
  intros Hloaded Hans Hstats. cbv zeta.
  destruct (detect_faces_model_returns (imported m) env t0 t1 img w faces n k avg
              Hloaded Hans Hstats) as (w' & -> & Hsame & Hstats' & _).
  cbn [snd]. destruct Hsame as (Happ & Hml & Hgpu & Hdi & Hps & Hcalls).
  split; [done|]. split.
  - unfold get_model_info. by rewrite <- Hml, <- Hgpu, <- Hdi, <- Hps.
  - split; [apply Hstats|]. cbn [get_model_info info_processing_stats].
    rewrite Hps. apply Hstats'.
Qed.

Lemma get_model_info_shares_stats_witness :
  let w := processor cfg_cpu env_three_faces in
  let info := get_model_info module_plain w in
  let w' := (detect_faces cfg_cpu env_three_faces 0 0.2 photo w).2 in
  get_model_info module_plain w' = info /\
  (d ← objects w !! info_processing_stats info; d !! "total_processed")
    = Some (VInt 0) /\
  (d ← objects w' !! info_processing_stats info; d !! "total_processed")
    = Some (VInt (0 + 1)).
Proof.
  cbv zeta.
  assert (H1 : model_loaded (processor cfg_cpu env_three_faces) = true)
    by reflexivity.
  assert (H2 : model_answer env_three_faces (processor cfg_cpu env_three_faces)
                 photo (inr three_faces)).
  { eexists _, _. split; [reflexivity|]. split; vm_compute; reflexivity. }
  assert (H3 : stats_are (processor cfg_cpu env_three_faces) 0 0 0).
  { vm_compute. split; [reflexivity|]. split; [reflexivity|].
    exists (VInt 0). split; reflexivity. }
  destruct (get_model_info_shares_stats module_plain env_three_faces 0 0.2 photo
              (processor cfg_cpu env_three_faces) three_faces 0 0 0 H1 H2 H3)
    as (_ & Hinfo & Hbefore & Hafter).
  split; [exact Hinfo|]. split; [exact Hbefore|exact Hafter].
Defined.



(** The two tests on [photo_path] exclude each other: a string of 24
    hexadecimal digits does not start with "http". *)
Lemma is_gridfs_id_not_http (photo_path : string) :
  is_gridfs_id photo_path = true -> String.prefix "http" photo_path = false.
Proof.
  unfold is_gridfs_id. intros H. apply andb_true_iff in H as [_ Hhex].
  destruct photo_path as [|c rest]; [done|].
  cbn [str_lower String.list_ascii_of_string forallb] in Hhex.
  apply andb_true_iff in Hhex as [Hh _].
  destruct c as [[] [] [] [] [] [] [] []];
    try (vm_compute in Hh; discriminate); reflexivity.
Qed.

(** X14: the way [process_photo] reads a reference does not depend on
    the order of its tests: no string is both a Cloudinary URL and a
    GridFS id. A GridFS id is a string of exactly 24 characters that are
    hexadecimal digits in either case. *)
Theorem photo_reference_kinds_exclusive (photo_path : string) :
  (is_gridfs_id photo_path = true -> is_cloudinary_url photo_path = false) /\
  (is_cloudinary_url photo_path = true -> is_gridfs_id photo_path = false) /\
  (is_gridfs_id photo_path = true <->
     String.length photo_path = 24%nat /\
     Forall (fun c => is_hex_digit (ascii_lower c) = true)
       (String.list_ascii_of_string photo_path)).
Proof.
  split; [|split].
  - intros H. unfold is_cloudinary_url.
    by rewrite (is_gridfs_id_not_http _ H).
  - intros H. destruct (is_gridfs_id photo_path) eqn:Hg; [|done].
    unfold is_cloudinary_url in H. by rewrite (is_gridfs_id_not_http _ Hg) in H.
  - unfold is_gridfs_id. rewrite andb_true_iff, Nat.eqb_eq, forallb_forall.
    rewrite Forall_forall.
    assert (Hlower : forall s c,
              In c (String.list_ascii_of_string (str_lower s)) <->
              exists c0, c = ascii_lower c0 /\
                         c0 ∈ String.list_ascii_of_string s).
    { induction s as [|a s IH]; intros c; simpl.
      - split; [done|]. intros (c0 & _ & H). by apply elem_of_nil in H.
      - rewrite IH. split.
        + intros [<-|(c0 & -> & Hc0)];
            [exists a; split; [done|by left]|exists c0; split; [done|by right]].
        + intros (c0 & -> & Hc0). apply elem_of_cons in Hc0 as [->|Hc0];
            [by left|right; by exists c0]. }
    split; intros [Hlen Hall]; (split; [done|]).
    + intros c Hc. apply Hall, Hlower. by exists c.
    + intros c Hc. apply Hlower in Hc as (c0 & -> & Hc0). by apply Hall.
Qed.

(** X15: A request that names a local file is never answered with an
    error once the processor exists: [process_photo] answers 200 with a
    list of faces, the empty list when the file cannot be read, keeps
    the stored processor and changes at most its three counters. A
    request without a reference is answered 400 before the processor is
    looked up, so it never builds it. *)
Theorem process_photo_local_file_never_fails (m : ConfigModule) (env : Env)
    (io : Cv2IO) (net : Net) (t0 t1 : float) (data : PhotoRequest) :
  (forall s,
     py_or (file_reference data) (photoPath data) = None \/
     py_or (file_reference data) (photoPath data) = Some "" ->
     process_photo m env io net t0 t1 data s =
       (Responds (Photo400 "file_reference or photoPath is required"), s)) /\
  (forall photo_path w,
     py_or (file_reference data) (photoPath data) = Some photo_path ->
     photo_path <> "" ->
     is_cloudinary_url photo_path = false ->
     is_gridfs_id photo_path = false ->
     exists faces w',
       process_photo m env io net t0 t1 data (Created w)
         = (Responds (Faces200 faces), Created w') /\
       only_stats_changed
         ["total_processed"; "total_faces_detected"; "average_processing_time"]
         w w' /\
       (cv2_imread io photo_path = inr None -> faces = [] /\ w' = w)).
Proof.
  unfold process_photo. split.
  - by intros s [-> | ->].
  - intros photo_path w -> Hne Hcl Hgr.
    apply String.eqb_neq in Hne. rewrite Hne, Hcl, Hgr.
    cbn [get_face_processor]. unfold mbind, Py_bind, bind.
    destruct (process_image_file_returns (imported m) env io t0 t1 photo_path w)
      as (l & w' & Hrun).
    pose proof (framed_process_image_file (imported m) env io t0 t1 photo_path
                  (processing_stats w) w eq_refl) as Hframe.
    rewrite Hrun in *. cbn. exists l, w'. split; [done|]. split; [done|].
    intros Hread.
    rewrite (process_image_file_unreadable _ _ _ _ _ _ _ (or_introl Hread))
      in Hrun.
    by injection Hrun as <- <-.
Qed.

Lemma process_photo_local_file_never_fails_witness :
  exists faces w',
    process_photo module_plain env_three_faces io_missing
      {| requests_get := fun _ => inr []; is_RequestException := fun _ => false |}
      0 0.2 {| file_reference := Some "uploads/a.jpg"; photoPath := None |}
      (Created (processor cfg_cpu env_three_faces))
      = (Responds (Faces200 faces), Created w') /\
    faces = [] /\ w' = processor cfg_cpu env_three_faces.
Proof.
  destruct (process_photo_local_file_never_fails module_plain env_three_faces
              io_missing
              {| requests_get := fun _ => inr []; is_RequestException := fun _ => false |}
              0 0.2 {| file_reference := Some "uploads/a.jpg"; photoPath := None |})
    as [_ Hlocal].
  destruct (Hlocal "uploads/a.jpg" (processor cfg_cpu env_three_faces)
              eq_refl ltac:(discriminate) eq_refl eq_refl)
    as (faces & w' & Hrun & _ & Hempty).
  exists faces, w'. split; [exact Hrun|]. exact (Hempty eq_refl).
Defined.

(** ** Admission as the code has it: proofs *)

Lemma own_semaphores_step (i : nat) (s : App.server) (p : App.pc) :
  own_semaphores s ->
  App.requests s !! i = Some p ->
  p <> App.Finished ->
  exists s' q,
    App.step App.PerCall i s = Some s' /\
    own_semaphores s' /\
    App.requests s' = <[i := q]> (App.requests s) /\
    stage q = S (stage p).
Proof.
  intros [Hown Hapart] Hi Hp. unfold App.step. rewrite Hi.
  assert (Hlen : (i < length (App.requests s))%nat)
    by (by eapply lookup_lt_Some).
  destruct p as [|l|l|]; [| | |done].
  - (* a new semaphore *)
    set (l := fresh (dom (App.semaphores s))).
    assert (Hl : App.semaphores s !! l = None)
      by apply not_elem_of_dom, is_fresh.
    eexists _, (App.Waiting l). split; [done|]. split; [|done].
    split; cbn.
    + intros j q l' Hj Hq. destruct (decide (j = i)) as [->|Hne].
      * rewrite list_lookup_insert_eq in Hj by done. simplify_eq/=.
        by rewrite lookup_insert_eq.
      * rewrite list_lookup_insert_ne in Hj by done.
        pose proof (Hown j q l' Hj Hq) as Hsem.
        rewrite lookup_insert_ne; [done|]. intros <-. congruence.
    + intros j k q r l' Hjk Hj Hk Hq Hr.
      destruct (decide (j = i)) as [->|Hji], (decide (k = i)) as [->|Hki];
        try done.
      * rewrite list_lookup_insert_eq in Hj by done.
        rewrite list_lookup_insert_ne in Hk by done. simplify_eq/=.
        pose proof (Hown k r _ Hk Hr). congruence.
      * rewrite list_lookup_insert_ne in Hj by done.
        rewrite list_lookup_insert_eq in Hk by done. simplify_eq/=.
        pose proof (Hown j q _ Hj Hq). congruence.
      * rewrite list_lookup_insert_ne in Hj, Hk by done.
        by eapply (Hapart j k).
  - (* acquire *)
    rewrite (Hown i _ l Hi eq_refl). cbn.
    eexists _, (App.Inside l). split; [done|]. split; [|done].
    split; cbn.
    + intros j q l' Hj Hq. destruct (decide (j = i)) as [->|Hne].
      * rewrite list_lookup_insert_eq in Hj by done. simplify_eq/=.
        by rewrite lookup_insert_eq.
      * rewrite list_lookup_insert_ne in Hj by done.
        rewrite lookup_insert_ne; [by eapply Hown|].
        intros <-. by eapply (Hapart i j _ q l).
    + intros j k q r l' Hjk Hj Hk Hq Hr.
      destruct (decide (j = i)) as [->|Hji], (decide (k = i)) as [->|Hki];
        try done.
      * rewrite list_lookup_insert_eq in Hj by done.
        rewrite list_lookup_insert_ne in Hk by done. simplify_eq/=.
        by eapply (Hapart i k _ r l').
      * rewrite list_lookup_insert_ne in Hj by done.
        rewrite list_lookup_insert_eq in Hk by done. simplify_eq/=.
        by eapply (Hapart j i q _ l').
      * rewrite list_lookup_insert_ne in Hj, Hk by done.
        by eapply (Hapart j k).
  - (* release *)
    rewrite (Hown i _ l Hi eq_refl). cbn.
    eexists _, App.Finished. split; [done|]. split; [|done].
    split; cbn.
    + intros j q l' Hj Hq. destruct (decide (j = i)) as [->|Hne].
      * rewrite list_lookup_insert_eq in Hj by done. by simplify_eq/=.
      * rewrite list_lookup_insert_ne in Hj by done.
        rewrite lookup_insert_ne; [by eapply Hown|].
        intros <-. by eapply (Hapart i j _ q l).
    + intros j k q r l' Hjk Hj Hk Hq Hr.
      destruct (decide (j = i)) as [->|Hji], (decide (k = i)) as [->|Hki];
        try done.
      * rewrite list_lookup_insert_eq in Hj by done. by simplify_eq/=.
      * rewrite list_lookup_insert_ne in Hj by done.
        rewrite list_lookup_insert_eq in Hk by done. by simplify_eq/=.
      * rewrite list_lookup_insert_ne in Hj, Hk by done.
        by eapply (Hapart j k).
Qed.

(** Under the code's semaphores a schedule runs through as long as it
    moves no request that has finished, and moves each request as many
    stages as it names it. *)
Lemma own_semaphores_run (schedule : list nat) :
  forall s : App.server,
  own_semaphores s ->
  (forall i p, App.requests s !! i = Some p ->
               (stage p + count_occ Nat.eq_dec schedule i <= 3)%nat) ->
  (forall i, i ∈ schedule -> (i < length (App.requests s))%nat) ->
  exists s',
    App.run App.PerCall schedule s = Some s' /\
    own_semaphores s' /\
    length (App.requests s') = length (App.requests s) /\
    (forall i p, App.requests s !! i = Some p ->
       exists q, App.requests s' !! i = Some q /\
                 stage q = (stage p + count_occ Nat.eq_dec schedule i)%nat).
Proof.
  induction schedule as [|i rest IH]; intros s Hinv Hcount Hin; simpl.
  - exists s. split; [done|]. split; [done|]. split; [done|].
    intros i p Hi. exists p. split; [done|lia].
  - destruct (lookup_lt_is_Some_2 (App.requests s) i) as [p Hi];
      [apply Hin; by left|].
    assert (Hp : p <> App.Finished).
    { intros ->. specialize (Hcount i _ Hi). simpl in Hcount.
      destruct (Nat.eq_dec i i); [simpl in Hcount; lia|done]. }
    destruct (own_semaphores_step i s p Hinv Hi Hp)
      as (s1 & q & -> & Hinv1 & Hreqs & Hq).
    assert (Hlen : (i < length (App.requests s))%nat)
      by (by eapply lookup_lt_Some).
    destruct (IH s1 Hinv1) as (s' & Hrun & Hinv' & Hlen' & Hstage).
    + intros j r Hj. rewrite Hreqs in Hj.
      destruct (decide (j = i)) as [->|Hne].
      * rewrite list_lookup_insert_eq in Hj by done. simplify_eq.
        specialize (Hcount i p Hi). simpl in Hcount.
        destruct (Nat.eq_dec i i); [lia|done].
      * rewrite list_lookup_insert_ne in Hj by done.
        specialize (Hcount j r Hj). simpl in Hcount.
        destruct (Nat.eq_dec i j); [by subst|lia].
    + intros j Hj. rewrite Hreqs, length_insert. apply Hin. by right.
    + exists s'. split; [done|]. split; [done|].
      split; [by rewrite Hlen', Hreqs, length_insert|].
      intros j r Hj. destruct (decide (j = i)) as [->|Hne].
      * simplify_eq. destruct (Hstage i q) as (q' & Hq' & Hst).
        { by rewrite Hreqs, list_lookup_insert_eq. }
        exists q'. split; [done|]. rewrite Hst, Hq.
        destruct (Nat.eq_dec i i); [lia|done].
      * destruct (Hstage j r) as (q' & Hq' & Hst).
        { by rewrite Hreqs, list_lookup_insert_ne. }
        exists q'. split; [done|]. rewrite Hst.
        destruct (Nat.eq_dec i j); [by subst|lia].
Qed.

Lemma count_occ_seq (n i : nat) :
  (i < n)%nat -> count_occ Nat.eq_dec (seq 0 n) i = 1%nat.
Proof.
  intros Hi.
  pose proof (proj1 (NoDup_count_occ Nat.eq_dec (seq 0 n)) (seq_NoDup n 0) i).
  assert (In i (seq 0 n)) as Hin by (apply in_seq; lia).
  apply (count_occ_In Nat.eq_dec) in Hin. lia.
Qed.

(** X16: the code's admission never makes a request wait. With each call
    of [process_photo] building its own semaphore, every schedule of [n]
    requests that moves no request past its end runs through, and leaves
    each request as many stages along (semaphore built, acquired,
    released) as the schedule names it: the requests do not see each
    other. In particular all [n] requests, whatever [n], are inside the
    detection together once each has been named twice. *)
Theorem per_call_semaphore_never_blocks (n : nat) (schedule : list nat) :
  (forall i, i ∈ schedule -> (i < n)%nat) ->
  (forall i, (count_occ Nat.eq_dec schedule i <= 3)%nat) ->
  (exists s,
     App.run App.PerCall schedule (App.start App.PerCall n) = Some s /\
     forall i, (i < n)%nat ->
       exists p, App.requests s !! i = Some p /\
                 stage p = count_occ Nat.eq_dec schedule i) /\
  (exists s,
     App.run App.PerCall (seq 0 n ++ seq 0 n) (App.start App.PerCall n) = Some s /\
     App.inside s = n).
Proof.
  assert (Hstart : own_semaphores (App.start App.PerCall n)).
  { split; cbn.
    - intros i p l Hi. apply lookup_replicate in Hi as [-> _]. done.
    - intros i j p q l _ Hi. apply lookup_replicate in Hi as [-> _]. done. }
  assert (Hrun : forall schedule,
    (forall i, i ∈ schedule -> (i < n)%nat) ->
    (forall i, (count_occ Nat.eq_dec schedule i <= 3)%nat) ->
    exists s,
      App.run App.PerCall schedule (App.start App.PerCall n) = Some s /\
      length (App.requests s) = n /\
      forall i, (i < n)%nat ->
        exists p, App.requests s !! i = Some p /\
                  stage p = count_occ Nat.eq_dec schedule i).
  { intros sched Hin Hcount.
    destruct (own_semaphores_run sched (App.start App.PerCall n) Hstart)
      as (s & Hs & _ & Hlen & Hstage).
    - intros i p Hi. apply lookup_replicate in Hi as [-> _]. simpl.
      apply Hcount.
    - intros i Hi. cbn. rewrite length_replicate. by apply Hin.
    - exists s. split; [done|]. cbn in Hlen. rewrite length_replicate in Hlen.
      split; [done|]. intros i Hi.
      destruct (Hstage i App.Entered) as (q & Hq & Hst).
      { cbn. by apply lookup_replicate. }
      by exists q. }
  intros Hin Hcount. split.
  - destruct (Hrun schedule Hin Hcount) as (s & Hs & _ & Hstage).
    by exists s.
  - destruct (Hrun (seq 0 n ++ seq 0 n)) as (s & Hs & Hlen & Hstage).
    + intros i Hi. apply elem_of_app in Hi as [Hi|Hi];
        apply elem_of_seq in Hi; lia.
    + intros i. rewrite count_occ_app.
      destruct (decide (i < n)%nat) as [Hi|Hi].
      * rewrite count_occ_seq by done. lia.
      * rewrite (proj1 (count_occ_not_In Nat.eq_dec (seq 0 n) i)); [lia|].
        rewrite in_seq. lia.
    + exists s. split; [done|]. unfold App.inside.
      rewrite <- Hlen. f_equal.
      assert (Hall : Forall (fun p => App.is_inside p = true) (App.requests s)).
      { apply Forall_forall. intros p Hp.
        apply list_elem_of_lookup in Hp as [i Hi].
        destruct (Hstage i) as (q & Hq & Hst).
        { rewrite <- Hlen. by eapply lookup_lt_Some. }
        rewrite count_occ_app, !count_occ_seq in Hst
          by (rewrite <- Hlen; by eapply lookup_lt_Some).
        simplify_eq. by destruct p. }
      clear -Hall. induction Hall as [|p l Hp _ IH]; simpl; [done|].
      rewrite Hp. simpl. by f_equal.
Qed.

Lemma per_call_semaphore_never_blocks_witness :
  (exists s,
     App.run App.PerCall [0; 1; 0; 2; 0]%nat (App.start App.PerCall 3) = Some s /\
     forall i, (i < 3)%nat ->
       exists p, App.requests s !! i = Some p /\
                 stage p = count_occ Nat.eq_dec [0; 1; 0; 2; 0]%nat i) /\
  (exists s,
     App.run App.PerCall (seq 0 3 ++ seq 0 3) (App.start App.PerCall 3) = Some s /\
     App.inside s = 3%nat).
Proof.
  apply (per_call_semaphore_never_blocks 3 [0; 1; 0; 2; 0]%nat).
  - intros i Hi. repeat (apply elem_of_cons in Hi as [->|Hi]; [lia|]).
    by apply elem_of_nil in Hi.
  - intros [|[|[|i]]]; simpl; lia.
Defined.

(** ** Matching: what is returned, ties, and symmetry *)

Lemma cosine_similarity_lengths (probe stored : list float) :
  (length probe = length stored ->
   exists s, cosine_similarity probe stored = inr s) /\
  (length probe <> length stored ->
   exists e, cosine_similarity probe stored = inl e).
Proof.
  unfold cosine_similarity, np_dot.
  destruct (Nat.eqb_spec (length probe) (length stored)); split; intros;
    try done; by eexists.
Qed.

Lemma similarities_lengths (probe : list float) (embeddings : list (Stored float)) :
  (Forall (fun stored => length (stored_embedding stored) = length probe)
     embeddings ->
   similarities probe embeddings = inr (map (match_of probe) embeddings)) /\
  (Exists (fun stored => length (stored_embedding stored) <> length probe)
     embeddings ->
   exists e, similarities probe embeddings = inl e).
Proof.
  split.
  - induction 1 as [|stored rest Hlen _ IH]; simpl; [done|].
    destruct (proj1 (cosine_similarity_lengths probe (stored_embedding stored)))
      as [s Hs]; [done|].
    rewrite Hs, IH. unfold match_of at 2. by rewrite Hs.
  - induction 1 as [stored rest Hlen|stored rest _ [e IH]]; simpl.
    + destruct (proj2 (cosine_similarity_lengths probe (stored_embedding stored)))
        as [e He]; [done|]. rewrite He. by eexists.
    + destruct (cosine_similarity probe (stored_embedding stored));
        [by eexists|]. rewrite IH. by eexists.
Qed.

(** X17: [compare_faces] applies no threshold and loses no candidate.
    When every stored embedding has the length of the selfie's, the
    answer is 200 and its matches are, in some order, exactly one match
    for each stored embedding, with its [photoId]; when one stored
    embedding has another length, the answer is 500 and carries no match
    at all, not even for the candidates before it. *)
Theorem compare_faces_keeps_every_candidate (face : FaceInfo)
    (others : list FaceInfo) (embeddings : list (Stored float)) :
  embeddings <> [] ->
  (Forall (fun stored => length (stored_embedding stored) = length (embedding face))
     embeddings ->
   exists ms,
     compare_faces (face :: others) embeddings = Ok200 ms /\
     ms ≡ₚ map (match_of (embedding face)) embeddings /\
     map photoId ms ≡ₚ map stored_photoId embeddings /\
     length ms = length embeddings) /\
  (Exists (fun stored => length (stored_embedding stored) <> length (embedding face))
     embeddings ->
   exists error, compare_faces (face :: others) embeddings = Err500 error).
Proof.
  intros Hne.
  destruct (similarities_lengths (embedding face) embeddings) as [Hall Hsome].
  unfold compare_faces, rank_matches.
  destruct embeddings as [|stored rest]; [done|]. split.
  - intros Hlen. rewrite (Hall Hlen). eexists. split; [done|].
    assert (Hperm : list_sort similarity PrimFloat.ltb true
                      (map (match_of (embedding face)) (stored :: rest))
                    ≡ₚ map (match_of (embedding face)) (stored :: rest))
      by apply list_sort_perm.
    split; [done|]. split.
    + rewrite Hperm. by rewrite map_map.
    + by rewrite Hperm, length_map.
  - intros Hlen. destruct (Hsome Hlen) as [e ->]. by eexists.
Qed.

Lemma compare_faces_keeps_every_candidate_witness :
  exists ms,
    compare_faces [selfie_face] [stored_near; stored_far; stored_same] = Ok200 ms /\
    map photoId ms ≡ₚ ["near"; "far"; "same"].
Proof.
  destruct (compare_faces_keeps_every_candidate selfie_face []
              [stored_near; stored_far; stored_same]) as [Hall _];
    [discriminate|].
  destruct Hall as (ms & Hrun & _ & Hids & _).
  - repeat constructor.
  - exists ms. split; [exact Hrun|exact Hids].
Defined.

(** Sorting by a key keeps the elements of one key in their order. *)
Section SortStable.
Context {A : Type} (k : A -> Z * Z * Z) (c : Z * Z * Z).

#[local] Abbreviation ascending := (ascending_by k).
#[local] Abbreviation has_key := (fun x : A => bool_decide (k x = c)).

Lemma filter_above (x : A) (l : list A) :
  k x = c -> Forall (fun y => key_ltb (k x) (k y) = true) l ->
  List.filter has_key l = [].
Proof.
  intros Hx. induction 1 as [|y l Hy _ IH]; simpl; [done|].
  rewrite IH. case_bool_decide as Hc; [|done].
  rewrite Hx, Hc in Hy. unfold key_ltb in Hy.
  by rewrite key_compare_refl in Hy.
Qed.

Lemma insert_sorted_filter (x : A) (l : list A) :
  StronglySorted ascending l ->
  List.filter has_key (insert_sorted k key_ltb x l) =
  List.filter has_key l ++ (if has_key x then [x] else []).
Proof.
  induction 1 as [|y l Hl IH Hy]; simpl; [by case_bool_decide|].
  destruct (key_ltb (k x) (k y)) eqn:Hlt.
  - simpl. case_bool_decide as Hx.
    + assert (Hnil : List.filter has_key (y :: l) = []).
      { apply (filter_above x); [done|]. constructor; [done|].
        eapply Forall_impl; [exact Hy|]. intros z Hz. cbn in Hz.
        unfold key_ltb, ascending_by, key_le in *.
        destruct (key_compare (k x) (k y)) eqn:Hxy; try done.
        destruct (k x) as [[a1 a2] a3], (k y) as [[b1 b2] b3],
          (k z) as [[c1 c2] c3].
        apply key_compare_Lt in Hxy.
        rewrite key_compare_Gt_iff in Hz.
        destruct (key_compare (a1, a2, a3) (c1, c2, c3)) eqn:Hxz; [| done |].
        - apply key_compare_Eq in Hxz. simplify_eq. lia.
        - apply key_compare_Gt_iff in Hxz. lia. }
      simpl in Hnil. by rewrite Hnil.
    + by rewrite app_nil_r.
  - simpl. rewrite IH. by destruct (bool_decide (k y = c)).
Qed.

Lemma sort_ascending_filter (l : list A) :
  List.filter has_key (sort_ascending k key_ltb l) = List.filter has_key l.
Proof.
  unfold sort_ascending.
  enough (forall acc, StronglySorted ascending acc ->
    List.filter has_key
      (fold_left (fun acc x => insert_sorted k key_ltb x acc) l acc) =
    List.filter has_key acc ++ List.filter has_key l) as H
    by (apply (H []); constructor).
  induction l as [|x l IH]; intros acc Hacc; simpl.
  - by rewrite app_nil_r.
  - rewrite IH by (by apply insert_sorted_sorted).
    rewrite insert_sorted_filter by done. rewrite <- app_assoc.
    by destruct (bool_decide (k x = c)).
Qed.

Lemma list_sort_reverse_filter (l : list A) :
  List.filter has_key (list_sort k key_ltb true l) = List.filter has_key l.
Proof.
  unfold list_sort. rewrite filter_rev, sort_ascending_filter, filter_rev.
  apply rev_involutive.
Qed.
End SortStable.

Lemma eqb_nan_r (x s : float) : is_nan s = true -> PrimFloat.eqb x s = false.
Proof.
  unfold is_nan. rewrite !FloatAxioms.eqb_spec. unfold SFeqb.
  destruct (Prim2SF s) as [b|b| |b ms es] eqn:Hs; cbn; intros H;
    try (by destruct (Prim2SF x) as [?|?| |? ? ?]; cbn; repeat case_match);
    try (by destruct b).
  rewrite Pos.compare_cont_refl in H.
  destruct b; rewrite ?Z.compare_refl in H; cbn in H; try done.
Qed.

(** X18: among matches of equal similarity [compare_faces] keeps the
    order of the request. For stored embeddings whose similarities to
    the selfie are all numbers, the matches with any given similarity
    [s] come in the answer in the order in which their stored embeddings
    came in the request. *)
Theorem compare_faces_ties_keep_request_order (face : FaceInfo)
    (others : list FaceInfo) (embeddings : list (Stored float)) (s : float) :
  embeddings <> [] ->
  comparable (embedding face) embeddings ->
  exists ms,
    compare_faces (face :: others) embeddings = Ok200 ms /\
    List.filter (fun m => PrimFloat.eqb (similarity m) s) ms =
    List.filter (fun m => PrimFloat.eqb (similarity m) s)
      (map (match_of (embedding face)) embeddings).
Proof.
  intros Hne Hcmp.
  destruct (similarities_comparable _ _ Hcmp) as [Hsim Hnan].
  unfold compare_faces, rank_matches. rewrite Hsim.
  destruct embeddings as [|stored rest]; [done|].
  eexists. split; [done|].
  set (ms := map (match_of (embedding face)) (stored :: rest)) in *.
  destruct (is_nan s) eqn:Hs.
  - assert (Hnone : forall l : list (Match float),
              List.filter (fun m => PrimFloat.eqb (similarity m) s) l = []).
    { induction l as [|m l IH]; simpl; [done|]. by rewrite eqb_nan_r. }
    by rewrite !Hnone.
  - rewrite list_sort_float_key by done.
    assert (Hkey : forall l : list (Match float),
              Forall (fun m => is_nan (similarity m) = false) l ->
              List.filter (fun m => PrimFloat.eqb (similarity m) s) l =
              List.filter (fun m => bool_decide (float_key (similarity m)
                                                 = float_key s)) l).
    { intros l Hl. apply filter_ext_in. intros m Hm.
      rewrite Forall_forall in Hl.
      apply list_elem_of_In in Hm. specialize (Hl m Hm).
      pose proof (eqb_key (similarity m) s Hl Hs) as Heq.
      destruct (PrimFloat.eqb (similarity m) s); case_bool_decide as Hk;
        try done.
      - exfalso. apply Hk. by apply Heq.
      - apply Heq in Hk. done. }
    rewrite !Hkey; [|done|by rewrite list_sort_perm].
    apply (list_sort_reverse_filter
             (fun m => float_key (similarity m)) (float_key s)).
Qed.

Lemma compare_faces_ties_keep_request_order_witness :
  exists ms,
    compare_faces [selfie_face] [stored_far; stored_near; stored_zero_up] = Ok200 ms /\
    List.filter (fun m => PrimFloat.eqb (similarity m) 0) ms =
    List.filter (fun m => PrimFloat.eqb (similarity m) 0)
      (map (match_of (embedding selfie_face))
         [stored_far; stored_near; stored_zero_up]) /\
    map photoId (List.filter (fun m => PrimFloat.eqb (similarity m) 0) ms)
      = ["far"; "up"].
Proof.
  destruct (compare_faces_ties_keep_request_order selfie_face []
              [stored_far; stored_near; stored_zero_up] 0)
    as (ms & Hrun & Hties).
  - discriminate.
  - repeat constructor; eexists; (split; [vm_compute; reflexivity|]);
      vm_compute; reflexivity.
  - exists ms. split; [exact Hrun|]. split; [exact Hties|].
    rewrite Hties. vm_compute. reflexivity.
Defined.

(** ** The scaled longer edge: proofs *)

(** The mantissa of a normal binary64 number has 53 bits. *)
Lemma valid_mantissa_bounds (s : bool) (m : positive) (e : Z) :
  SpecFloat.valid_binary prec emax (S754_finite s m e) = true ->
  -1074 < e ->
  4503599627370496 <= Z.pos m < 9007199254740992.
Proof.
  unfold SpecFloat.valid_binary. intros Hvalid He.
  destruct (bounded_mantissa m e Hvalid) as (_ & Hhi & Hlo).
  specialize (Hlo He). lia.
Qed.

Lemma int_of_float_finite (p : float) (m : positive) (e : Z) (q : Z) :
  Prim2SF p = S754_finite false m (- e) -> 0 < e ->
  q * 2 ^ e <= Z.pos m < (q + 1) * 2 ^ e ->
  int_of_float p = inr q.
Proof.
  intros Hp He Hm. unfold int_of_float. rewrite Hp. f_equal.
  change (Z.shiftl (Z.pos m) (- e)) with (Z.shiftr (Z.pos m) e).
  rewrite Z.shiftr_div_pow2 by lia. symmetry.
  apply (Z.div_unique_pos _ _ _ (Z.pos m - q * 2 ^ e)); lia.
Qed.

(** A binary64 number from 1023 up to 1025 truncates to 1023 or 1024,
    one from 1919 up to 1921 to 1919 or 1920. *)
Lemma int_of_float_near_1024 (p : float) :
  PrimFloat.leb 1023 p = true -> PrimFloat.ltb p 1025 = true ->
  int_of_float p = inr 1023 \/ int_of_float p = inr 1024.
Proof.
  rewrite FloatAxioms.leb_spec, FloatAxioms.ltb_spec.
  change (Prim2SF 1023) with (S754_finite false 8998403161718784 (-43)).
  change (Prim2SF 1025) with (S754_finite false 4507997673881600 (-42)).
  pose proof (FloatAxioms.Prim2SF_valid p) as Hvalid.
  unfold SFleb, SFltb.
  destruct (Prim2SF p) as [s|s| |s m e] eqn:Hp; try (by destruct s); [done|].
  rewrite !SFcompare_key by done. cbn [sf_key].
  destruct s; [done|].
  intros Hlo Hhi.
  assert (Hlo' : key_le (1, -43, 8998403161718784) (1, e, Z.pos m))
    by (unfold key_le; by destruct (key_compare _ _)).
  assert (Hhi' : key_compare (1, e, Z.pos m) (1, -42, 4507997673881600) = Lt)
    by (by destruct (key_compare (1, e, Z.pos m) (1, -42, 4507997673881600))).
  apply key_le_iff in Hlo'. apply key_compare_Lt in Hhi'.
  assert (He : e = -43 \/ e = -42) by lia.
  pose proof (valid_mantissa_bounds false m e Hvalid ltac:(lia)) as Hm.
  destruct He as [-> | ->]; [left|right].
  - apply (int_of_float_finite p m 43); [done|lia|].
    change (2 ^ 43) with 8796093022208. lia.
  - apply (int_of_float_finite p m 42); [done|lia|].
    change (2 ^ 42) with 4398046511104. lia.
Qed.

Lemma int_of_float_near_1920 (p : float) :
  PrimFloat.leb 1919 p = true -> PrimFloat.ltb p 1921 = true ->
  int_of_float p = inr 1919 \/ int_of_float p = inr 1920.
Proof.
  rewrite FloatAxioms.leb_spec, FloatAxioms.ltb_spec.
  change (Prim2SF 1919) with (S754_finite false 8439851254808576 (-42)).
  change (Prim2SF 1921) with (S754_finite false 8448647347830784 (-42)).
  unfold SFleb, SFltb.
  destruct (Prim2SF p) as [s|s| |s m e] eqn:Hp; try (by destruct s); [done|].
  rewrite !SFcompare_key by done. cbn [sf_key].
  destruct s; [done|].
  intros Hlo Hhi.
  assert (Hlo' : key_le (1, -42, 8439851254808576) (1, e, Z.pos m))
    by (unfold key_le; by destruct (key_compare _ _)).
  assert (Hhi' : key_compare (1, e, Z.pos m) (1, -42, 8448647347830784) = Lt)
    by (by destruct (key_compare (1, e, Z.pos m) (1, -42, 8448647347830784))).
  apply key_le_iff in Hlo'. apply key_compare_Lt in Hhi'.
  assert (He : e = -42) by lia. subst e.
  assert (Hcases : Z.pos m < 1920 * 2 ^ 42 \/ 1920 * 2 ^ 42 <= Z.pos m) by lia.
  change (2 ^ 42) with 4398046511104 in Hcases.
  destruct Hcases; [left|right].
  - apply (int_of_float_finite p m 42); [done|lia|].
    change (2 ^ 42) with 4398046511104. lia.
  - apply (int_of_float_finite p m 42); [done|lia|].
    change (2 ^ 42) with 4398046511104. lia.
Qed.

(** [float(n)] for an [int] that fits a machine integer. *)
Lemma Z_to_float_of_uint63 (n : Z) :
  0 <= n < Uint63Axioms.wB ->
  Z_to_float n = PrimFloat.of_uint63 (Uint63Axioms.of_Z n).
Proof.
  intros Hn. unfold Z_to_float.
  rewrite <- (SF2Prim_Prim2SF (of_uint63 _)). f_equal.
  rewrite FloatAxioms.of_uint63_spec, Uint63.of_Z_spec.
  by rewrite Z.mod_small.
Qed.

Lemma float_of_int_finite (n : Z) :
  0 <= n < Uint63Axioms.wB ->
  PrimFloat.leb 0 (PrimFloat.of_uint63 (Uint63Axioms.of_Z n)) = true ->
  PrimFloat.ltb (PrimFloat.of_uint63 (Uint63Axioms.of_Z n)) infinity = true ->
  float_of_int n = inr (PrimFloat.of_uint63 (Uint63Axioms.of_Z n)).
Proof.
  intros Hn. unfold float_of_int. rewrite Z_to_float_of_uint63 by done.
  rewrite FloatAxioms.leb_spec, FloatAxioms.ltb_spec.
  change (Prim2SF 0) with (S754_zero false).
  change (Prim2SF infinity) with (S754_infinity false).
  by destruct (Prim2SF _) as [s|[]| |s m e].
Qed.

(** What [edge_fast] establishes about the code. *)
Lemma edge_fast_sound (max_dim : Z) (n : Z) :
  max_dim = 1024 \/ max_dim = 1920 ->
  0 < n < Uint63Axioms.wB ->
  edge_fast (Z_to_float max_dim) (Uint63Axioms.of_Z n) = true ->
  exists scale e,
    int_truediv max_dim n = inr scale /\ scaled n scale = inr e /\
    (e = max_dim - 1 \/ e = max_dim).
Proof.
  intros Hdim Hn. unfold edge_fast.
  rewrite !andb_true_iff. intros [[[Hpos Hfin] Hlo] Hhi].
  pose proof (float_of_int_finite n ltac:(lia) Hpos Hfin) as Hfn.
  set (fk := PrimFloat.of_uint63 (Uint63Axioms.of_Z n)) in *.
  exists (Z_to_float max_dim / fk)%float.
  assert (Hdiv : int_truediv max_dim n = inr (Z_to_float max_dim / fk)%float).
  { unfold int_truediv. rewrite Hfn.
    destruct (Z.eqb_spec n 0) as [?|_]; [lia|].
    by destruct Hdim as [-> | ->]. }
  unfold scaled. rewrite Hfn.
  destruct Hdim as [-> | ->].
  - change (Z_to_float 1024) with 1024%float in *.
    change (1024 - 1)%float with 1023%float in Hlo.
    change (1024 + 1)%float with 1025%float in Hhi.
    destruct (int_of_float_near_1024 _ Hlo Hhi) as [He|He]; rewrite He;
      eexists; (split; [done|]); split; (done || lia || auto).
  - change (Z_to_float 1920) with 1920%float in *.
    change (1920 - 1)%float with 1919%float in Hlo.
    change (1920 + 1)%float with 1921%float in Hhi.
    destruct (int_of_float_near_1920 _ Hlo Hhi) as [He|He]; rewrite He;
      eexists; (split; [done|]); split; (done || lia || auto).
Qed.

Lemma range_fast_sound (max_dim : float) (lo : PrimInt63.int) (count : positive)
    (n : Z) :
  range_fast max_dim lo count = true ->
  Uint63Axioms.to_Z lo + Z.pos count < Uint63Axioms.wB ->
  Uint63Axioms.to_Z lo <= n < Uint63Axioms.to_Z lo + Z.pos count ->
  edge_fast max_dim (Uint63Axioms.of_Z n) = true.
Proof.
  unfold range_fast. rewrite Pos2Nat.inj_iter.
  rewrite <- (positive_nat_Z count). generalize (Pos.to_nat count) as c.
  intros c Hrun Hbound Hn.
  enough (Hinv :
    Uint63Axioms.to_Z
      (nat_rect (fun _ => (PrimInt63.int * bool)%type) (lo, true)
         (fun _ '(k, ok) =>
            (PrimInt63.add k (Uint63Axioms.of_Z 1), ok && edge_fast max_dim k)) c).1
    = Uint63Axioms.to_Z lo + Z.of_nat c /\
    ((nat_rect (fun _ => (PrimInt63.int * bool)%type) (lo, true)
        (fun _ '(k, ok) =>
            (PrimInt63.add k (Uint63Axioms.of_Z 1), ok && edge_fast max_dim k)) c).2
     = true ->
     forall n, Uint63Axioms.to_Z lo <= n < Uint63Axioms.to_Z lo + Z.of_nat c ->
               edge_fast max_dim (Uint63Axioms.of_Z n) = true))
    by (by apply Hinv).
  clear Hrun Hn n. induction c as [|c IH]; simpl.
  - split; [lia|]. intros _ n Hn. lia.
  - destruct IH as [Hfst Hsnd]; [lia|].
    destruct (nat_rect _ _ _ c) as [k ok]. cbn [fst snd] in *.
    split.
    + rewrite Uint63Axioms.add_spec, Hfst.
      change (Uint63Axioms.to_Z (Uint63Axioms.of_pos 1)) with 1.
      rewrite Z.mod_small; [lia|].
      pose proof (Uint63.to_Z_bounded lo). lia.
    + intros Hok n Hn. apply andb_true_iff in Hok as [Hok Hk].
      destruct (decide (n = Uint63Axioms.to_Z lo + Z.of_nat c)) as [->|Hne].
      * by rewrite <- Hfst, Uint63Axioms.of_to_Z.
      * apply Hsnd; [done|lia].
Qed.

(** Every longer edge up to 2^20 pixels passes the check, on both
    kinds of session. *)
Lemma range_fast_1024 : range_fast 1024 (Uint63Axioms.of_Z 1025) 1048576 = true.
Proof. vm_compute. reflexivity. Qed.

Lemma range_fast_1920 : range_fast 1920 (Uint63Axioms.of_Z 1921) 1048576 = true.
Proof. vm_compute. reflexivity. Qed.

Lemma scaled_longer_edge (max_dim n : Z) :
  max_dim = 1024 \/ max_dim = 1920 ->
  max_dim < n <= 2 ^ 20 ->
  exists scale e,
    int_truediv max_dim n = inr scale /\ scaled n scale = inr e /\
    (e = max_dim - 1 \/ e = max_dim).
Proof.
  intros Hdim Hn. change (2 ^ 20) with 1048576 in Hn.
  assert (Hw : Uint63Axioms.wB = 9223372036854775808) by reflexivity.
  apply edge_fast_sound; [done|lia|].
  destruct Hdim as [-> | ->].
  - apply (range_fast_sound _ (Uint63Axioms.of_Z 1025) 1048576 n range_fast_1024);
      change (Uint63Axioms.to_Z (Uint63Axioms.of_Z 1025)) with 1025; lia.
  - apply (range_fast_sound _ (Uint63Axioms.of_Z 1921) 1048576 n range_fast_1920);
      change (Uint63Axioms.to_Z (Uint63Axioms.of_Z 1921)) with 1921; lia.
Qed.

(** The run of the normalisation on an image above the bound. *)
Lemma _optimize_image_resized (env : Env) (img : image) (w : World) (scale : float) :
  (if using_gpu w then 1920 else 1024) < Z.max (height img) (width img) ->
  int_truediv (if using_gpu w then 1920 else 1024)
    (Z.max (height img) (width img)) = inr scale ->
  (_optimize_image_for_processing env img w).1 =
  match scaled (width img) scale with
  | inl e => Raise e
  | inr new_width =>
      match scaled (height img) scale with
      | inl e => Raise e
      | inr new_height =>
          match cv2_resize env img (new_width, new_height) with
          | inl e => Raise e
          | inr resized => Ret resized
          end
      end
  end.
Proof.
  intros Hgt%Z.gtb_lt Hscale.
  unfold _optimize_image_for_processing. unfold_py. cbn.
  rewrite Hgt, Hscale. unfold_py. cbn.
  destruct (scaled (width img) scale) as [?|new_width]; cbn; [done|].
  destruct (scaled (height img) scale) as [?|new_height]; cbn; [done|].
  by destruct ((new_width <=? 0) || (new_height <=? 0)).
Qed.

(** X19: the normalisation of an image whose longer edge is above the
    bound of the session (1024 on the CPU, 1920 on an accelerator) and
    at most 2^20 pixels, the most OpenCV decodes by default: whenever it
    returns an image, the edge that was the longer one measures the
    bound or one pixel less, never more and never less than that. *)
Theorem resized_longer_edge_within_one_pixel (env : Env) (img img' : image) (w : World) :
  let max_dim := if using_gpu w then 1920 else 1024 in
  max_dim < Z.max (height img) (width img) <= 2 ^ 20 ->
  (_optimize_image_for_processing env img w).1 = Ret img' ->
  let longer := if height img <=? width img then width img' else height img' in
  longer = max_dim \/ longer = max_dim - 1.
Proof.
  cbv zeta. intros Hn.
  destruct (scaled_longer_edge (if using_gpu w then 1920 else 1024)
              (Z.max (height img) (width img)))
    as (scale & e & Hscale & He & Hrange);
    [by destruct (using_gpu w); [right|left]|done|].
  rewrite (_optimize_image_resized env img w scale) by (done || lia).
  destruct (scaled (width img) scale) as [?|new_width] eqn:Hw; [done|].
  destruct (scaled (height img) scale) as [?|new_height] eqn:Hh; [done|].
  unfold cv2_resize.
  destruct ((new_width <=? 0) || (new_height <=? 0)); [done|].
  intros [= <-]. cbn [height width].
  destruct (Z.leb_spec (height img) (width img)).
  - rewrite Z.max_r in He by lia. rewrite Hw in He. simplify_eq. lia.
  - rewrite Z.max_l in He by lia. rewrite Hh in He. simplify_eq. lia.
Qed.

Lemma resized_longer_edge_within_one_pixel_witness :
  (_optimize_image_for_processing env_three_faces
     {| height := 1000; width := 1568; pixels := [] |}
     (processor cfg_cpu env_three_faces)).1
    = Ret {| height := 653; width := 1023; pixels := [] |} /\
  (1023 = 1024 \/ 1023 = 1024 - 1).
Proof.
  assert (Hrun : (_optimize_image_for_processing env_three_faces
                    {| height := 1000; width := 1568; pixels := [] |}
                    (processor cfg_cpu env_three_faces)).1
                 = Ret {| height := 653; width := 1023; pixels := [] |})
    by (vm_compute; reflexivity).
  split; [exact Hrun|].
  apply (resized_longer_edge_within_one_pixel env_three_faces
           {| height := 1000; width := 1568; pixels := [] |}
           {| height := 653; width := 1023; pixels := [] |}
           (processor cfg_cpu env_three_faces)); [|exact Hrun].
  vm_compute. split; [reflexivity|discriminate].
Defined.

(** ** Symmetry of the similarity, the probe and the fallback report: proofs *)

Lemma SFmul_comm (x y : spec_float) : SFmul prec emax x y = SFmul prec emax y x.
Proof.
  destruct x as [sx|sx| |sx mx ex], y as [sy|sy| |sy my ey]; unfold SFmul;
    rewrite ?(xorb_comm sx sy); try reflexivity.
  by rewrite (Pos.mul_comm mx my), (Z.add_comm ex ey).
Qed.

Lemma float_mul_comm (x y : float) : (x * y)%float = (y * x)%float.
Proof.
  rewrite <- (FloatAxioms.SF2Prim_Prim2SF (y * x)).
  rewrite FloatAxioms.mul_spec, <- SFmul_comm, <- FloatAxioms.mul_spec.
  by rewrite FloatAxioms.SF2Prim_Prim2SF.
Qed.

Lemma zip_with_mul_comm (a b : list float) :
  zip_with PrimFloat.mul a b = zip_with PrimFloat.mul b a.
Proof.
  revert b. induction a as [|x a IH]; intros [|y b]; cbn; [done..|].
  by rewrite float_mul_comm, IH.
Qed.

(** X20: the similarity does not depend on which of the two embeddings
    is the probe: [cosine_similarity a b] and [cosine_similarity b a]
    are the same binary64 number, bit for bit, or the same error. *)
Theorem cosine_similarity_symmetric (a b : list float) :
  cosine_similarity a b = cosine_similarity b a.
Proof.
  unfold cosine_similarity, np_dot.
  rewrite (Nat.eqb_sym (length b) (length a)).
  destruct (length a =? length b)%nat; [|done].
  cbn [num_div num_add num_mul num_zero float_arith].
  by rewrite zip_with_mul_comm, (float_mul_comm (np_linalg_norm a)).
Qed.

Lemma filter_find {A} (p : A -> bool) (l : list A) :
  match List.find p l with
  | Some x => exists rest, List.filter p l = x :: rest
  | None => List.filter p l = []
  end.
Proof.
  induction l as [|a l IH]; cbn; [done|].
  destruct (p a); [by eexists|done].
Qed.

(** X21: the probe of [compare_faces] is the first detection, not the
    largest: run on what [detect_faces] returns for the selfie, it
    answers as it does on the record of the first face of the model's
    list that passes the size test, whatever faces follow it and however
    large they are; with no such face it answers 400. *)
Theorem compare_faces_probe_is_first_detection (cfg : Config) (env : Env)
    (t0 t1 : float) (img : image) (w : World) (faces : list RawFace)
    (n m : Z) (avg : float) (embeddings : list (Stored float)) :
  model_loaded w = true ->
  stats_are w n m avg ->
  model_answer env w img (inr faces) ->
  embeddings <> [] ->
  exists selfie_faces,
    (detect_faces cfg env t0 t1 img w).1 = Ret selfie_faces /\
    compare_faces selfie_faces embeddings =
      match List.find (large_enough cfg) faces with
      | Some first => compare_faces [face_info first] embeddings
      | None => Err400 "No face detected in selfie"
      end.
Proof.
  intros Hl Hs Hm Hne.
  destruct (detect_faces_model_returns cfg env t0 t1 img w faces n m avg
              Hl Hm Hs) as (w' & Hrun & _).
  exists (valid_faces cfg faces). rewrite Hrun. split; [done|].
  rewrite valid_faces_filter.
  pose proof (filter_find (large_enough cfg) faces) as Hfind.
  destruct embeddings as [|stored rest]; [done|].
  destruct (List.find (large_enough cfg) faces) as [first|].
  - destruct Hfind as [others ->]. done.
  - by rewrite Hfind.
Qed.

Lemma compare_faces_probe_is_first_detection_witness :
  exists selfie_faces,
    (detect_faces cfg_cpu env_small_then_big 0 0.2 photo
       (processor cfg_cpu env_small_then_big)).1 = Ret selfie_faces /\
    compare_faces selfie_faces [stored_same; stored_zero_up] =
    Ok200 [ {| photoId := "same"; similarity := 1%float |};
            {| photoId := "up"; similarity := 0%float |} ].
Proof.
  destruct (compare_faces_probe_is_first_detection cfg_cpu env_small_then_big
              0 0.2 photo (processor cfg_cpu env_small_then_big)
              [raw_face 10 10 70 70; big_face] 0 0 0
              [stored_same; stored_zero_up])
    as (selfie_faces & Hrun & Hcmp).
  - reflexivity.
  - vm_compute. split; [reflexivity|]. split; [reflexivity|].
    exists (VInt 0). split; reflexivity.
  - eexists _, photo. split; [vm_compute; reflexivity|].
    split; vm_compute; reflexivity.
  - discriminate.
  - exists selfie_faces. split; [exact Hrun|]. rewrite Hcmp.
    vm_compute. reflexivity.
Defined.

(** [_initialize_model] when an accelerator was chosen, its load fails
    and the CPU load succeeds. *)
Lemma _initialize_model_fallback (cfg : Config) (env : Env)
    (a : option FaceAnalysis) (di : string) (st : loc) (h : heap) :
  let w0 := {| self_app := a; model_loaded := false; using_gpu := false;
               device_info := di; processing_stats := st; objects := h;
               calls := [] |} in
  let w := (_initialize_model cfg env w0).2 in
  accelerator_chosen cfg = true ->
  preferred_loads cfg env = false ->
  backend_loads cfg env cpu_providers (-1) (640, 640) = true ->
  (_initialize_model cfg env w0).1 = Ret tt /\
  model_loaded w = true /\ using_gpu w = false /\
  device_info w = "CPU (fallback)" /\
  self_app w = Some {| fa_name := ARCFACE_MODEL_NAME cfg;
                       fa_providers := cpu_providers;
                       fa_prepared := Some (-1, (640, 640)) |}.
Proof.
  cbv zeta.
  unfold _initialize_model, _fallback_to_cpu, choose_device, new_FaceAnalysis,
    prepare, preferred_loads, accelerator_chosen, backend_loads,
    accelerator_providers.
  unfold_py. cbn.
  destruct (import_insightface env) eqn:Himp,
    (FORCE_CPU cfg) eqn:Hforce, (GPU_AVAILABLE cfg) eqn:Hgpu; cbn;
    destruct (FaceAnalysis_new env (ARCFACE_MODEL_NAME cfg) cpu_providers) eqn:Hnc;
    cbn;
    destruct (FaceAnalysis_prepare env cpu_providers (-1) (640, 640)) eqn:Hpc;
    cbn;
    try (destruct (FaceAnalysis_new env (ARCFACE_MODEL_NAME cfg)
                     (map fst (ONNX_PROVIDERS cfg))) eqn:Hna; cbn;
         rewrite ?Hnc, ?Hpc; cbn);
    try (destruct (FaceAnalysis_prepare env (map fst (ONNX_PROVIDERS cfg))
                     (GPU_DEVICE_ID cfg) (1024, 1024)) eqn:Hpa; cbn;
         rewrite ?Hnc, ?Hpc; cbn);
    intros; simplify_eq; cbn; repeat split; done.
Qed.

(** X22: after a fallback the report of [get_model_info] describes a CPU
    session in a configuration that still names the accelerator: the
    model is loaded, [using_gpu] is false, the label is "CPU (fallback)"
    and [gpu_device_id] is [None], while [gpu_available] is true and
    [providers] is the configured list, although the model object was
    built with the CPU provider alone. *)
Theorem get_model_info_after_fallback (m : ConfigModule) (env : Env) (h : heap) :
  accelerator_chosen (imported m) = true ->
  preferred_loads (imported m) env = false ->
  backend_loads (imported m) env cpu_providers (-1) (640, 640) = true ->
  let w := (__init__ (imported m) env h).2 in
  let info := get_model_info m w in
  (__init__ (imported m) env h).1 = Ret tt /\
  info_model_loaded info = true /\ info_using_gpu info = false /\
  info_device_info info = "CPU (fallback)" /\
  info_gpu_device_id info = None /\
  info_gpu_available info = true /\
  info_providers info = map fst (ONNX_PROVIDERS (imported m)) /\
  (fa_providers <$> self_app w) = Some ["CPUExecutionProvider"].
Proof.
  intros Hacc Hpref Hcpu. cbv zeta.
  destruct (_initialize_model_fallback (imported m) env None "" (fresh (dom h))
              (<[fresh (dom h) := initial_stats]> h) Hacc Hpref Hcpu)
    as (Hret & Hl & Hg & Hd & Happ).
  fold (__init__ (imported m) env h) in *.
  unfold get_model_info. cbn. rewrite Hl, Hg, Hd, Happ.
  unfold accelerator_chosen in Hacc.
  destruct (FORCE_CPU (imported m)), (GPU_AVAILABLE (imported m)); done.
Qed.

Lemma get_model_info_after_fallback_witness :
  let w := (__init__ (imported module_cuda) env_gpu_broken ∅).2 in
  let info := get_model_info module_cuda w in
  info_device_info info = "CPU (fallback)" /\
  info_gpu_device_id info = None /\
  info_gpu_available info = true /\
  info_providers info = ["TensorrtExecutionProvider"; "CUDAExecutionProvider";
                         "CPUExecutionProvider"].
Proof.
  cbv zeta.
  destruct (get_model_info_after_fallback module_cuda env_gpu_broken ∅
              eq_refl eq_refl eq_refl)
    as (_ & _ & _ & Hd & Hid & Hav & Hprov & _).
  split; [exact Hd|]. split; [exact Hid|]. split; [exact Hav|exact Hprov].
Defined.

(** ** [process_photo] on an existing processor: proofs *)

Section RemoteFacts.
Variable m : ConfigModule.
Variable env : Env.
Variable io : Cv2IO.
Variable net : Net.

Lemma process_remote_returns (t0 t1 : float) (source url : string) (w : World) :
  exists response w',
    process_remote m env io net t0 t1 source url w = (Ret response, w').
Proof.
  unfold process_remote, try_except.
  match goal with
  | |- exists r w', (let (o, s') := ?c in _) = _ => destruct c as [[r|e] w']
  end; by eexists _, _.
Qed.

Lemma framed_process_remote (t0 t1 : float) (source url : string) (st : loc) :
  framed counters st (process_remote m env io net t0 t1 source url).
Proof.
  unfold process_remote.
  apply framed_try_except; [|intros ?; by apply framed_unchanged].
  apply framed_bind; [apply framed_lift_sum|]. intros content.
  apply framed_bind; [apply framed_lift_sum|]. intros [bgr|];
    [|by apply framed_unchanged].
  apply framed_bind; [apply framed_lift_sum|]. intros rgb.
  apply framed_bind; [apply framed_detect_faces|]. intros faces.
  by apply framed_unchanged.
Qed.

(** An answer of [process_remote] that is not a list of faces leaves
    the processor as it was. *)
Lemma process_remote_error_unchanged (t0 t1 : float) (source url : string)
    (w w' : World) (response : photo_response) :
  process_remote m env io net t0 t1 source url w = (Ret response, w') ->
  (forall faces, response <> Faces200 faces) -> w' = w.
Proof.
  unfold process_remote. unfold_py.
  destruct (requests_get net url) as [e|content]; cbn; [by intros [= _ <-]|].
  destruct (cv2_imdecode io content) as [e|[bgr|]]; cbn;
    [by intros [= _ <-]| |by intros [= _ <-]].
  destruct (cv2_cvtColor io bgr) as [e|rgb]; cbn; [by intros [= _ <-]|].
  destruct (model_loaded w) eqn:Hl.
  - destruct (detect_faces_returns (imported m) env t0 t1 rgb w Hl)
      as (l & w1 & ->). cbn. intros [= <- <-] Hno. by destruct (Hno l).
  - rewrite (detect_faces_not_loaded (imported m) env t0 t1 rgb w Hl). cbn.
    by intros [= _ <-].
Qed.
End RemoteFacts.

(** X23: once the processor exists, [process_photo] answers every
    request: no exception and no exit leaves it, the stored processor
    stays the stored processor, and a request changes at most the three
    counters of its stats dict. An answer that is not a list of faces
    (400 or 500) leaves the processor exactly as it was. *)
Theorem process_photo_always_responds (m : ConfigModule) (env : Env)
    (io : Cv2IO) (net : Net) (t0 t1 : float) (data : PhotoRequest) (w : World) :
  exists response w',
    process_photo m env io net t0 t1 data (Created w)
      = (Responds response, Created w') /\
    only_stats_changed
      ["total_processed"; "total_faces_detected"; "average_processing_time"]
      w w' /\
    ((forall faces, response <> Faces200 faces) -> w' = w).
Proof.
  unfold process_photo.
  destruct (py_or (file_reference data) (photoPath data)) as [photo_path|];
    [|by eexists _, w].
  destruct (String.eqb photo_path ""); [by eexists _, w|].
  cbn [get_face_processor].
  destruct (is_cloudinary_url photo_path);
    [|destruct (is_gridfs_id photo_path)].
  - destruct (process_remote_returns m env io net t0 t1 "Cloudinary" photo_path w)
      as (response & w' & Hrun).
    pose proof (framed_process_remote m env io net t0 t1 "Cloudinary" photo_path
                  (processing_stats w) w eq_refl) as Hframe.
    pose proof (process_remote_error_unchanged m env io net t0 t1 _ _ _ _ _ Hrun)
      as Herr.
    rewrite Hrun in *. by exists response, w'.
  - destruct (process_remote_returns m env io net t0 t1 "GridFS"
                ("http://localhost:5000/api/images/" +:+ photo_path) w)
      as (response & w' & Hrun).
    pose proof (framed_process_remote m env io net t0 t1 "GridFS"
                  ("http://localhost:5000/api/images/" +:+ photo_path)
                  (processing_stats w) w eq_refl) as Hframe.
    pose proof (process_remote_error_unchanged m env io net t0 t1 _ _ _ _ _ Hrun)
      as Herr.
    rewrite Hrun in *. by exists response, w'.
  - unfold mbind, Py_bind, bind.
    destruct (process_image_file_returns (imported m) env io t0 t1 photo_path w)
      as (l & w' & Hrun).
    pose proof (framed_process_image_file (imported m) env io t0 t1 photo_path
                  (processing_stats w) w eq_refl) as Hframe.
    rewrite Hrun in *. cbn. exists (Faces200 l), w'. split; [done|].
    split; [done|]. intros Hno. by destruct (Hno l).
Qed.

(** On the code: with the network down, a request for a Cloudinary
    image is answered 500 and the processor is as before. *)
Example process_photo_download_fails :
  process_photo module_plain env_three_faces io_photos net_down 0 0.2
    cloudinary_request (Created (processor cfg_cpu env_three_faces)) =
  (Responds (Photo500 "Could not download Cloudinary image: timed out"),
   Created (processor cfg_cpu env_three_faces)).
Proof. vm_compute. reflexivity. Qed.

(** X24: [GET /status] on an existing processor with well-formed
    statistics answers 200 with two views of the statistics that are
    different objects: [model_info] carries the stats dict of the
    processor itself, [performance_stats] the copy that
    [get_performance_stats] returns, which holds the same entries and,
    when the average is above 0, "faces_per_second" besides. The stored
    processor stays the stored processor, and on a CPU session its stats
    dict is as before. *)
Theorem get_status_two_views (m : ConfigModule) (env : Env) (w : World)
    (d : dict) (v : value) (avg : float) :
  objects w !! processing_stats w = Some d ->
  d !! "average_processing_time" = Some v ->
  stat_number v = Some avg ->
  exists snap w',
    get_status m env (Created w)
      = (Responds (Status200 (get_model_info m w) snap), Created w') /\
    info_processing_stats (get_model_info m w) = processing_stats w /\
    snap <> processing_stats w /\
    same_processor w w' /\
    objects w' !! snap =
      Some (if PrimFloat.ltb 0 avg
            then <["faces_per_second" := VFloat (1 / avg)]> d else d) /\
    (using_gpu w = false -> objects w' !! processing_stats w = Some d).
Proof.
  intros Hd Hv Hnum.
  destruct (get_performance_stats_run (imported m) env w d v avg Hd Hv Hnum)
    as (snap & h1 & Hrun & Hne & _ & Hsnap & Hcpu & _).
  exists snap, (set_objects h1 w). unfold get_status.
  cbn [get_face_processor]. rewrite Hrun.
  split; [done|]. split; [done|]. split; [done|].
  split; [by repeat split|]. split; [exact Hsnap|exact Hcpu].
Qed.

Lemma get_status_two_views_witness :
  exists snap w',
    get_status module_plain env_three_faces (Created processor_after_one)
      = (Responds (Status200 (get_model_info module_plain processor_after_one) snap),
         Created w') /\
    snap <> processing_stats processor_after_one /\
    (d ← objects w' !! snap; d !! "faces_per_second") = Some (VFloat 5) /\
    (d ← objects w' !! processing_stats processor_after_one;
     d !! "faces_per_second") = None.
Proof.
  destruct processor_after_one_stats as (H1 & H2 & H3 & H4).
  destruct (get_status_two_views module_plain env_three_faces processor_after_one
              stats_after_one (VFloat 0.2) 0.2%float H1 H2 H3)
    as (snap & w' & Hrun & _ & Hne & _ & Hsnap & Hcpu).
  exists snap, w'. split; [exact Hrun|]. split; [exact Hne|].
  rewrite Hsnap, (Hcpu eq_refl). split; [reflexivity|exact H4].
Defined.
